(** * senza: the Elastic Load Balancer component

    A shallow embedding of [senza/components/elastic_load_balancer.py]:
    [get_load_balancer_name], [get_listeners] and
    [component_elastic_load_balancer], together with the properties the
    specification states about them.

    Python values are embedded as a small JSON-like universe, dictionaries
    as insertion-ordered association lists, and the calls to the cloud
    stores, the operator prompt and the mutation of the shared output
    document as a state-and-error monad over an event trace. *)

From Stdlib Require Import String Ascii List ZArith Lia Bool.
From Stdlib Require Import Sorted Permutation DecimalString.
Import ListNotations.
Open Scope string_scope.

Set Implicit Arguments.
Set Warnings "-register-all".
Set Warnings "-notation-overridden".
Set Warnings "-notation-incompatible-prefix".
Set Warnings "-postfix-notation-not-level-1".

(** ** Python [str] operations used by the module *)

Module PyStr.

(** [s[:l]] for an arbitrary integer [l]: a negative bound counts from the
    end of the string, and bounds are clamped to [0 .. len s]. *)
Definition slice_to (l : Z) (s : string) : string :=
  let n := Z.of_nat (String.length s) in
  let stop := if (l <? 0)%Z then Z.max 0 (l + n) else Z.min l n in
  substring 0 (Z.to_nat stop) s.

Definition lower_ascii (c : ascii) : ascii :=
  let n := nat_of_ascii c in
  if (65 <=? n)%nat && (n <=? 90)%nat then ascii_of_nat (n + 32) else c.

(** [s.lower()] on the ASCII range. *)
Fixpoint lower (s : string) : string :=
  match s with
  | EmptyString => EmptyString
  | String c r => String (lower_ascii c) (lower r)
  end.

(** [s.rstrip(c)]: every trailing occurrence of [c] is removed. *)
Fixpoint rstrip (c : ascii) (s : string) : string :=
  match s with
  | EmptyString => EmptyString
  | String a r =>
      match rstrip c r with
      | EmptyString => if Ascii.eqb a c then EmptyString else String a EmptyString
      | r' => String a r'
      end
  end.

(** [s.replace(a, b)] for one-character [a] and [b]. *)
Fixpoint replace (a b : ascii) (s : string) : string :=
  match s with
  | EmptyString => EmptyString
  | String c r => String (if Ascii.eqb c a then b else c) (replace a b r)
  end.

(** [str(n)] for integers. *)
Definition of_Z (z : Z) : string := NilZero.string_of_int (Z.to_int z).
Definition of_nat (n : nat) : string := NilZero.string_of_uint (Nat.to_uint n).

(** [s.endswith(suffix)] *)
Definition endswith (s suffix : string) : Prop := exists p, s = p ++ suffix.

End PyStr.

(** ** [get_load_balancer_name] *)

Definition get_load_balancer_name (stack_name stack_version : string) : string :=
  let l := (32 - Z.of_nat (String.length stack_version) - 1)%Z in
  PyStr.slice_to l stack_name ++ "-" ++ stack_version.


(** ** Python values

    Configurations and resource documents are YAML/JSON-shaped: [None],
    booleans, integers, strings, lists and string-keyed dictionaries.  A
    dictionary keeps its insertion order, as Python's [dict] does. *)

Inductive value : Type :=
| VNone
| VBool (b : bool)
| VInt (z : Z)
| VStr (s : string)
| VList (l : list value)
| VDict (d : list (string * value)).

Definition dict (V : Type) : Type := list (string * V).

Module Dict.
Section Ops.
Context {V : Type}.

(** [d.get(k)] *)
Fixpoint get (k : string) (d : dict V) : option V :=
  match d with
  | [] => None
  | (k', v) :: r => if String.eqb k' k then Some v else get k r
  end.

(** [k in d] *)
Definition mem (k : string) (d : dict V) : bool :=
  match get k d with Some _ => true | None => false end.

(** [d[k] = v]: an existing key keeps its position, a new one goes last. *)
Fixpoint set (k : string) (v : V) (d : dict V) : dict V :=
  match d with
  | [] => [(k, v)]
  | (k', v') :: r =>
      if String.eqb k' k then (k', v) :: r else (k', v') :: set k v r
  end.

(** [del d[k]] for a key that is present. *)
Fixpoint del (k : string) (d : dict V) : dict V :=
  match d with
  | [] => []
  | (k', v') :: r => if String.eqb k' k then r else (k', v') :: del k r
  end.

(** A Python dictionary holds each key once. *)
Definition wf (d : dict V) : Prop := NoDup (map fst d).
End Ops.
End Dict.

(** Truth value of a Python object ([if x], [x or y], [not x]). *)
Definition truthy (v : value) : bool :=
  match v with
  | VNone => false
  | VBool b => b
  | VInt z => negb (z =? 0)%Z
  | VStr s => negb (String.eqb s EmptyString)
  | VList l => match l with [] => false | _ => true end
  | VDict d => match d with [] => false | _ => true end
  end.

(** [v == s] for a string literal [s]. *)
Definition eq_str (v : value) (s : string) : bool :=
  match v with
  | VStr x => String.eqb x s
  | _ => false
  end.

(** [v in (s1, s2, ...)] for a tuple of string literals. *)
Definition in_strs (v : value) (l : list string) : bool :=
  existsb (eq_str v) l.

(** ** The reserved configuration keys *)

Definition SENZA_PROPERTIES : list string :=
  ["Domains"; "HealthCheckPath"; "HealthCheckPort"; "HealthCheckProtocol";
   "HTTPPort"; "Name"; "SecurityGroups"; "SSLCertificateId"; "Type"].

Definition in_SENZA_PROPERTIES (key : string) : bool :=
  existsb (String.eqb key) SENZA_PROPERTIES.

(** ** External collaborators

    The certificate stores, the DNS store, the operator prompt and the
    security-group resolver live in other modules ([senza.manaus],
    [senza.aws], [click]); they are taken as parameters, gathered in a
    [World]. *)

(** Modelled from the spec: the certificate classes [ACMCertificate] and
    [IAMServerCertificate] are not part of this module; a certificate is an
    identifier, its store of origin and an ordering key, and the classes'
    comparison ([<], used by [sorted]) compares the ordering keys. *)
Record ACMCertificate : Type :=
  { acm_arn : string; acm_domain_name : string; acm_order : Z }.

Record IAMServerCertificate : Type :=
  { iam_arn : string; iam_name : string; iam_order : Z }.

Inductive certificate : Type :=
| FromACM (c : ACMCertificate)
| FromIAM (c : IAMServerCertificate).

Definition arn (c : certificate) : string :=
  match c with
  | FromACM a => acm_arn a
  | FromIAM i => iam_arn i
  end.

Record HostedZone : Type := { hz_id : string; hz_name : string }.

Definition HostedZone_eqb (a b : HostedZone) : bool :=
  String.eqb (hz_id a) (hz_id b) && String.eqb (hz_name a) (hz_name b).

(** A Route53 record as this module reads it: [record.type] and
    [record.hosted_zone]; the rest of its content is opaque here. *)
Record Route53Record : Type :=
  { r_name : string;
    r_type : string;
    r_hosted_zone : HostedZone;
    r_values : list string }.

Record AccountArguments : Type := { Region : string }.
Record TemplateArguments : Type := { region : string }.

(** Every call that leaves the process, in the order it is made. *)
Inductive event : Type :=
| EvGetRecords (name : string)
| EvConfirm (prompt : string) (answer : bool)
| EvDelete (hz : HostedZone) (records : list Route53Record) (comment : string)
| EvUpsert (hz : HostedZone) (records : list Route53Record) (comment : string)
| EvAcmGetByArn (region : string) (ssl_cert : value)
| EvIamGetByName (ssl_cert : value)
| EvAcmGetCertificates (region : string) (domain_name : string)
| EvIamGetCertificates (name : option string)
| EvResolveSecurityGroups (groups : value) (region : string)
| EvSecho (message : string).

Record World : Type :=
  { (** shape test behind [ACMCertificate.arn_is_acm_certificate] *)
    acm_arn_shape : value -> bool;
    (** shape test behind [IAMServerCertificate.arn_is_server_certificate] *)
    iam_arn_shape : value -> bool;
    (** [ACMCertificate.get_by_arn]: [inl msg] is a [ClientError] whose
        message is [msg] *)
    acm_get_by_arn : string -> value -> string + ACMCertificate;
    (** [IAMServerCertificate.get_by_name]: [None] when the lookup raises *)
    iam_get_by_name : value -> option IAMServerCertificate;
    (** [ACM(region).get_certificates(domain_name=...)] *)
    acm_get_certificates : string -> string -> list ACMCertificate;
    (** [IAM.get_certificates(name=...)], [None] for the unfiltered call *)
    iam_get_certificates : option string -> list IAMServerCertificate;
    (** [Route53.get_records(name=...)]; the zone is changed by this very
        module, so the answer may depend on the calls made so far *)
    route53_get_records : list event -> string -> list Route53Record;
    (** [record.to_alias()] *)
    to_alias : Route53Record -> Route53Record;
    (** the operator's answer to [click.confirm], given what happened so far *)
    operator : list event -> string -> bool;
    (** [senza.aws.resolve_security_groups] *)
    resolve_security_groups : value -> string -> value;
    (** [str()] of a list or a dictionary *)
    str_container : value -> string }.

(** ** Exceptions and the state the module works on *)

Inductive error : Type :=
| KeyError (key : string)
| TypeError
| AttributeError
| ClientError
| InvalidState (message : string)
| UsageError (message : string)
(** [clickclick.fatal_error]: print the message and exit *)
| FatalError (message : string)
(** a dictionary key that is not a string: outside this embedding *)
| OutOfModel.

Inductive result (A : Type) : Type :=
| Ok (a : A)
| Err (e : error).
Arguments Ok {A} a.
Arguments Err {A} e.

(** The output document and the configuration are objects shared with the
    caller and mutated in place; the trace records the external calls. *)
Record state : Type :=
  { trace : list event;
    definition : dict value;
    configuration : dict value }.

Definition M (A : Type) : Type := state -> result A * state.

Definition ret {A} (a : A) : M A := fun s => (Ok a, s).

Definition bind {A B} (m : M A) (k : A -> M B) : M B :=
  fun s => match m s with
           | (Ok a, s') => k a s'
           | (Err e, s') => (Err e, s')
           end.

Definition raise {A} (e : error) : M A := fun s => (Err e, s).

Declare Scope py_scope.
Delimit Scope py_scope with py.
Notation "x <- c ;; k" := (bind c (fun x => k))
  (at level 61, c at next level, right associativity) : py_scope.
Notation "c ;; k" := (bind c (fun _ => k))
  (at level 61, right associativity) : py_scope.
Open Scope py_scope.

Definition emit (e : event) : M unit :=
  fun s => (Ok tt, {| trace := trace s ++ [e];
                      definition := definition s;
                      configuration := configuration s |}).

Definition get_trace : M (list event) := fun s => (Ok (trace s), s).
Definition get_definition : M (dict value) := fun s => (Ok (definition s), s).
Definition get_configuration : M (dict value) := fun s => (Ok (configuration s), s).

Definition put_definition (d : dict value) : M unit :=
  fun s => (Ok tt, {| trace := trace s;
                      definition := d;
                      configuration := configuration s |}).

Definition put_configuration (c : dict value) : M unit :=
  fun s => (Ok tt, {| trace := trace s;
                      definition := definition s;
                      configuration := c |}).

(** [d[k]] on a dictionary *)
Definition dict_getitem {V} (d : dict V) (k : string) : M V :=
  match Dict.get k d with
  | Some v => ret v
  | None => raise (KeyError k)
  end.

(** [v[k]] on an arbitrary object with a string key: only a dictionary
    accepts it *)
Definition getitem (v : value) (k : string) : M value :=
  match v with
  | VDict d => dict_getitem d k
  | _ => raise TypeError
  end.

(** [d.get(k)], [None] when the key is absent *)
Definition dict_get_or_none (d : dict value) (k : string) : value :=
  match Dict.get k d with
  | Some v => v
  | None => VNone
  end.

(** [v.items()] *)
Definition items (v : value) : M (list (string * value)) :=
  match v with
  | VDict d => ret d
  | _ => raise AttributeError
  end.

(** ** [sorted]

    Python's [sorted] is a stable sort that only uses [<] on the elements;
    with [reverse=True] the order is descending and elements that compare
    equal still keep their original relative order. *)

Section Sorting.
Context {A : Type} (key : A -> Z).

Definition goes_after (reverse : bool) (x y : A) : bool :=
  if reverse then (key x <? key y)%Z else (key y <? key x)%Z.

Fixpoint insert (reverse : bool) (x : A) (l : list A) : list A :=
  match l with
  | [] => [x]
  | y :: r =>
      if goes_after reverse x y then y :: insert reverse x r else x :: y :: r
  end.

Definition sorted (reverse : bool) (l : list A) : list A :=
  fold_right (insert reverse) [] l.
End Sorting.

Definition nl : string := String (ascii_of_nat 10) EmptyString.
Definition dquote : string := String (ascii_of_nat 34) EmptyString.

Section Component.
Variable w : World.

(** ['{}'.format(v)] *)
Definition py_str (v : value) : string :=
  match v with
  | VNone => "None"
  | VBool true => "True"
  | VBool false => "False"
  | VInt z => PyStr.of_Z z
  | VStr s => s
  | VList _ | VDict _ => str_container w v
  end.

(** *** Calls to the stores, the prompt and the document *)

Definition ACMCertificate_get_by_arn (rgn : string) (ssl_cert : value)
  : M (string + ACMCertificate) :=
  emit (EvAcmGetByArn rgn ssl_cert) ;;
  ret (acm_get_by_arn w rgn ssl_cert).

Definition IAMServerCertificate_get_by_name (ssl_cert : value)
  : M IAMServerCertificate :=
  emit (EvIamGetByName ssl_cert) ;;
  match iam_get_by_name w ssl_cert with
  | Some c => ret c
  | None => raise ClientError
  end.

Definition ACM_get_certificates (rgn domain_name : string)
  : M (list ACMCertificate) :=
  emit (EvAcmGetCertificates rgn domain_name) ;;
  ret (acm_get_certificates w rgn domain_name).

Definition IAM_get_certificates (name : option string)
  : M (list IAMServerCertificate) :=
  emit (EvIamGetCertificates name) ;;
  ret (iam_get_certificates w name).

Definition Route53_get_records (name : string) : M (list Route53Record) :=
  t <- get_trace ;;
  emit (EvGetRecords name) ;;
  ret (route53_get_records w t name).

Definition click_confirm (prompt : string) : M bool :=
  t <- get_trace ;;
  let answer := operator w t prompt in
  emit (EvConfirm prompt answer) ;;
  ret answer.

Definition fatal_error {A} (message : string) : M A :=
  raise (FatalError message).

(** Modelled from the spec: the two ARN shape tests are not part of this
    module; an identifier that is absent matches neither shape ("if
    explicit_id is present and matches the ... shape"). *)
Definition arn_is_acm_certificate (ssl_cert : value) : bool :=
  match ssl_cert with
  | VNone => false
  | _ => acm_arn_shape w ssl_cert
  end.

Definition arn_is_server_certificate (ssl_cert : value) : bool :=
  match ssl_cert with
  | VNone => false
  | _ => iam_arn_shape w ssl_cert
  end.

(** *** [get_listeners] *)

Definition iam_pattern_of (main_zone : string) : string :=
  PyStr.replace "." "-" (PyStr.rstrip "." (PyStr.lower main_zone)).

Definition composed_name (subdomain : value) (main_zone : string) : string :=
  py_str subdomain ++ "." ++ PyStr.rstrip "." main_zone.

Definition not_found_for (name : string) : string :=
  "Could not find any matching SSL certificate for "
    ++ dquote ++ name ++ dquote.

Definition not_found_generic : string := "Could not find any SSL certificate".

Definition listener (ssl_cert http_port : value) : value :=
  VDict [("PolicyNames", VList []);
         ("SSLCertificateId", ssl_cert);
         ("Protocol", VStr "HTTPS");
         ("InstancePort", http_port);
         ("LoadBalancerPort", VInt 443)].

(** Lines 48-63: the candidates of the search by domain, as the triple
    [(name, acm_certificates, iam_certificates)].  When [main_zone] is empty
    Python leaves [name] unbound; it is only read when [main_zone] is not
    empty. *)
Definition domain_candidates (subdomain main_zone : value)
           (account_info : AccountArguments)
  : M (string * list ACMCertificate * list IAMServerCertificate) :=
  found <-
    (if truthy main_zone then
       match main_zone with
       | VStr zone =>
           let iam_pattern := iam_pattern_of zone in
           let name := composed_name subdomain zone in
           acm <- ACM_get_certificates (Region account_info) name ;;
           ret (iam_pattern, name, sorted acm_order true acm)
       | _ => raise AttributeError
       end
     else ret (EmptyString, EmptyString, [])) ;;
  let '(iam_pattern, name, acm_certificates) := found in
  iam <- IAM_get_certificates (Some iam_pattern) ;;
  let iam_certificates := sorted iam_order false iam in
  iam_certificates <-
    (match iam_certificates with
     | [] =>
         every <- IAM_get_certificates None ;;
         ret (sorted iam_order true every)
     | _ => ret iam_certificates
     end) ;;
  ret (name, acm_certificates, iam_certificates).

(** Lines 65-76: [certificates[0].arn], or the fatal error. *)
Definition first_certificate (main_zone : value) (name : string)
           (certificates : list certificate) : M value :=
  match certificates with
  | certificate :: _ => ret (VStr (arn certificate))
  | [] =>
      if truthy main_zone then fatal_error (not_found_for name)
      else fatal_error not_found_generic
  end.

Definition search_by_domain (subdomain main_zone : value)
           (account_info : AccountArguments) : M value :=
  found <- domain_candidates subdomain main_zone account_info ;;
  let '(name, acm_certificates, iam_certificates) := found in
  let certificates :=
    (map FromACM acm_certificates ++ map FromIAM iam_certificates)%list in
  first_certificate main_zone name certificates.

(** Lines 32-76: the value of [ssl_cert] when the listener is built. *)
Definition resolve_certificate (subdomain main_zone : value)
           (configuration : dict value) (account_info : AccountArguments)
  : M value :=
  let ssl_cert := dict_get_or_none configuration "SSLCertificateId" in
  if arn_is_acm_certificate ssl_cert then
    r <- ACMCertificate_get_by_arn (Region account_info) ssl_cert ;;
    match r with
    | inl error_msg => fatal_error error_msg
    | inr _ => ret ssl_cert
    end
  else if arn_is_server_certificate ssl_cert then
    ret ssl_cert
  else match ssl_cert with
       | VNone =>
           match main_zone with
           | VNone => ret ssl_cert
           | _ => search_by_domain subdomain main_zone account_info
           end
       | _ =>
           certificate <- IAMServerCertificate_get_by_name ssl_cert ;;
           ret (VStr (iam_arn certificate))
       end.

Definition get_listeners (subdomain main_zone : value)
           (configuration : dict value) (account_info : AccountArguments)
  : M value :=
  ssl_cert <- resolve_certificate subdomain main_zone configuration
                account_info ;;
  http_port <- dict_getitem configuration "HTTPPort" ;;
  ret (VList [listener ssl_cert http_port]).

(** *** The DNS records in the way of a domain *)

(** One value of [converted_records]. *)
Record conversion : Type :=
  { to_delete : list Route53Record; to_upsert : list Route53Record }.

Definition no_conversion : conversion :=
  {| to_delete := []; to_upsert := [] |}.

Definition append_record (record : Route53Record) (c : conversion)
  : conversion :=
  {| to_delete := (to_delete c ++ [record])%list;
     to_upsert := (to_upsert c ++ [to_alias w record])%list |}.

(** [converted_records[hz]] followed by the two appends: a [defaultdict]
    creates the entry, last, when the zone is met for the first time. *)
Fixpoint add_conversion (record : Route53Record)
         (converted : list (HostedZone * conversion))
  : list (HostedZone * conversion) :=
  match converted with
  | [] => [(r_hosted_zone record, append_record record no_conversion)]
  | (hz, c) :: rest =>
      if HostedZone_eqb hz (r_hosted_zone record)
      then (hz, append_record record c) :: rest
      else (hz, c) :: add_conversion record rest
  end.

(** Lines 103-108. *)
Definition convert_records (records : list Route53Record)
  : list (HostedZone * conversion) :=
  fold_left
    (fun converted record =>
       if negb (String.eqb (r_type record) "A")
       then add_conversion record converted
       else converted)
    records [].

Definition confirm_prompt (domain_name : string) (hz : HostedZone) (n : nat)
  : string :=
  nl ++ "  " ++ domain_name ++ " (" ++ hz_name hz ++ "): " ++ PyStr.of_nat n
     ++ " records need to be converted to Alias records".

Definition delete_comment : string := "Records that will be converted to Alias".
Definition upsert_comment : string := "Converted non alias records".
Definition declined : error :=
  InvalidState "Can't create domains because there are non A Type records.".

(** Lines 111-126. *)
Fixpoint convert_loop (domain_name : string)
         (converted : list (HostedZone * conversion)) : M unit :=
  match converted with
  | [] => ret tt
  | (hosted_zone, records) :: rest =>
      yes <- click_confirm (confirm_prompt domain_name hosted_zone
                              (List.length (to_upsert records))) ;;
      if yes then
        emit (EvDelete hosted_zone (to_delete records) delete_comment) ;;
        emit (EvUpsert hosted_zone (to_upsert records) upsert_comment) ;;
        convert_loop domain_name rest
      else raise declined
  end.

(** *** Writes to the output document *)

(** [definition["Resources"][name] = resource] *)
Definition set_resource (name : string) (resource : value) : M unit :=
  def <- get_definition ;;
  resources <- dict_getitem def "Resources" ;;
  match resources with
  | VDict rs =>
      put_definition (Dict.set "Resources" (VDict (Dict.set name resource rs)) def)
  | _ => raise TypeError
  end.

(** [definition["Resources"][name]["Properties"][key] = val] *)
Definition set_property (name key : string) (val : value) : M unit :=
  def <- get_definition ;;
  resources <- dict_getitem def "Resources" ;;
  resource <- getitem resources name ;;
  properties <- getitem resource "Properties" ;;
  match resources, resource, properties with
  | VDict rs, VDict r, VDict ps =>
      put_definition
        (Dict.set "Resources"
           (VDict (Dict.set name
                     (VDict (Dict.set "Properties"
                               (VDict (Dict.set key val ps)) r)) rs)) def)
  | _, _, _ => raise TypeError
  end.

Definition get_att (lb_name : value) (attribute : string) : value :=
  VDict [("Fn::GetAtt", VList [lb_name; VStr attribute])].

Definition record_set (lb_name : value) (domain_name : string) (zone : value)
  : value :=
  VDict [("Type", VStr "AWS::Route53::RecordSet");
         ("Properties",
          VDict [("Type", VStr "A");
                 ("Name", VStr domain_name);
                 ("HostedZoneName", VStr (py_str zone));
                 ("AliasTarget",
                  VDict [("HostedZoneId",
                          get_att lb_name "CanonicalHostedZoneNameID");
                         ("DNSName", get_att lb_name "DNSName")])])].

(** *** The loop over the configured domains (lines 98-142)

    The accumulator is the pair [(subdomain, main_zone)]. *)
Definition domain_body (lb_name : value) (info : dict string)
           (key : string) (domain : value) (acc : value * value)
  : M (value * value) :=
  let name := py_str lb_name ++ key in
  sub <- getitem domain "Subdomain" ;;
  zone <- getitem domain "Zone" ;;
  let domain_name := py_str sub ++ "." ++ py_str zone in
  records <- Route53_get_records domain_name ;;
  let converted_records := convert_records records in
  (match converted_records with
   | [] => ret tt
   | _ => convert_loop domain_name converted_records
   end) ;;
  zone <- getitem domain "Zone" ;;
  set_resource name (record_set lb_name domain_name zone) ;;
  type <- getitem domain "Type" ;;
  if eq_str type "weighted" then
    set_property name "Weight" (VInt 0) ;;
    stack_name <- dict_getitem info "StackName" ;;
    stack_version <- dict_getitem info "StackVersion" ;;
    set_property name "SetIdentifier"
                 (VStr (stack_name ++ "-" ++ stack_version)) ;;
    subdomain <- getitem domain "Subdomain" ;;
    main_zone <- getitem domain "Zone" ;;
    ret (subdomain, main_zone)
  else ret acc.

Fixpoint for_domains (lb_name : value) (info : dict string)
         (domains : list (string * value)) (acc : value * value)
  : M (value * value) :=
  match domains with
  | [] => ret acc
  | (key, domain) :: rest =>
      acc' <- domain_body lb_name info key domain acc ;;
      for_domains lb_name info rest acc'
  end.

(** *** [component_elastic_load_balancer] *)

Definition allowed_health_check_protocols : list string :=
["HTTP"; "TCP"; "UDP"; "SSL"].

Definition allowed_loadbalancer_schemes : list string :=
["internet-facing"; "internal"].

Definition unsupported_protocol (p : value) : error :=
UsageError ("Protocol " ++ dquote ++ py_str p ++ dquote
              ++ " is not supported for LoadBalancer").

Definition unsupported_scheme (s : value) : error :=
UsageError ("Scheme " ++ dquote ++ py_str s ++ dquote
              ++ " is not supported for LoadBalancer").

Definition internet_facing_warning : string :=
"You are deploying an internet-facing ELB that will be "
  ++ "publicly accessible! You should have OAUTH2 and HTTPS "
  ++ "in place!".

Definition tag (key : string) (val : string) : value :=
VDict [("Key", VStr key); ("Value", VStr val)].

(** The [Properties] of the balancer as they are computed (lines 198-232),
  before the configuration is merged over them. *)
Definition computed_properties (subnet_map health_check_target : string)
         (listeners : value) (loadbalancer_name : string)
         (security_groups : value) (stack_name stack_version : string)
: dict value :=
[("Subnets",
  VDict [("Fn::FindInMap",
          VList [VStr subnet_map; VDict [("Ref", VStr "AWS::Region")];
                 VStr "Subnets"])]);
 ("HealthCheck",
  VDict [("HealthyThreshold", VStr "2");
         ("UnhealthyThreshold", VStr "2");
         ("Interval", VStr "10");
         ("Timeout", VStr "5");
         ("Target", VStr health_check_target)]);
 ("Listeners", listeners);
 ("ConnectionDrainingPolicy",
  VDict [("Enabled", VBool true); ("Timeout", VInt 60)]);
 ("CrossZone", VStr "true");
 ("LoadBalancerName", VStr loadbalancer_name);
 ("SecurityGroups", security_groups);
 ("Tags",
  VList [tag "Name" (stack_name ++ "-" ++ stack_version);
         tag "StackName" stack_name;
         tag "StackVersion" stack_version])].

Definition load_balancer (properties : dict value) : value :=
VDict [("Type", VStr "AWS::ElasticLoadBalancing::LoadBalancer");
       ("Properties", VDict properties)].

(** [definition["Resources"][lb_name] = resource], where [lb_name] is
  whatever the configuration holds under ["Name"]: a list or a dictionary
  cannot be a key; a key that is neither that nor a string is not covered
  by this embedding.  Returns the key. *)
Definition set_resource_at (lb_name : value) (resource : value) : M string :=
def <- get_definition ;;
resources <- dict_getitem def "Resources" ;;
match resources with
| VDict _ =>
    match lb_name with
    | VStr name => set_resource name resource ;; ret name
    | VList _ | VDict _ => raise TypeError
    | _ => raise OutOfModel
    end
| _ => raise TypeError
end.

(** Lines 234-238. *)
Fixpoint override_loop (lb_name : string) (entries : list (string * value))
: M unit :=
match entries with
| [] => ret tt
| (key, val) :: rest =>
    (if negb (in_SENZA_PROPERTIES key)
     then set_property lb_name key val
     else ret tt) ;;
    override_loop lb_name rest
end.

(** Lines 166-173. *)
Definition choose_loadbalancer_name (info : dict string) : M string :=
configuration <- get_configuration ;;
if truthy (dict_get_or_none configuration "NameSuffix") then
  stack_version <- dict_getitem info "StackVersion" ;;
  suffix <- dict_getitem configuration "NameSuffix" ;;
  let version := stack_version ++ "-" ++ py_str suffix in
  stack_name <- dict_getitem info "StackName" ;;
  put_configuration (Dict.del "NameSuffix" configuration) ;;
  ret (get_load_balancer_name stack_name version)
else
  stack_name <- dict_getitem info "StackName" ;;
  stack_version <- dict_getitem info "StackVersion" ;;
  ret (get_load_balancer_name stack_name stack_version).

(** Lines 175-188. *)
Definition choose_scheme : M value :=
configuration <- get_configuration ;;
loadbalancer_scheme <-
  (match Dict.get "Scheme" configuration with
   | Some s => ret s
   | None =>
       put_configuration (Dict.set "Scheme" (VStr "internal") configuration) ;;
       ret (VStr "internal")
   end) ;;
(if eq_str loadbalancer_scheme "internet-facing"
 then emit (EvSecho internet_facing_warning) else ret tt) ;;
(if negb (in_strs loadbalancer_scheme allowed_loadbalancer_schemes)
 then raise (unsupported_scheme loadbalancer_scheme) else ret tt) ;;
ret loadbalancer_scheme.

(** Lines 144: [configuration.get('Listeners') or get_listeners(...)]. *)
Definition choose_listeners (subdomain main_zone : value)
         (configuration : dict value) (account_info : AccountArguments)
: M value :=
let configured := dict_get_or_none configuration "Listeners" in
if truthy configured then ret configured
else get_listeners subdomain main_zone configuration account_info.

(** Lines 146-164. *)
Definition choose_health_check_target (configuration : dict value) : M string :=
let health_check_protocol :=
  match Dict.get "HealthCheckProtocol" configuration with
  | Some p => p
  | None => VStr "HTTP"
  end in
(if negb (in_strs health_check_protocol allowed_health_check_protocols)
 then raise (unsupported_protocol health_check_protocol) else ret tt) ;;
let health_check_path :=
  match Dict.get "HealthCheckPath" configuration with
  | Some p => p
  | None => VStr "/ui/"
  end in
http_port <- dict_getitem configuration "HTTPPort" ;;
let health_check_port :=
  match Dict.get "HealthCheckPort" configuration with
  | Some p => p
  | None => http_port
  end in
ret (py_str health_check_protocol ++ ":" ++ py_str health_check_port
       ++ py_str health_check_path).

(** Lines 144-238: what the component does once the domains are done,
    with [acc] the pair [(subdomain, main_zone)] the loop has left. *)
Definition assemble_balancer
           (args : TemplateArguments) (info : dict string)
           (account_info : AccountArguments) (configuration : dict value)
           (lb_name : value) (acc : value * value) : M unit :=
  let '(subdomain, main_zone) := acc in
  listeners <- choose_listeners subdomain main_zone configuration account_info ;;
  health_check_target <- choose_health_check_target configuration ;;
  loadbalancer_name <- choose_loadbalancer_name info ;;
  loadbalancer_scheme <- choose_scheme ;;
  let loadbalancer_subnet_map :=
    if eq_str loadbalancer_scheme "internal"
    then "LoadBalancerInternalSubnets" else "LoadBalancerSubnets" in
  configuration <- get_configuration ;;
  groups <- dict_getitem configuration "SecurityGroups" ;;
  emit (EvResolveSecurityGroups groups (region args)) ;;
  let security_groups := resolve_security_groups w groups (region args) in
  stack_name <- dict_getitem info "StackName" ;;
  stack_version <- dict_getitem info "StackVersion" ;;
  name <- set_resource_at lb_name
            (load_balancer
               (computed_properties loadbalancer_subnet_map health_check_target
                  listeners loadbalancer_name security_groups
                  stack_name stack_version)) ;;
  override_loop name configuration.

Definition component_elastic_load_balancer
           (args : TemplateArguments) (info : dict string) (force : value)
           (account_info : AccountArguments) : M unit :=
  configuration <- get_configuration ;;
  lb_name <- dict_getitem configuration "Name" ;;
  domains <- items (match Dict.get "Domains" configuration with
                    | Some d => d
                    | None => VDict []
                    end) ;;
  acc <- for_domains lb_name info domains (VStr EmptyString, VNone) ;;
  assemble_balancer args info account_info configuration lb_name acc.

End Component.

Arguments confirm_prompt : simpl never.


(** ** Vocabulary of the statements *)

(** [x] may stand before [y] in a list sorted ascending ([reverse = false])
    or descending ([reverse = true]) by [key]. *)
Definition ordered {A} (key : A -> Z) (reverse : bool) (x y : A) : Prop :=
  if reverse then (key y <= key x)%Z else (key x <= key y)%Z.

(** [definition["Resources"][name]] *)
Definition resource (def : dict value) (name : string) : option value :=
  match Dict.get "Resources" def with
  | Some (VDict rs) => Dict.get name rs
  | _ => None
  end.

(** [definition["Resources"][name]["Properties"]] *)
Definition properties (def : dict value) (name : string)
  : option (dict value) :=
  match resource def name with
  | Some (VDict r) =>
      match Dict.get "Properties" r with
      | Some (VDict ps) => Some ps
      | _ => None
      end
  | _ => None
  end.

(** [definition["Resources"][name]["Properties"][key]] *)
Definition property (def : dict value) (name key : string) : option value :=
  match properties def name with
  | Some ps => Dict.get key ps
  | None => None
  end.

Definition has_type (type : string) (v : value) : bool :=
  match v with
  | VDict r =>
      match Dict.get "Type" r with
      | Some t => eq_str t type
      | None => false
      end
  | _ => false
  end.

Definition is_record_set : value -> bool := has_type "AWS::Route53::RecordSet".
Definition is_load_balancer : value -> bool :=
  has_type "AWS::ElasticLoadBalancing::LoadBalancer".

(** The three families of external calls. *)
Definition dns_event (e : event) : bool :=
  match e with
  | EvGetRecords _ | EvConfirm _ _ | EvDelete _ _ _ | EvUpsert _ _ _ => true
  | _ => false
  end.

Definition certificate_event (e : event) : bool :=
  match e with
  | EvAcmGetByArn _ _ | EvIamGetByName _
  | EvAcmGetCertificates _ _ | EvIamGetCertificates _ => true
  | _ => false
  end.

Definition is_decline (e : event) : bool :=
  match e with
  | EvConfirm _ false => true
  | _ => false
  end.

(** What an accepted conversion of one hosted zone does. *)
Definition conversion_events (domain_name : string)
           (entry : HostedZone * conversion) : list event :=
  let '(hz, c) := entry in
  [EvConfirm (confirm_prompt domain_name hz (List.length (to_upsert c))) true;
   EvDelete hz (to_delete c) delete_comment;
   EvUpsert hz (to_upsert c) upsert_comment].

(** The records of [records] that are in the way in hosted zone [hz]. *)
Definition colliding (hz : HostedZone) (records : list Route53Record)
  : list Route53Record :=
  filter (fun r => negb (String.eqb (r_type r) "A")
                   && HostedZone_eqb hz (r_hosted_zone r)) records.

(** What [converted_records] holds once [records] have been read: one entry
    per hosted zone that has a record of another type than ["A"], holding
    those records and their aliases. *)
Definition plan_of (w : World) (records : list Route53Record)
           (plan : list (HostedZone * conversion)) : Prop :=
  NoDup (map fst plan)
  /\ (forall hz c, In (hz, c) plan ->
                   to_delete c = colliding hz records
                   /\ to_upsert c = map (to_alias w) (to_delete c)
                   /\ to_delete c <> [])
  /\ (forall r, In r records -> r_type r <> "A" ->
                In (r_hosted_zone r) (map fst plan)).


(** [domain["Subdomain"]] and [domain["Zone"]] of the last binding of
    [domains] whose type is ["weighted"], [acc] when there is none. *)
Definition last_weighted (domains : list (string * value))
           (acc : value * value) : value * value :=
  fold_left
    (fun acc entry =>
       match snd entry with
       | VDict d =>
           match Dict.get "Type" d, Dict.get "Subdomain" d, Dict.get "Zone" d with
           | Some t, Some sub, Some zone =>
               if eq_str t "weighted" then (sub, zone) else acc
           | _, _, _ => acc
           end
       | _ => acc
       end)
    domains acc.

(** The configuration merged over computed properties (lines 234-238). *)
Definition merge (entries : list (string * value)) (ps : dict value)
  : dict value :=
  fold_left
    (fun ps entry =>
       if in_SENZA_PROPERTIES (fst entry) then ps
       else Dict.set (fst entry) (snd entry) ps)
    entries ps.

(** Every event the computation [m] adds to the trace satisfies [P]. *)
Definition emits {A} (P : event -> bool) (m : M A) : Prop :=
  forall s r s', m s = (r, s') ->
    exists evs, trace s' = (trace s ++ evs)%list /\ forallb P evs = true.

(** [m], started in a state that satisfies [P], ends (normally or with an
    exception) with a result and in a state that satisfy [Q]. *)
Definition hoare {A} (P : state -> Prop) (m : M A)
           (Q : result A -> state -> Prop) : Prop :=
  forall s r s', P s -> m s = (r, s') -> Q r s'.

(** The resources of [s'] are those of [s], except for record sets written
    in between. *)
Definition only_record_sets (s s' : state) : Prop :=
  forall n,
    resource (definition s') n = resource (definition s) n
    \/ exists v, resource (definition s') n = Some v /\ is_record_set v = true.

Definition record_set_at (name : string) (s : state) : Prop :=
  exists v, resource (definition s) name = Some v /\ is_record_set v = true.

(** What holds of every state the loop over the domains goes through, when
    it started in [s0]; and what holds in addition once the record set of
    the current domain is written under [name]. *)
Definition loop_invariant (s0 s : state) : Prop :=
  configuration s = configuration s0 /\ only_record_sets s0 s.

Definition loop_invariant_at (s0 : state) (name : string) (s : state) : Prop :=
  loop_invariant s0 s /\ record_set_at name s.

Definition not_decline (e : event) : bool := negb (is_decline e).
Definition not_certificate_event (e : event) : bool := negb (certificate_event e).

(** Either no prompt is declined while [m] runs, or [m] raises
    [InvalidState] and the declined prompt is the last thing that
    happened. *)
Definition declines_last {A} (m : M A) : Prop :=
  forall s r s', m s = (r, s') ->
    exists evs,
      trace s' = (trace s ++ evs)%list
      /\ (forallb not_decline evs = true
          \/ (r = Err declined
              /\ exists evs0 p,
                  evs = (evs0 ++ [EvConfirm p false])%list
                  /\ forallb not_decline evs0 = true)).

(** The configuration as the component leaves it (lines 166-180): a
    ["NameSuffix"] that is set is removed, a missing ["Scheme"] is added. *)
Definition final_configuration (cfg : dict value) : dict value :=
  let cfg1 :=
    if truthy (dict_get_or_none cfg "NameSuffix")
    then Dict.del "NameSuffix" cfg else cfg in
  match Dict.get "Scheme" cfg1 with
  | Some _ => cfg1
  | None => Dict.set "Scheme" (VStr "internal") cfg1
  end.

(** The calls made outside the DNS and certificate stores. *)
Definition other_event (e : event) : bool :=
  match e with
  | EvResolveSecurityGroups _ _ | EvSecho _ => true
  | _ => false
  end.

(** [configuration.get('Domains', {}).items()] *)
Definition configured_domains (cfg : dict value) : option (list (string * value)) :=
  match Dict.get "Domains" cfg with
  | Some (VDict d) => Some d
  | Some _ => None
  | None => Some []
  end.

(** [m] leaves the document and the configuration as they are. *)
Definition frames {A} (m : M A) : Prop :=
  forall s r s', m s = (r, s') ->
    definition s' = definition s /\ configuration s' = configuration s.

(** ** More vocabulary *)

(** [configuration[key]] if the key is there, [default] otherwise. *)
Definition configured (cfg : dict value) (key : string) (default : value)
  : value :=
  match Dict.get key cfg with
  | Some v => v
  | None => default
  end.

(** The calls that list certificates, as opposed to looking one up. *)
Definition search_event (e : event) : bool :=
  match e with
  | EvAcmGetCertificates _ _ | EvIamGetCertificates _ => true
  | _ => false
  end.

(** The version the balancer is named after (lines 166-173). *)
Definition name_version (w : World) (cfg : dict value) (stack_version : string)
  : string :=
  if truthy (dict_get_or_none cfg "NameSuffix")
  then stack_version ++ "-" ++ py_str w (dict_get_or_none cfg "NameSuffix")
  else stack_version.

(** The subnet mapping a scheme selects (lines 190-193). *)
Definition subnet_map_of (scheme : value) : string :=
  if eq_str scheme "internal"
  then "LoadBalancerInternalSubnets" else "LoadBalancerSubnets".

(** The record set of a binding once the loop is done with it
    (lines 128-140). *)
Definition record_set_of (w : World) (lb_name : value) (info : dict string)
           (domain : dict value) : option value :=
  match Dict.get "Subdomain" domain, Dict.get "Zone" domain,
        Dict.get "Type" domain with
  | Some sub, Some zone, Some type =>
      let domain_name := py_str w sub ++ "." ++ py_str w zone in
      let base :=
        [("Type", VStr "A");
         ("Name", VStr domain_name);
         ("HostedZoneName", VStr (py_str w zone));
         ("AliasTarget",
          VDict [("HostedZoneId", get_att lb_name "CanonicalHostedZoneNameID");
                 ("DNSName", get_att lb_name "DNSName")])] in
      if eq_str type "weighted" then
        match Dict.get "StackName" info, Dict.get "StackVersion" info with
        | Some sn, Some sv =>
            Some (VDict [("Type", VStr "AWS::Route53::RecordSet");
                         ("Properties",
                          VDict (base ++ [("Weight", VInt 0);
                                          ("SetIdentifier",
                                           VStr (sn ++ "-" ++ sv))])%list)])
        | _, _ => None
        end
      else
        Some (VDict [("Type", VStr "AWS::Route53::RecordSet");
                     ("Properties", VDict base)])
  | _, _, _ => None
  end.

(** [m] leaves the document as it is. *)
Definition keeps_definition {A} (m : M A) : Prop :=
  forall s r s', m s = (r, s') -> definition s' = definition s.

(** The document is [d0] whenever the run has failed. *)
Definition unwritten_on_failure {A} (d0 : dict value) (r : result A)
           (s : state) : Prop :=
  match r with
  | Err _ => definition s = d0
  | Ok _ => True
  end.

Definition is_get_records (e : event) : bool :=
  match e with
  | EvGetRecords _ => true
  | _ => false
  end.

(** The DNS store only has records of type ["A"] under any name. *)
Definition only_A_records (w : World) : Prop :=
  forall t name r, In r (route53_get_records w t name) -> r_type r = "A".


(** ** The DNS calls of the loop over the domains *)

(** ["{0}.{1}".format(domain["Subdomain"], domain["Zone"])], the name a
    binding is going to have (line 101). *)
Definition target_name (w : World) (subdomain zone : value) : string :=
  py_str w subdomain ++ "." ++ py_str w zone.

(** [dns_calls w t domains evs finished]: [evs] are the calls the loop over
    [domains] makes to the DNS store and to the operator when the calls made
    before are [t].  Each binding first reads the records under its target
    name; with [plan] the conversion plan of the records read, it then makes,
    for each hosted zone of the plan in turn, one confirmation, one delete
    and one upsert.  [finished] tells whether every binding has been dealt
    with; the loop is left early when a confirmation is declined, and
    between two bindings when something else fails. *)
Inductive dns_calls (w : World)
  : list event -> list (string * value) -> list event -> bool -> Prop :=
| dns_calls_done (t : list event) :
    dns_calls w t [] [] true
| dns_calls_stopped (t : list event) (domains : list (string * value)) :
    dns_calls w t domains [] false
| dns_calls_converted (t : list event) (key : string) (d : dict value)
    (sub zone : value) (rest : list (string * value))
    (plan : list (HostedZone * conversion)) (more : list event)
    (finished : bool) :
    Dict.get "Subdomain" d = Some sub ->
    Dict.get "Zone" d = Some zone ->
    plan_of w (route53_get_records w t (target_name w sub zone)) plan ->
    dns_calls w
      (t ++ EvGetRecords (target_name w sub zone)
         :: flat_map (conversion_events (target_name w sub zone)) plan)%list
      rest more finished ->
    dns_calls w t ((key, VDict d) :: rest)
      (EvGetRecords (target_name w sub zone)
         :: flat_map (conversion_events (target_name w sub zone)) plan
         ++ more)%list
      finished
| dns_calls_declined (t : list event) (key : string) (d : dict value)
    (sub zone : value) (rest : list (string * value))
    (done : list (HostedZone * conversion)) (hz : HostedZone)
    (c : conversion) (left : list (HostedZone * conversion)) :
    Dict.get "Subdomain" d = Some sub ->
    Dict.get "Zone" d = Some zone ->
    plan_of w (route53_get_records w t (target_name w sub zone))
      (done ++ (hz, c) :: left)%list ->
    dns_calls w t ((key, VDict d) :: rest)
      (EvGetRecords (target_name w sub zone)
         :: flat_map (conversion_events (target_name w sub zone)) done
         ++ [EvConfirm (confirm_prompt (target_name w sub zone) hz
                          (List.length (to_upsert c))) false])%list
      false.

(** A delete only has records of another type than ["A"], and an upsert
    only the aliases of such records. *)
Definition spares_A_records (w : World) (e : event) : Prop :=
  match e with
  | EvDelete _ records _ => Forall (fun r => r_type r <> "A") records
  | EvUpsert _ records _ =>
      exists originals,
        records = map (to_alias w) originals
        /\ Forall (fun r => r_type r <> "A") originals
  | _ => True
  end.

Definition is_ok {A} (r : result A) : bool :=
  match r with
  | Ok _ => true
  | Err _ => false
  end.

Definition not_dns_event (e : event) : bool := negb (dns_event e).
(** ** Concrete inputs

    A small account used to run the functions on explicit inputs. *)

Module Sample.

Definition account : AccountArguments := {| Region := "eu-west-1" |}.
Definition args : TemplateArguments := {| region := "eu-west-1" |}.
Definition info : dict string := [("StackName", "app"); ("StackVersion", "1")].

Definition zone : HostedZone := {| hz_id := "Z1"; hz_name := "example.org." |}.

Definition record (name type : string) : Route53Record :=
  {| r_name := name; r_type := type; r_hosted_zone := zone; r_values := [] |}.

Definition alias_of (r : Route53Record) : Route53Record :=
  {| r_name := r_name r; r_type := "A"; r_hosted_zone := r_hosted_zone r;
     r_values := ["ALIAS"] |}.

Definition acm_cert (id domain : string) (order : Z) : ACMCertificate :=
  {| acm_arn := "arn:aws:acm:" ++ id; acm_domain_name := domain;
     acm_order := order |}.

Definition iam_cert (name : string) (order : Z) : IAMServerCertificate :=
  {| iam_arn := "arn:aws:iam::server-certificate/" ++ name; iam_name := name;
     iam_order := order |}.

(** An account described by its certificates, its DNS records and the
    operator's answers; no explicit identifier has an ARN shape. *)
Definition world (acm : string -> list ACMCertificate)
           (iam : option string -> list IAMServerCertificate)
           (records : string -> list Route53Record)
           (answer : string -> bool) : World :=
  {| acm_arn_shape := fun _ => false;
     iam_arn_shape := fun _ => false;
     acm_get_by_arn := fun _ _ => inl "certificate not found";
     iam_get_by_name := fun _ => None;
     acm_get_certificates := fun _ domain_name => acm domain_name;
     iam_get_certificates := iam;
     route53_get_records := fun _ name => records name;
     to_alias := alias_of;
     operator := fun _ prompt => answer prompt;
     resolve_security_groups := fun groups _ => groups;
     str_container := fun _ => "[...]" |}.

(** An account without certificates and without DNS records. *)
Definition empty_world : World :=
  world (fun _ => []) (fun _ => []) (fun _ => []) (fun _ => true).

Definition start (configuration : dict value) : state :=
  {| trace := [];
     definition := [("Resources", VDict [])];
     configuration := configuration |}.

Definition long_version : string := "12345678901234567890123456789012".

(** Two IAM certificates match the zone pattern, no ACM certificate. *)
Definition two_iam_world : World :=
  world (fun _ => [])
        (fun name =>
           match name with
           | Some _ => [iam_cert "new" 2; iam_cert "old" 1]
           | None => []
           end)
        (fun _ => []) (fun _ => true).

(** One ACM certificate for [app.example.org], newer IAM certificates. *)
Definition acm_and_iam_world : World :=
  world (fun domain_name =>
           if String.eqb domain_name "app.example.org"
           then [acm_cert "a" "app.example.org" 1] else [])
        (fun _ => [iam_cert "new" 9; iam_cert "newer" 10])
        (fun _ => []) (fun _ => true).

(** IAM certificates only under other names than the zone pattern. *)
Definition fallback_world : World :=
  world (fun _ => [])
        (fun name =>
           match name with
           | Some _ => []
           | None => [iam_cert "old" 1; iam_cert "new" 2]
           end)
        (fun _ => []) (fun _ => true).

Definition binding (type subdomain zone_name : string) : value :=
  VDict [("Type", VStr type); ("Zone", VStr zone_name);
         ("Subdomain", VStr subdomain)].

(** A configuration with the three mandatory keys, followed by [extra]. *)
Definition config (extra : dict value) : dict value :=
  ("Name", VStr "AppLoadBalancer")
    :: ("HTTPPort", VInt 8080)
    :: ("SecurityGroups", VList [VStr "app"])
    :: extra.

Definition one_domain : string * value :=
  ("Domains", VDict [("MainDomain", binding "weighted" "app" "example.org.")]).

Definition two_weighted_domains : string * value :=
  ("Domains", VDict [("First", binding "weighted" "a" "first.org");
                     ("Second", binding "weighted" "b" "second.org")]).

Definition http_listener : value :=
  VList [VDict [("Protocol", VStr "HTTP"); ("InstancePort", VInt 8080);
                ("LoadBalancerPort", VInt 80)]].

(** A CNAME and an A record under every name; the operator answers [answer]. *)
Definition cname_world (answer : bool) : World :=
  world (fun _ => []) (fun _ => [iam_cert "any" 1])
        (fun name => [record name "CNAME"; record name "A"])
        (fun _ => answer).

(** One ACM certificate for each of [a.first.org] and [b.second.org]. *)
Definition two_zones_world : World :=
  world (fun domain_name =>
           if String.eqb domain_name "a.first.org"
           then [acm_cert "first" domain_name 1]
           else if String.eqb domain_name "b.second.org"
                then [acm_cert "second" domain_name 1]
                else [])
        (fun _ => []) (fun _ => []) (fun _ => true).

Definition run (w : World) (configuration : dict value) : result unit * state :=
  component_elastic_load_balancer w args info VNone account
    (start configuration).

End Sample.

(** ** More concrete inputs *)

Module Sample2.

(** A configuration with its own health check and an internet-facing
    scheme. *)
Definition public_config : dict value :=
  Sample.config [("HealthCheckProtocol", VStr "TCP");
                 ("HealthCheckPort", VInt 9000);
                 ("HealthCheckPath", VStr "/health");
                 ("Scheme", VStr "internet-facing");
                 ("NameSuffix", VStr "blue")].

(** An account where identifiers are told apart by their prefix, with one
    server certificate named [legacy]. *)
Definition shaped_world : World :=
  {| acm_arn_shape := fun v => match v with
                               | VStr s => String.prefix "arn:aws:acm:" s
                               | _ => false
                               end;
     iam_arn_shape := fun v => match v with
                               | VStr s => String.prefix "arn:aws:iam:" s
                               | _ => false
                               end;
     acm_get_by_arn := fun _ v =>
       match v with
       | VStr "arn:aws:acm:known" =>
           inr (Sample.acm_cert "known" "app.example.org" 1)
       | _ => inl "certificate not found"
       end;
     iam_get_by_name := fun v =>
       match v with
       | VStr "legacy" => Some (Sample.iam_cert "legacy" 1)
       | _ => None
       end;
     acm_get_certificates := fun _ _ => [];
     iam_get_certificates := fun _ => [];
     route53_get_records := fun _ _ => [];
     to_alias := Sample.alias_of;
     operator := fun _ _ => true;
     resolve_security_groups := fun groups _ => groups;
     str_container := fun _ => "[...]" |}.

End Sample2.


Module Sample3.

(** One record of type A under every name; the operator, were they asked,
    would decline. *)
Definition a_record_world : World :=
  Sample.world (fun _ => []) (fun _ => [Sample.iam_cert "any" 1])
               (fun name => [Sample.record name "A"])
               (fun _ => false).

End Sample3.
(** ** Facts about strings and [sorted] *)

Lemma PyStr_length_app (a b : string) :
  String.length (a ++ b) = String.length a + String.length b.
Proof. induction a as [|c a IH]; simpl; [reflexivity | now rewrite IH]. Qed.

Lemma PyStr_length_substring0 (k : nat) (s : string) :
  String.length (substring 0 k s) = Nat.min k (String.length s).
Proof.
  revert s; induction k as [|k IH]; intros [|c s]; simpl; try reflexivity.
  now rewrite IH.
Qed.

Lemma PyStr_length_slice_to (l : Z) (s : string) :
  (0 <= l)%Z -> String.length (PyStr.slice_to l s) <= Z.to_nat l.
Proof.
  intros Hl. unfold PyStr.slice_to.
  destruct (Z.ltb_spec l 0); [lia|].
  rewrite PyStr_length_substring0. lia.
Qed.

Lemma PyStr_slice_to_nonneg (l : Z) (s : string) :
  (0 <= l)%Z -> PyStr.slice_to l s = substring 0 (Z.to_nat l) s.
Proof.
  intros Hl. unfold PyStr.slice_to.
  destruct (Z.ltb_spec l 0); [lia|].
  destruct (Z.le_gt_cases l (Z.of_nat (String.length s))) as [Hle|Hgt].
  - now rewrite Z.min_l by lia.
  - rewrite Z.min_r by lia. rewrite Nat2Z.id.
    assert (Hk : exists d, Z.to_nat l = String.length s + d)
      by (exists (Z.to_nat l - String.length s); lia).
    destruct Hk as [d ->]. clear.
    induction s as [|c s IH]; simpl.
    + now destruct d.
    + now rewrite IH.
Qed.


Section SortingFacts.
Context {A : Type} (key : A -> Z).

Lemma insert_perm (reverse : bool) (x : A) (l : list A) :
  Permutation (insert key reverse x l) (x :: l).
Proof.
  induction l as [|y r IH]; simpl; [apply Permutation_refl|].
  destruct (goes_after key reverse x y).
  - eapply perm_trans; [apply perm_skip, IH | apply perm_swap].
  - apply Permutation_refl.
Qed.

Lemma sorted_perm (reverse : bool) (l : list A) :
  Permutation (sorted key reverse l) l.
Proof.
  induction l as [|x l IH]; simpl; [constructor|].
  eapply perm_trans; [apply insert_perm | now apply perm_skip].
Qed.

Lemma ordered_trans (reverse : bool) (x y z : A) :
  ordered key reverse x y -> ordered key reverse y z -> ordered key reverse x z.
Proof. unfold ordered; destruct reverse; lia. Qed.

Lemma insert_sorted (reverse : bool) (x : A) (l : list A) :
  StronglySorted (ordered key reverse) l ->
  StronglySorted (ordered key reverse) (insert key reverse x l).
Proof.
  induction 1 as [|y r Hs IH Hall]; simpl.
  - repeat constructor.
  - destruct (goes_after key reverse x y) eqn:G.
    + constructor; [exact IH|].
      assert (Hxy : ordered key reverse y x)
        by (unfold goes_after in G; unfold ordered; destruct reverse; lia).
      rewrite Forall_forall in *. intros z Hz.
      apply (Permutation_in _ (insert_perm reverse x r)) in Hz.
      destruct Hz as [<-|Hz]; auto.
    + assert (Hxy : ordered key reverse x y)
        by (unfold goes_after in G; unfold ordered; destruct reverse; lia).
      constructor; [now constructor|].
      constructor; [exact Hxy|].
      rewrite Forall_forall in *. intros z Hz.
      eapply ordered_trans; eauto.
Qed.

Lemma sorted_sorted (reverse : bool) (l : list A) :
  StronglySorted (ordered key reverse) (sorted key reverse l).
Proof.
  induction l as [|x l IH]; simpl; [constructor | now apply insert_sorted].
Qed.

Lemma sorted_nil (reverse : bool) (l : list A) :
  sorted key reverse l = [] <-> l = [].
Proof.
  split; intros H.
  - apply Permutation_nil. rewrite <- H. apply sorted_perm.
  - now subst.
Qed.

(** The head of a sorted list is one of the elements and no element goes
    strictly before it. *)
Lemma sorted_head (reverse : bool) (l : list A) (c : A) (r : list A) :
  sorted key reverse l = c :: r ->
  In c l /\ forall x, In x l -> ordered key reverse c x.
Proof.
  intros H.
  pose proof (sorted_perm reverse l) as P.
  pose proof (sorted_sorted reverse l) as S.
  rewrite H in P, S. split.
  - apply (Permutation_in _ P). now left.
  - intros x Hx. apply (Permutation_in _ (Permutation_sym P)) in Hx.
    inversion S as [|? ? _ Hall]; subst.
    destruct Hx as [<-|Hx].
    + unfold ordered; destruct reverse; lia.
    + rewrite Forall_forall in Hall. auto.
Qed.

End SortingFacts.

(** ** Facts about the monad *)

Lemma bind_ok {A B} (m : M A) (k : A -> M B) (s s' : state) (b : B) :
  bind m k s = (Ok b, s') ->
  exists a s1, m s = (Ok a, s1) /\ k a s1 = (Ok b, s').
Proof.
  unfold bind. destruct (m s) as [[a|e] s1]; intros H.
  - now exists a, s1.
  - discriminate.
Qed.

Lemma bind_run {A B} (m : M A) (k : A -> M B) (s s1 : state) (a : A) :
  m s = (Ok a, s1) -> bind m k s = k a s1.
Proof. unfold bind. now intros ->. Qed.

Lemma forallb_weaken (P Q : event -> bool) (evs : list event) :
  (forall e, P e = true -> Q e = true) ->
  forallb P evs = true -> forallb Q evs = true.
Proof.
  intros HPQ. rewrite !forallb_forall. auto.
Qed.

Lemma emits_weaken {A} (P Q : event -> bool) (m : M A) :
  (forall e, P e = true -> Q e = true) -> emits P m -> emits Q m.
Proof.
  intros HPQ Hm s r s' Hrun.
  destruct (Hm _ _ _ Hrun) as (evs & Ht & Hall).
  exists evs. split; [exact Ht | eapply forallb_weaken; eauto].
Qed.

Lemma emits_ret {A} (P : event -> bool) (a : A) : emits P (ret a).
Proof.
  intros s r s' H. inversion H; subst. exists []. now rewrite app_nil_r.
Qed.

Lemma emits_raise {A} (P : event -> bool) (e : error) : emits P (@raise A e).
Proof.
  intros s r s' H. inversion H; subst. exists []. now rewrite app_nil_r.
Qed.

Lemma emits_bind {A B} (P : event -> bool) (m : M A) (k : A -> M B) :
  emits P m -> (forall a, emits P (k a)) -> emits P (bind m k).
Proof.
  intros Hm Hk s r s' H. unfold bind in H.
  destruct (m s) as [[a|e] s1] eqn:Em.
  - destruct (Hm _ _ _ Em) as (ev1 & T1 & A1).
    destruct (Hk a _ _ _ H) as (ev2 & T2 & A2).
    exists (ev1 ++ ev2)%list. split.
    + now rewrite T2, T1, app_assoc.
    + rewrite forallb_app. now rewrite A1, A2.
  - inversion H; subst. exact (Hm _ _ _ Em).
Qed.

Lemma emits_emit (P : event -> bool) (e : event) :
  P e = true -> emits P (emit e).
Proof.
  intros HP s r s' H. inversion H; subst. exists [e]. simpl.
  now rewrite HP.
Qed.

Lemma emits_silent {A} (P : event -> bool) (m : M A) :
  (forall s, trace (snd (m s)) = trace s) -> emits P m.
Proof.
  intros Hm s r s' H. exists []. rewrite app_nil_r.
  specialize (Hm s). now rewrite H in Hm.
Qed.

Lemma emits_dict_getitem {V} (P : event -> bool) (d : dict V) (k : string) :
  emits P (dict_getitem d k).
Proof.
  unfold dict_getitem. destruct (Dict.get k d); [apply emits_ret | apply emits_raise].
Qed.

Lemma emits_getitem (P : event -> bool) (v : value) (k : string) :
  emits P (getitem v k).
Proof.
  destruct v; simpl; try apply emits_raise. apply emits_dict_getitem.
Qed.

(** Decomposes a goal [emits P m] along the structure of [m]. *)
Ltac emits_step :=
  match goal with
  | |- emits _ (bind _ _) => apply emits_bind; [|intros]
  | |- emits _ (ret _) => apply emits_ret
  | |- emits _ (raise _) => apply emits_raise
  | |- emits _ (fatal_error _) => apply emits_raise
  | |- emits _ (emit _) => apply emits_emit; reflexivity
  | |- emits _ (dict_getitem _ _) => apply emits_dict_getitem
  | |- emits _ (getitem _ _) => apply emits_getitem
  | |- emits _ get_trace => apply emits_silent; reflexivity
  | |- emits _ get_definition => apply emits_silent; reflexivity
  | |- emits _ get_configuration => apply emits_silent; reflexivity
  | |- emits _ (put_definition _) => apply emits_silent; reflexivity
  | |- emits _ (put_configuration _) => apply emits_silent; reflexivity
  | |- emits _ (let '(_, _) := ?p in _) => destruct p
  | |- emits _ (if ?b then _ else _) => destruct b
  | |- emits _ (match ?x with _ => _ end) => destruct x
  end.

Ltac emits_auto := repeat emits_step.

Section ComponentEvents.
Variable w : World.

Lemma emits_set_resource (P : event -> bool) (name : string) (v : value) :
  emits P (set_resource name v).
Proof. unfold set_resource. emits_auto. Qed.

Lemma emits_set_property (P : event -> bool) (name key : string) (v : value) :
  emits P (set_property name key v).
Proof. unfold set_property. emits_auto. Qed.

Lemma emits_convert_loop (domain_name : string)
      (converted : list (HostedZone * conversion)) :
  emits dns_event (convert_loop w domain_name converted).
Proof.
  induction converted as [|[hz c] rest IH]; simpl.
  - apply emits_ret.
  - unfold click_confirm. emits_auto. exact IH.
Qed.

Lemma emits_domain_body lb_name info key domain acc :
  emits dns_event (domain_body w lb_name info key domain acc).
Proof.
  unfold domain_body, Route53_get_records.
  repeat first [ apply emits_set_resource | apply emits_set_property
               | apply emits_convert_loop | emits_step ].
Qed.

Lemma emits_for_domains lb_name info domains acc :
  emits dns_event (for_domains w lb_name info domains acc).
Proof.
  revert acc. induction domains as [|[key domain] rest IH]; intros acc; simpl.
  - apply emits_ret.
  - apply emits_bind; [apply emits_domain_body | intros; apply IH].
Qed.

Lemma emits_resolve_certificate subdomain main_zone cfg account_info :
  emits certificate_event
        (resolve_certificate w subdomain main_zone cfg account_info).
Proof.
  unfold resolve_certificate, search_by_domain, domain_candidates,
    first_certificate, ACMCertificate_get_by_arn,
    IAMServerCertificate_get_by_name, ACM_get_certificates,
    IAM_get_certificates.
  emits_auto.
Qed.

Lemma emits_get_listeners subdomain main_zone cfg account_info :
  emits certificate_event (get_listeners w subdomain main_zone cfg account_info).
Proof.
  unfold get_listeners.
  apply emits_bind; [apply emits_resolve_certificate | intros; emits_auto].
Qed.

End ComponentEvents.

(** ** Facts about the certificate search *)

Section CertificateFacts.
Variable w : World.

(** The ACM candidates are what the ACM store returns for the composed
    name, sorted descending; there are none when the zone is empty. *)
Lemma domain_candidates_acm subdomain main_zone account_info s name acm iam s1 :
  domain_candidates w subdomain main_zone account_info s
  = (Ok (name, acm, iam), s1) ->
  acm = []
  \/ acm = sorted acm_order true
             (acm_get_certificates w (Region account_info) name).
Proof.
  unfold domain_candidates, ACM_get_certificates, IAM_get_certificates.
  intros H.
  destruct (truthy main_zone) eqn:T.
  - destruct main_zone; try (cbn in H; discriminate).
    cbn in H.
    destruct (sorted iam_order false (iam_get_certificates w _));
      cbn in H; inversion H; subst; now right.
  - cbn in H.
    destruct (sorted iam_order false (iam_get_certificates w _));
      cbn in H; inversion H; subst; now left.
Qed.

(** With no explicit certificate and a zone, resolution is the search by
    domain. *)
Lemma resolve_certificate_search subdomain main_zone cfg account_info :
  dict_get_or_none cfg "SSLCertificateId" = VNone ->
  main_zone <> VNone ->
  resolve_certificate w subdomain main_zone cfg account_info
  = search_by_domain w subdomain main_zone account_info.
Proof.
  intros Hc Hz. unfold resolve_certificate. rewrite Hc. simpl.
  destruct main_zone; congruence.
Qed.

(** The candidates for a zone given as a string. *)
Lemma domain_candidates_zone subdomain zone account_info s :
  exists s1,
    domain_candidates w subdomain (VStr zone) account_info s
    = (Ok (if String.eqb zone EmptyString then EmptyString
           else composed_name w subdomain zone,
           if String.eqb zone EmptyString then []
           else sorted acm_order true
                  (acm_get_certificates w (Region account_info)
                     (composed_name w subdomain zone)),
           match sorted iam_order false
                   (iam_get_certificates w (Some (iam_pattern_of zone))) with
           | [] => sorted iam_order true (iam_get_certificates w None)
           | l => l
           end), s1).
Proof.
  unfold domain_candidates, ACM_get_certificates, IAM_get_certificates.
  destruct (String.eqb zone EmptyString) eqn:E.
  - apply String.eqb_eq in E. subst zone. cbn.
    destruct (sorted iam_order false (iam_get_certificates w _));
      cbn; eexists; reflexivity.
  - cbn. rewrite E. cbn.
    destruct (sorted iam_order false (iam_get_certificates w _));
      cbn; eexists; reflexivity.
Qed.

End CertificateFacts.

(** ** Facts about dictionaries *)

Section DictFacts.
Context {V : Type}.

Lemma Dict_get_set_eq (k : string) (v : V) (d : dict V) :
  Dict.get k (Dict.set k v d) = Some v.
Proof.
  induction d as [|[k' v'] r IH]; simpl.
  - now rewrite String.eqb_refl.
  - destruct (String.eqb k' k) eqn:E; simpl; rewrite E; [reflexivity | exact IH].
Qed.

Lemma Dict_get_set_neq (k k' : string) (v : V) (d : dict V) :
  k <> k' -> Dict.get k' (Dict.set k v d) = Dict.get k' d.
Proof.
  intros Hk. induction d as [|[k0 v0] r IH]; simpl.
  - destruct (String.eqb_spec k k'); [contradiction | reflexivity].
  - destruct (String.eqb_spec k0 k) as [->|Hn]; simpl.
    + destruct (String.eqb_spec k k'); [contradiction | reflexivity].
    + destruct (String.eqb_spec k0 k'); [reflexivity | exact IH].
Qed.

Lemma Dict_get_del_neq (k k' : string) (d : dict V) :
  k <> k' -> Dict.get k' (Dict.del k d) = Dict.get k' d.
Proof.
  intros Hk. induction d as [|[k0 v0] r IH]; simpl; [reflexivity|].
  destruct (String.eqb_spec k0 k) as [->|Hn]; simpl.
  - destruct (String.eqb_spec k k'); [contradiction | reflexivity].
  - destruct (String.eqb_spec k0 k'); [reflexivity | exact IH].
Qed.

Lemma Dict_get_none (k : string) (d : dict V) :
  Dict.get k d = None <-> ~ In k (map fst d).
Proof.
  induction d as [|[k0 v0] r IH]; simpl.
  - tauto.
  - destruct (String.eqb_spec k0 k) as [->|Hn].
    + split; [discriminate | intros H; exfalso; apply H; now left].
    + rewrite IH. tauto.
Qed.

Lemma Dict_keys_set (k : string) (v : V) (d : dict V) :
  map fst (Dict.set k v d)
  = if Dict.mem k d then map fst d else (map fst d ++ [k])%list.
Proof.
  unfold Dict.mem. induction d as [|[k0 v0] r IH]; simpl; [reflexivity|].
  destruct (String.eqb k0 k) eqn:E; simpl; [reflexivity|].
  rewrite IH. now destruct (Dict.get k r).
Qed.

Lemma Dict_wf_set (k : string) (v : V) (d : dict V) :
  Dict.wf d -> Dict.wf (Dict.set k v d).
Proof.
  unfold Dict.wf. intros Hd. rewrite Dict_keys_set. unfold Dict.mem.
  destruct (Dict.get k d) eqn:G; [exact Hd|].
  apply Dict_get_none in G.
  apply NoDup_app; [exact Hd | repeat constructor; intros [] | ].
  intros x Hx [<-|[]]. contradiction.
Qed.

Lemma Dict_keys_del_incl (k : string) (d : dict V) :
  incl (map fst (Dict.del k d)) (map fst d).
Proof.
  induction d as [|[k0 v0] r IH]; simpl; [apply incl_refl|].
  destruct (String.eqb k0 k); simpl.
  - apply incl_tl, incl_refl.
  - intros x [<-|Hx]; [now left | right; now apply IH].
Qed.

Lemma Dict_wf_del (k : string) (d : dict V) :
  Dict.wf d -> Dict.wf (Dict.del k d).
Proof.
  unfold Dict.wf. induction d as [|[k0 v0] r IH]; simpl; intros Hd.
  - constructor.
  - inversion Hd as [|? ? Hnin Hr]; subst.
    destruct (String.eqb k0 k); simpl; [exact Hr|].
    constructor; [|now apply IH].
    intros Hin. apply Hnin. now apply (@Dict_keys_del_incl k r).
Qed.

Lemma Dict_get_del_eq (k : string) (d : dict V) :
  Dict.wf d -> Dict.get k (Dict.del k d) = None.
Proof.
  unfold Dict.wf. induction d as [|[k0 v0] r IH]; simpl; intros Hd.
  - reflexivity.
  - inversion Hd as [|? ? Hnin Hr]; subst.
    destruct (String.eqb_spec k0 k) as [->|Hn]; simpl.
    + now apply Dict_get_none.
    + destruct (String.eqb_spec k0 k); [contradiction | now apply IH].
Qed.

End DictFacts.

Lemma in_SENZA_PROPERTIES_spec (k : string) :
  in_SENZA_PROPERTIES k = true <-> In k SENZA_PROPERTIES.
Proof.
  unfold in_SENZA_PROPERTIES. rewrite existsb_exists. split.
  - intros (x & Hx & E). apply String.eqb_eq in E. now subst.
  - intros H. exists k. split; [exact H | apply String.eqb_refl].
Qed.

(** The value the merge leaves under [k]: the configured one when [k] is
    configured and not reserved, the computed one otherwise. *)
Lemma merge_get (entries : list (string * value)) (ps : dict value) (k : string) :
  Dict.wf entries ->
  Dict.get k (merge entries ps)
  = if in_SENZA_PROPERTIES k then Dict.get k ps
    else match Dict.get k entries with
         | Some v => Some v
         | None => Dict.get k ps
         end.
Proof.
  unfold merge, Dict.wf. revert ps.
  induction entries as [|[k0 v0] r IH]; intros ps Hwf; simpl.
  - now destruct (in_SENZA_PROPERTIES k).
  - inversion Hwf as [|? ? Hnin Hr]; subst.
    rewrite (IH _ Hr).
    destruct (in_SENZA_PROPERTIES k) eqn:Rk.
    + destruct (in_SENZA_PROPERTIES k0) eqn:R0; [reflexivity|].
      apply Dict_get_set_neq. intros ->. congruence.
    + destruct (String.eqb_spec k0 k) as [->|Hn].
      * rewrite Rk.
        assert (G : Dict.get k r = None) by now apply Dict_get_none.
        rewrite G. apply Dict_get_set_eq.
      * destruct (Dict.get k r); [reflexivity|].
        destruct (in_SENZA_PROPERTIES k0); [reflexivity|].
        now apply Dict_get_set_neq.
Qed.

(** ** Facts about the conversion of DNS records *)

Lemma HostedZone_eqb_eq (a b : HostedZone) :
  HostedZone_eqb a b = true <-> a = b.
Proof.
  unfold HostedZone_eqb. destruct a as [i n], b as [i' n']; simpl.
  rewrite andb_true_iff, !String.eqb_eq. split.
  - now intros [-> ->].
  - intros H; inversion H; auto.
Qed.

Lemma HostedZone_eqb_refl (a : HostedZone) : HostedZone_eqb a a = true.
Proof. now apply HostedZone_eqb_eq. Qed.

Lemma HostedZone_eqb_neq (a b : HostedZone) :
  HostedZone_eqb a b = false <-> a <> b.
Proof.
  rewrite <- HostedZone_eqb_eq. destruct (HostedZone_eqb a b); split; congruence.
Qed.

Lemma colliding_app (hz : HostedZone) (l1 l2 : list Route53Record) :
  colliding hz (l1 ++ l2) = (colliding hz l1 ++ colliding hz l2)%list.
Proof. unfold colliding. apply filter_app. Qed.

Lemma colliding_In (hz : HostedZone) (l : list Route53Record) (r : Route53Record) :
  In r (colliding hz l) <->
  In r l /\ r_type r <> "A" /\ r_hosted_zone r = hz.
Proof.
  unfold colliding. rewrite filter_In, andb_true_iff, negb_true_iff.
  rewrite HostedZone_eqb_eq.
  destruct (String.eqb_spec (r_type r) "A"); intuition congruence.
Qed.

Section ConversionFacts.
Variable w : World.

Lemma add_conversion_keys (r : Route53Record)
      (plan : list (HostedZone * conversion)) :
  In (r_hosted_zone r) (map fst (add_conversion w r plan))
  /\ (forall hz, In hz (map fst (add_conversion w r plan)) ->
                 hz = r_hosted_zone r \/ In hz (map fst plan))
  /\ (NoDup (map fst plan) -> NoDup (map fst (add_conversion w r plan))).
Proof.
  induction plan as [|[h0 c0] rest (IH1 & IH2 & IH3)]; simpl.
  - split; [now left|]. split; [intros hz [<-|[]]; now left|].
    intros _. repeat constructor. intros [].
  - destruct (HostedZone_eqb h0 (r_hosted_zone r)) eqn:E; simpl.
    + apply HostedZone_eqb_eq in E. subst h0.
      split; [now left|]. split; [intros hz H; now right | auto].
    + split; [now right|]. split.
      * intros hz [<-|H]; [right; now left|].
        destruct (IH2 _ H); [now left | right; now right].
      * intros Hnd. inversion Hnd as [|? ? Hnin Hr]; subst.
        constructor; [|now apply IH3].
        intros Hin. destruct (IH2 _ Hin) as [->|H]; [|contradiction].
        apply HostedZone_eqb_neq in E. congruence.
Qed.

Lemma add_conversion_In (r : Route53Record)
      (plan : list (HostedZone * conversion)) (hz : HostedZone) (c : conversion) :
  NoDup (map fst plan) ->
  In (hz, c) (add_conversion w r plan) ->
  (hz <> r_hosted_zone r /\ In (hz, c) plan)
  \/ (hz = r_hosted_zone r
      /\ exists c0, c = append_record w r c0
                    /\ (In (hz, c0) plan
                        \/ (c0 = no_conversion /\ ~ In hz (map fst plan)))).
Proof.
  induction plan as [|[h0 c0] rest IH]; simpl; intros Hnd Hin.
  - destruct Hin as [Heq|[]]. inversion Heq; subst.
    right. split; [reflexivity|]. exists no_conversion. split; [reflexivity|].
    right. split; [reflexivity | intros []].
  - inversion Hnd as [|? ? Hnin Hr]; subst.
    destruct (HostedZone_eqb h0 (r_hosted_zone r)) eqn:E.
    + apply HostedZone_eqb_eq in E. subst h0.
      destruct Hin as [Heq|Hin].
      * inversion Heq; subst. right. split; [reflexivity|].
        exists c0. split; [reflexivity | left; now left].
      * left. split; [|now right].
        intros ->. apply Hnin. apply (in_map fst) in Hin. exact Hin.
    + apply HostedZone_eqb_neq in E.
      destruct Hin as [Heq|Hin].
      * inversion Heq; subst. left. split; [exact E | now left].
      * destruct (IH Hr Hin) as [[Hne H]|[-> (c1 & -> & H)]].
        -- left. split; [exact Hne | now right].
        -- right. split; [reflexivity|]. exists c1. split; [reflexivity|].
           destruct H as [H|[-> Hn]]; [left; now right|].
           right. split; [reflexivity|]. intros [Hh|Hh]; [congruence | contradiction].
Qed.

Lemma plan_of_step (records : list Route53Record) (r : Route53Record)
      (plan : list (HostedZone * conversion)) :
  plan_of w records plan ->
  plan_of w (records ++ [r])
    (if negb (String.eqb (r_type r) "A") then add_conversion w r plan else plan).
Proof.
  intros (Hnd & Hent & Hcov).
  destruct (String.eqb_spec (r_type r) "A") as [HA|HA]; simpl.
  - split; [exact Hnd|]. split.
    + intros hz c Hin. rewrite colliding_app.
      destruct (Hent _ _ Hin) as (Hd & Hu & Hne).
      assert (E : colliding hz [r] = []).
      { unfold colliding. simpl. rewrite HA. reflexivity. }
      rewrite E, app_nil_r. auto.
    + intros r' Hin Hty. apply in_app_or in Hin.
      destruct Hin as [Hin|[<-|[]]]; [now apply Hcov | contradiction].
  - destruct (add_conversion_keys r plan) as (K1 & K2 & K3).
    split; [now apply K3|]. split.
    + intros hz c Hin. rewrite colliding_app.
      destruct (@add_conversion_In r plan hz c Hnd Hin)
        as [[Hne Hp]|[-> (c0 & -> & H)]].
      * destruct (Hent _ _ Hp) as (Hd & Hu & Hn).
        assert (E : colliding hz [r] = []).
        { unfold colliding. simpl.
          assert (E' : HostedZone_eqb hz (r_hosted_zone r) = false)
            by (now apply HostedZone_eqb_neq).
          rewrite E', andb_false_r. reflexivity. }
        rewrite E, app_nil_r. auto.
      * assert (E : colliding (r_hosted_zone r) [r] = [r]).
        { unfold colliding. simpl. rewrite HostedZone_eqb_refl.
          destruct (String.eqb_spec (r_type r) "A"); [contradiction|reflexivity]. }
        rewrite E. simpl.
        assert (Hc0 : to_delete c0 = colliding (r_hosted_zone r) records
                      /\ to_upsert c0 = map (to_alias w) (to_delete c0)).
        { destruct H as [Hp|[-> Hn]].
          - destruct (Hent _ _ Hp) as (Hd & Hu & _). auto.
          - simpl. split; [|reflexivity].
            destruct (colliding (r_hosted_zone r) records) as [|x l] eqn:Ec;
              [reflexivity|].
            exfalso. apply Hn.
            assert (Hx : In x (colliding (r_hosted_zone r) records))
              by (rewrite Ec; now left).
            apply colliding_In in Hx. destruct Hx as (Hx1 & Hx2 & Hx3).
            rewrite <- Hx3. now apply Hcov. }
        destruct Hc0 as [Hd Hu]. rewrite Hd at 1.
        split; [reflexivity|]. split.
        -- rewrite Hu, map_app. reflexivity.
        -- intros Habs. apply app_eq_nil in Habs. destruct Habs; discriminate.
    + intros r' Hin Hty. apply in_app_or in Hin.
      destruct Hin as [Hin|[<-|[]]]; [|exact K1].
      specialize (Hcov _ Hin Hty).
      clear - Hcov. induction plan as [|[h0 c0] rest IH]; simpl in *; [contradiction|].
      destruct (HostedZone_eqb h0 (r_hosted_zone r)); simpl.
      * exact Hcov.
      * destruct Hcov as [->|H]; [now left | right; now apply IH].
Qed.

Lemma convert_records_plan (records : list Route53Record) :
  plan_of w records (convert_records w records).
Proof.
  unfold convert_records.
  assert (G : forall rest done plan,
             plan_of w done plan ->
             plan_of w (done ++ rest)
               (fold_left
                  (fun converted record =>
                     if negb (String.eqb (r_type record) "A")
                     then add_conversion w record converted
                     else converted) rest plan)).
  { induction rest as [|r rest IH]; intros done plan Hp; simpl.
    - now rewrite app_nil_r.
    - replace (done ++ r :: rest)%list with ((done ++ [r]) ++ rest)%list
        by (rewrite <- app_assoc; reflexivity).
      apply IH. now apply plan_of_step. }
  apply (G records [] []).
  split; [constructor|]. split; [intros ? ? [] | intros ? []].
Qed.

End ConversionFacts.

Section ConvertLoopFacts.
Variable w : World.

(** The loop over [converted_records] converts the zones in order and stops
    at the first prompt that is declined. *)
Lemma convert_loop_run (domain_name : string)
      (plan : list (HostedZone * conversion)) (s : state)
      (r : result unit) (s' : state) :
  convert_loop w domain_name plan s = (r, s') ->
  definition s' = definition s
  /\ configuration s' = configuration s
  /\ ((r = Ok tt
       /\ trace s' = (trace s ++ flat_map (conversion_events domain_name) plan)%list)
      \/ (r = Err declined
          /\ exists done hz c rest,
              plan = (done ++ (hz, c) :: rest)%list
              /\ trace s'
                 = (trace s ++ flat_map (conversion_events domain_name) done
                      ++ [EvConfirm
                            (confirm_prompt domain_name hz
                               (List.length (to_upsert c))) false])%list)).
Proof.
  revert s. induction plan as [|[hz c] rest IH]; intros s H.
  - inversion H; subst. split; [reflexivity|]. split; [reflexivity|].
    left. split; [reflexivity|]. simpl. now rewrite app_nil_r.
  - cbn in H.
    destruct (operator w (trace s)
                (confirm_prompt domain_name hz (List.length (to_upsert c))))
      eqn:Ans.
    + cbn in H. apply IH in H. cbn in H.
      destruct H as (Hd & Hc & H). split; [exact Hd|]. split; [exact Hc|].
      destruct H as [[-> Ht]|[-> (done & hz' & c' & rest' & -> & Ht)]].
      * left. split; [reflexivity|]. rewrite Ht. cbn.
        rewrite <- !app_assoc. reflexivity.
      * right. split; [reflexivity|].
        exists ((hz, c) :: done), hz', c', rest'. split; [reflexivity|].
        rewrite Ht. cbn. rewrite <- !app_assoc. reflexivity.
    + cbn in H. inversion H; subst. cbn.
      split; [reflexivity|]. split; [reflexivity|].
      right. split; [reflexivity|].
      exists [], hz, c, rest. split; reflexivity.
Qed.

End ConvertLoopFacts.

(** ** Facts about runs *)

Lemma bind_inv {A B} (m : M A) (k : A -> M B) (s s' : state) (r : result B) :
  bind m k s = (r, s') ->
  (exists a s1, m s = (Ok a, s1) /\ k a s1 = (r, s'))
  \/ (exists e, m s = (Err e, s') /\ r = Err e).
Proof.
  unfold bind. destruct (m s) as [[a|e] s1]; intros H.
  - left. now exists a, s1.
  - right. inversion H; subst. now exists e.
Qed.

Lemma hoare_bind {A B} (P : state -> Prop) (Q : result A -> state -> Prop)
      (S : result B -> state -> Prop) (m : M A) (k : A -> M B) :
  hoare P m Q ->
  (forall e s, Q (Err e) s -> S (Err e) s) ->
  (forall a, hoare (Q (Ok a)) (k a) S) ->
  hoare P (bind m k) S.
Proof.
  intros Hm HQS Hk s r s' HP H.
  destruct (bind_inv _ _ _ H) as [(a & s1 & H1 & H2)|(e & H1 & ->)].
  - eapply Hk; [|exact H2]. eapply Hm; eauto.
  - apply HQS. eapply Hm; eauto.
Qed.

(** The same for an invariant of the state. *)
Lemma hoare_inv_bind {A B} (P S : state -> Prop) (m : M A) (k : A -> M B) :
  hoare P m (fun _ => P) -> (forall s, P s -> S s) ->
  (forall a, hoare P (k a) (fun _ => S)) ->
  hoare P (bind m k) (fun _ => S).
Proof. intros Hm HPS Hk. eapply hoare_bind; eauto. Qed.

Lemma hoare_pure {A} (P : state -> Prop) (m : M A) :
  (forall s, snd (m s) = s) -> hoare P m (fun _ => P).
Proof.
  intros Hm s r s' HP H. specialize (Hm s). rewrite H in Hm. simpl in Hm.
  now subst.
Qed.

Lemma dict_getitem_pure {V} (d : dict V) (k : string) (s : state) :
  snd (dict_getitem d k s) = s.
Proof. unfold dict_getitem. now destruct (Dict.get k d). Qed.

Lemma getitem_pure (v : value) (k : string) (s : state) :
  snd (getitem v k s) = s.
Proof. destruct v; simpl; try reflexivity. apply dict_getitem_pure. Qed.

Lemma dict_getitem_ok {V} (d : dict V) (k : string) (s s' : state) (v : V) :
  dict_getitem d k s = (Ok v, s') -> Dict.get k d = Some v /\ s' = s.
Proof.
  unfold dict_getitem. destruct (Dict.get k d); intros H; inversion H; auto.
Qed.

Lemma getitem_ok (x : value) (k : string) (s s' : state) (v : value) :
  getitem x k s = (Ok v, s') ->
  exists d, x = VDict d /\ Dict.get k d = Some v /\ s' = s.
Proof.
  destruct x; simpl; intros H; try discriminate.
  apply dict_getitem_ok in H. exists d. tauto.
Qed.

Lemma resource_set (def : dict value) (rs : dict value) (name n : string)
      (v : value) :
  resource (Dict.set "Resources" (VDict (Dict.set name v rs)) def) n
  = if String.eqb name n then Some v else Dict.get n rs.
Proof.
  unfold resource. rewrite Dict_get_set_eq.
  destruct (String.eqb_spec name n) as [->|Hn].
  - apply Dict_get_set_eq.
  - now apply Dict_get_set_neq.
Qed.

Lemma set_resource_run (name : string) (v : value) (s : state)
      (r : result unit) (s' : state) :
  set_resource name v s = (r, s') ->
  trace s' = trace s /\ configuration s' = configuration s
  /\ ((r = Ok tt
       /\ resource (definition s') name = Some v
       /\ forall n, n <> name ->
                    resource (definition s') n = resource (definition s) n)
      \/ ((exists e, r = Err e) /\ s' = s)).
Proof.
  unfold set_resource, get_definition, dict_getitem, put_definition.
  cbn. intros H.
  destruct (Dict.get "Resources" (definition s)) as [x|] eqn:G; cbn in H.
  - destruct x; cbn in H; inversion H; subst; cbn;
      try (split; [reflexivity|]; split; [reflexivity|]; right;
           split; [eexists; reflexivity | reflexivity]).
    split; [reflexivity|]. split; [reflexivity|]. left.
    split; [reflexivity|]. split.
    + rewrite resource_set. now rewrite String.eqb_refl.
    + intros n Hn. rewrite resource_set.
      destruct (String.eqb_spec name n); [congruence|].
      unfold resource. now rewrite G.
  - inversion H; subst. split; [reflexivity|]. split; [reflexivity|].
    right. split; [eexists; reflexivity | reflexivity].
Qed.

Lemma set_property_run (name key : string) (val : value) (s : state)
      (r : result unit) (s' : state) :
  set_property name key val s = (r, s') ->
  trace s' = trace s /\ configuration s' = configuration s
  /\ ((r = Ok tt
       /\ exists rd ps,
           resource (definition s) name = Some (VDict rd)
           /\ Dict.get "Properties" rd = Some (VDict ps)
           /\ resource (definition s') name
              = Some (VDict (Dict.set "Properties"
                               (VDict (Dict.set key val ps)) rd))
           /\ forall n, n <> name ->
                        resource (definition s') n = resource (definition s) n)
      \/ ((exists e, r = Err e) /\ s' = s)).
Proof.
  unfold set_property, get_definition, dict_getitem, put_definition.
  cbn. intros H.
  assert (Fail : forall e, (r, s') = (Err e, s) ->
                 trace s' = trace s /\ configuration s' = configuration s
                 /\ ((r = Ok tt
                      /\ exists rd ps,
                          resource (definition s) name = Some (VDict rd)
                          /\ Dict.get "Properties" rd = Some (VDict ps)
                          /\ resource (definition s') name
                             = Some (VDict (Dict.set "Properties"
                                              (VDict (Dict.set key val ps)) rd))
                          /\ forall n, n <> name ->
                                       resource (definition s') n
                                       = resource (definition s) n)
                     \/ ((exists e, r = Err e) /\ s' = s))).
  { intros e He. inversion He; subst. split; [reflexivity|].
    split; [reflexivity|]. right. split; [eexists; reflexivity | reflexivity]. }
  destruct (Dict.get "Resources" (definition s)) as [x|] eqn:G; cbn in H;
    [|symmetry in H; eapply Fail; exact H].
  destruct x as [| | | |l|rs]; cbn in H;
    try (symmetry in H; eapply Fail; exact H).
  unfold dict_getitem in H.
  destruct (Dict.get name rs) as [x|] eqn:G1; cbn in H;
    [|symmetry in H; eapply Fail; exact H].
  destruct x as [| | | |l|rd]; cbn in H;
    try (symmetry in H; eapply Fail; exact H).
  unfold dict_getitem in H.
  destruct (Dict.get "Properties" rd) as [x|] eqn:G2; cbn in H;
    [|symmetry in H; eapply Fail; exact H].
  destruct x as [| | | |l|ps]; cbn in H;
    try (symmetry in H; eapply Fail; exact H).
  inversion H; subst; cbn.
  split; [reflexivity|]. split; [reflexivity|]. left. split; [reflexivity|].
  exists rd, ps.
  split; [unfold resource; now rewrite G|]. split; [exact G2|]. split.
  - rewrite resource_set. now rewrite String.eqb_refl.
  - intros n Hn. rewrite resource_set.
    destruct (String.eqb_spec name n); [congruence|].
    unfold resource. now rewrite G.
Qed.

(** ** The loop over the domains only writes record sets *)

Lemma only_record_sets_refl (s : state) : only_record_sets s s.
Proof. intros n. now left. Qed.

Lemma only_record_sets_trans (s1 s2 s3 : state) :
  only_record_sets s1 s2 -> only_record_sets s2 s3 -> only_record_sets s1 s3.
Proof.
  intros H12 H23 n. destruct (H23 n) as [E|H]; [|now right].
  rewrite E. apply H12.
Qed.

Lemma is_record_set_not_balancer (v : value) :
  is_record_set v = true -> is_load_balancer v = false.
Proof.
  unfold is_record_set, is_load_balancer, has_type.
  destruct v as [| | | |l|d]; try discriminate.
  destruct (Dict.get "Type" d) as [t|]; [|discriminate].
  destruct t; simpl; try discriminate.
  intros H. apply String.eqb_eq in H. now subst.
Qed.

Lemma is_record_set_set_properties (rd : dict value) (v : value) :
  is_record_set (VDict rd) = true ->
  is_record_set (VDict (Dict.set "Properties" v rd)) = true.
Proof.
  unfold is_record_set, has_type.
  rewrite Dict_get_set_neq by discriminate. auto.
Qed.

Section DomainsDocument.
Variable w : World.
Variable s0 : state.

(** A computation that leaves the document and the configuration alone. *)
Lemma hoare_frame {A} (name : string) (m : M A) :
  (forall s r s', m s = (r, s') ->
                  definition s' = definition s
                  /\ configuration s' = configuration s) ->
  hoare (loop_invariant s0) m (fun _ => loop_invariant s0)
  /\ hoare (loop_invariant_at s0 name) m (fun _ => loop_invariant_at s0 name).
Proof.
  intros Hm.
  assert (HI : hoare (loop_invariant s0) m (fun _ => loop_invariant s0)).
  { intros s r s' [Hc Hd] H. destruct (Hm _ _ _ H) as [Ed Ec].
    split; [congruence|]. intros n. rewrite Ed. apply Hd. }
  split; [exact HI|].
  intros s r s' [Hi Hr] H. split; [eapply HI; eauto|].
  destruct (Hm _ _ _ H) as [Ed _]. unfold record_set_at. now rewrite Ed.
Qed.

Lemma frame_pure {A} (m : M A) :
  (forall s, snd (m s) = s) ->
  forall s r s', m s = (r, s') ->
                 definition s' = definition s
                 /\ configuration s' = configuration s.
Proof.
  intros Hm s r s' H. specialize (Hm s). rewrite H in Hm. simpl in Hm.
  now subst.
Qed.

Lemma frame_Route53_get_records (name : string) :
  forall s r s', Route53_get_records w name s = (r, s') ->
                 definition s' = definition s
                 /\ configuration s' = configuration s.
Proof. intros s r s' H. inversion H; subst. now split. Qed.

Lemma frame_convert_loop (domain_name : string)
      (plan : list (HostedZone * conversion)) :
  forall s r s', convert_loop w domain_name plan s = (r, s') ->
                 definition s' = definition s
                 /\ configuration s' = configuration s.
Proof.
  intros s r s' H. destruct (@convert_loop_run _ _ _ _ _ _ H) as (Hd & Hc & _).
  now split.
Qed.

Lemma hoare_set_record_set (name : string) (lb_name : value)
      (domain_name : string) (zone : value) :
  hoare (loop_invariant s0)
        (set_resource name (record_set w lb_name domain_name zone))
        (fun r s => match r with
                    | Ok _ => loop_invariant_at s0 name s
                    | Err _ => loop_invariant s0 s
                    end).
Proof.
  intros s r s' [Hc Hd] H.
  destruct (@set_resource_run _ _ _ _ _ H)
    as (_ & Ec & [(-> & Hn & Ho)|((e & ->) & ->)]); [|now split].
  assert (Hi : (loop_invariant s0) s').
  { split; [congruence|]. intros n.
    destruct (String.eqb_spec n name) as [->|Hne].
    - right. eexists. split; [exact Hn | reflexivity].
    - rewrite (Ho _ Hne). apply Hd. }
  split; [exact Hi|]. eexists. split; [exact Hn | reflexivity].
Qed.

Lemma hoare_set_property (name key : string) (val : value) :
  hoare (loop_invariant_at s0 name) (set_property name key val)
        (fun _ => loop_invariant_at s0 name).
Proof.
  intros s r s' [[Hc Hd] (v & Hv & Hrs)] H.
  destruct (@set_property_run _ _ _ _ _ _ H)
    as (_ & Ec & [(-> & rd & ps & Hr & Hp & Hn & Ho)|(_ & ->)]).
  - rewrite Hr in Hv. inversion Hv; subst v.
    assert (Hnew : is_record_set
                     (VDict (Dict.set "Properties"
                               (VDict (Dict.set key val ps)) rd)) = true)
      by now apply is_record_set_set_properties.
    split; [split|].
    + congruence.
    + intros n. destruct (String.eqb_spec n name) as [->|Hne].
      * right. eexists. split; [exact Hn | exact Hnew].
      * rewrite (Ho _ Hne). apply Hd.
    + eexists. split; [exact Hn | exact Hnew].
  - split; [now split|]. now exists v.
Qed.

Lemma hoare_domain_body lb_name info key domain acc :
  hoare (loop_invariant s0) (domain_body w lb_name info key domain acc)
        (fun _ => loop_invariant s0).
Proof.
  unfold domain_body.
  set (name := py_str w lb_name ++ key).
  assert (Hget : forall v k,
             hoare (loop_invariant s0) (getitem v k)
                   (fun _ => loop_invariant s0))
    by (intros; apply (hoare_frame name), frame_pure, getitem_pure).
  assert (HgetJ : forall v k,
             hoare (loop_invariant_at s0 name) (getitem v k)
                   (fun _ => loop_invariant_at s0 name))
    by (intros; apply (hoare_frame name), frame_pure, getitem_pure).
  assert (HinfoJ : forall k, hoare (loop_invariant_at s0 name) (dict_getitem info k)
                               (fun _ => loop_invariant_at s0 name))
    by (intros; apply (hoare_frame name), frame_pure, dict_getitem_pure).
  assert (HJI : forall s, loop_invariant_at s0 name s -> loop_invariant s0 s)
    by (intros s [Hi _]; exact Hi).
  apply hoare_inv_bind; [apply Hget | auto | intros sub].
  apply hoare_inv_bind; [apply Hget | auto | intros zone].
  apply hoare_inv_bind;
    [apply (hoare_frame name), frame_Route53_get_records | auto | intros records].
  apply hoare_inv_bind.
  { destruct (convert_records w records).
    - apply hoare_pure. reflexivity.
    - apply (hoare_frame name), frame_convert_loop. }
  { auto. }
  intros _.
  apply hoare_inv_bind; [apply Hget | auto | intros zone'].
  eapply hoare_bind; [apply hoare_set_record_set | auto |].
  intros u. cbv beta iota.
  apply hoare_inv_bind; [apply HgetJ | auto | intros type].
  destruct (eq_str type "weighted").
  - apply hoare_inv_bind; [apply hoare_set_property | auto | intros _].
    apply hoare_inv_bind; [apply HinfoJ | auto | intros stack_name].
    apply hoare_inv_bind; [apply HinfoJ | auto | intros stack_version].
    apply hoare_inv_bind; [apply hoare_set_property | auto | intros _].
    apply hoare_inv_bind; [apply HgetJ | auto | intros sub'].
    apply hoare_inv_bind; [apply HgetJ | auto | intros zone''].
    intros s r s' HJ H. inversion H; subst. auto.
  - intros s r s' HJ H. inversion H; subst. auto.
Qed.

Lemma hoare_for_domains lb_name info domains acc :
  hoare (loop_invariant s0) (for_domains w lb_name info domains acc)
        (fun _ => loop_invariant s0).
Proof.
  revert acc. induction domains as [|[key domain] rest IH]; intros acc; simpl.
  - intros s r s' Hi H. inversion H; subst. exact Hi.
  - apply hoare_inv_bind; [apply hoare_domain_body | auto | intros acc'; apply IH].
Qed.

End DomainsDocument.

(** The loop over the domains leaves the configuration alone and only
    writes record sets into the document. *)
Lemma for_domains_document (w : World) lb_name info domains acc s r s' :
  for_domains w lb_name info domains acc s = (r, s') ->
  configuration s' = configuration s /\ only_record_sets s s'.
Proof.
  intros H.
  refine (@hoare_for_domains w s lb_name info domains acc s r s' _ H).
  split; [reflexivity | apply only_record_sets_refl].
Qed.

(** ** Which events each part of the component emits *)

Section ComponentParts.
Variable w : World.

Lemma emits_override_loop (P : event -> bool) (name : string)
      (entries : list (string * value)) :
  emits P (override_loop name entries).
Proof.
  induction entries as [|[key val] rest IH]; simpl.
  - apply emits_ret.
  - apply emits_bind; [|intros; exact IH].
    destruct (negb (in_SENZA_PROPERTIES key));
      [apply emits_set_property | apply emits_ret].
Qed.

Lemma emits_set_resource_at (P : event -> bool) (lb_name resource : value) :
  emits P (set_resource_at lb_name resource).
Proof.
  unfold set_resource_at.
  repeat first [ apply emits_set_resource | emits_step ].
Qed.

Lemma emits_choose_health_check_target (P : event -> bool) (cfg : dict value) :
  emits P (choose_health_check_target w cfg).
Proof. unfold choose_health_check_target. emits_auto. Qed.

Lemma emits_choose_loadbalancer_name (P : event -> bool) (info : dict string) :
  emits P (choose_loadbalancer_name w info).
Proof. unfold choose_loadbalancer_name. emits_auto. Qed.

Lemma emits_choose_scheme : emits other_event (choose_scheme w).
Proof. unfold choose_scheme. emits_auto. Qed.

Lemma emits_choose_listeners subdomain main_zone cfg account_info :
  emits certificate_event
        (choose_listeners w subdomain main_zone cfg account_info).
Proof.
  unfold choose_listeners.
  destruct (truthy (dict_get_or_none cfg "Listeners"));
    [apply emits_ret | apply emits_get_listeners].
Qed.

End ComponentParts.

Lemma dns_event_not_certificate (e : event) :
  dns_event e = true -> not_certificate_event e = true.
Proof. now destruct e. Qed.

Lemma other_event_not_certificate (e : event) :
  other_event e = true -> not_certificate_event e = true.
Proof. now destruct e. Qed.

Lemma other_event_not_decline (e : event) :
  other_event e = true -> not_decline e = true.
Proof. now destruct e. Qed.

Lemma certificate_event_not_decline (e : event) :
  certificate_event e = true -> not_decline e = true.
Proof. now destruct e. Qed.

(** ** A declined prompt is the last thing that happens *)

Lemma declines_last_of_emits {A} (m : M A) :
  emits not_decline m -> declines_last m.
Proof.
  intros Hm s r s' H. destruct (Hm _ _ _ H) as (evs & Ht & Ha).
  exists evs. split; [exact Ht | now left].
Qed.

Lemma declines_last_bind {A B} (m : M A) (k : A -> M B) :
  declines_last m -> (forall a, declines_last (k a)) ->
  declines_last (bind m k).
Proof.
  intros Hm Hk s r s' H.
  destruct (bind_inv _ _ _ H) as [(a & s1 & H1 & H2)|(e & H1 & ->)].
  - destruct (Hm _ _ _ H1) as (ev1 & T1 & [A1|[Habs _]]); [|discriminate].
    destruct (Hk a _ _ _ H2) as (ev2 & T2 & D2).
    exists (ev1 ++ ev2)%list. split; [now rewrite T2, T1, app_assoc|].
    destruct D2 as [A2|(-> & evs0 & p & -> & A0)].
    + left. rewrite forallb_app. now rewrite A1, A2.
    + right. split; [reflexivity|].
      exists (ev1 ++ evs0)%list, p. split; [now rewrite app_assoc|].
      rewrite forallb_app. now rewrite A1, A0.
  - destruct (Hm _ _ _ H1) as (evs & T & [Al|(E & D)]).
    + exists evs. split; [exact T | now left].
    + exists evs. split; [exact T|]. right. split; [congruence | exact D].
Qed.

Lemma conversion_events_not_decline (domain_name : string)
      (plan : list (HostedZone * conversion)) :
  forallb not_decline (flat_map (conversion_events domain_name) plan) = true.
Proof.
  induction plan as [|[hz c] rest IH]; simpl; [reflexivity | exact IH].
Qed.

Section DeclinesLast.
Variable w : World.

Lemma declines_last_convert_loop (domain_name : string)
      (plan : list (HostedZone * conversion)) :
  declines_last (convert_loop w domain_name plan).
Proof.
  intros s r s' H.
  destruct (@convert_loop_run _ _ _ _ _ _ H)
    as (_ & _ & [[-> Ht]|[-> (done & hz & c & rest & _ & Ht)]]).
  - eexists. split; [exact Ht|]. left. apply conversion_events_not_decline.
  - eexists. split; [exact Ht|]. right. split; [reflexivity|].
    eexists _, _. split; [reflexivity|]. apply conversion_events_not_decline.
Qed.

Lemma declines_last_domain_body lb_name info key domain acc :
  declines_last (domain_body w lb_name info key domain acc).
Proof.
  unfold domain_body.
  apply declines_last_bind;
    [apply declines_last_of_emits, emits_getitem | intros sub].
  apply declines_last_bind;
    [apply declines_last_of_emits, emits_getitem | intros zone].
  apply declines_last_bind.
  { apply declines_last_of_emits. unfold Route53_get_records. emits_auto. }
  intros records.
  apply declines_last_bind.
  { destruct (convert_records w records);
      [apply declines_last_of_emits, emits_ret
      | apply declines_last_convert_loop]. }
  intros _. apply declines_last_of_emits.
  repeat first [ apply emits_set_resource | apply emits_set_property
               | emits_step ].
Qed.

Lemma declines_last_for_domains lb_name info domains acc :
  declines_last (for_domains w lb_name info domains acc).
Proof.
  revert acc. induction domains as [|[key domain] rest IH]; intros acc; simpl.
  - apply declines_last_of_emits, emits_ret.
  - apply declines_last_bind; [apply declines_last_domain_body | intros; apply IH].
Qed.

(** What follows the loop over the domains resolves the security groups
    and warns, besides what the choice of the listeners does. *)
Lemma emits_assemble_balancer_with (P : event -> bool) args info account_info
      cfg lb_name acc :
  (forall sub mz, emits P (choose_listeners w sub mz cfg account_info)) ->
  (forall e, other_event e = true -> P e = true) ->
  emits P (assemble_balancer w args info account_info cfg lb_name acc).
Proof.
  intros HPc HPo. unfold assemble_balancer. destruct acc as [sub mz].
  apply emits_bind; [apply HPc | intros listeners].
  apply emits_bind; [apply emits_choose_health_check_target | intros target].
  apply emits_bind; [apply emits_choose_loadbalancer_name | intros lbn].
  apply emits_bind.
  { eapply emits_weaken; [exact HPo | apply emits_choose_scheme]. }
  intros scheme.
  apply emits_bind; [emits_auto | intros cfg'].
  apply emits_bind; [emits_auto | intros groups].
  apply emits_bind; [apply emits_emit, HPo; reflexivity | intros _].
  repeat first [ apply emits_set_resource_at | apply emits_override_loop
               | emits_step ].
Qed.

Lemma emits_assemble_balancer (P : event -> bool) args info account_info cfg
      lb_name acc :
  (forall e, certificate_event e = true -> P e = true) ->
  (forall e, other_event e = true -> P e = true) ->
  emits P (assemble_balancer w args info account_info cfg lb_name acc).
Proof.
  intros HPc HPo. apply emits_assemble_balancer_with; [|exact HPo].
  intros sub mz.
  eapply emits_weaken; [exact HPc | apply emits_choose_listeners].
Qed.

Lemma declines_last_component args info force account_info :
  declines_last (component_elastic_load_balancer w args info force account_info).
Proof.
  unfold component_elastic_load_balancer.
  apply declines_last_bind;
    [apply declines_last_of_emits; emits_auto | intros cfg].
  apply declines_last_bind;
    [apply declines_last_of_emits; emits_auto | intros lb_name].
  apply declines_last_bind;
    [apply declines_last_of_emits; unfold items; emits_auto | intros domains].
  apply declines_last_bind; [apply declines_last_for_domains | intros acc].
  apply declines_last_of_emits, emits_assemble_balancer.
  - apply certificate_event_not_decline.
  - apply other_event_not_decline.
Qed.

End DeclinesLast.

(** ** The two phases of the component *)

Lemma component_inv (w : World) args info force account_info
      (s : state) (r : result unit) (s' : state) :
  component_elastic_load_balancer w args info force account_info s = (r, s') ->
  (s' = s /\ exists e, r = Err e)
  \/ exists lb_name domains,
      Dict.get "Name" (configuration s) = Some lb_name
      /\ configured_domains (configuration s) = Some domains
      /\ ((exists e,
              for_domains w lb_name info domains (VStr EmptyString, VNone) s
              = (Err e, s')
              /\ r = Err e)
          \/ exists acc s1,
              for_domains w lb_name info domains (VStr EmptyString, VNone) s
              = (Ok acc, s1)
              /\ assemble_balancer w args info account_info (configuration s)
                   lb_name acc s1
                 = (r, s')).
Proof.
  unfold component_elastic_load_balancer, configured_domains.
  intros H. cbn in H. unfold dict_getitem in H.
  destruct (Dict.get "Name" (configuration s)) as [lb_name|]; cbn in H;
    [|inversion H; subst; left; split; [reflexivity | eexists; reflexivity]].
  assert (Hfail : forall e, (r, s') = (Err e, s) ->
                            s' = s /\ exists e, r = Err e)
    by (intros e He; inversion He; subst; split;
        [reflexivity | eexists; reflexivity]).
  destruct (Dict.get "Domains" (configuration s)) as [d|]; cbn in H.
  - destruct d as [| | | |l|domains]; cbn in H;
      try (left; symmetry in H; eapply Hfail; exact H).
    right. exists lb_name, domains. split; [reflexivity|]. split; [reflexivity|].
    destruct (bind_inv _ _ _ H) as [(acc & s1 & H1 & H2)|(e & H1 & ->)].
    + right. now exists acc, s1.
    + left. now exists e.
  - right. exists lb_name, []. split; [reflexivity|]. split; [reflexivity|].
    right. cbn. eexists _, _. split; [reflexivity | exact H].
Qed.

(** ** What the certificate resolution leaves alone *)

Lemma frames_bind {A B} (m : M A) (k : A -> M B) :
  frames m -> (forall a, frames (k a)) -> frames (bind m k).
Proof.
  intros Hm Hk s r s' H.
  destruct (bind_inv _ _ _ H) as [(a & s1 & H1 & H2)|(e & H1 & _)].
  - destruct (Hm _ _ _ H1) as [D1 C1]. destruct (Hk a _ _ _ H2) as [D2 C2].
    split; congruence.
  - exact (Hm _ _ _ H1).
Qed.

Lemma frames_ret {A} (a : A) : frames (ret a).
Proof. intros s r s' H. inversion H; subst. now split. Qed.

Lemma frames_raise {A} (e : error) : frames (@raise A e).
Proof. intros s r s' H. inversion H; subst. now split. Qed.

Lemma frames_emit (e : event) : frames (emit e).
Proof. intros s r s' H. inversion H; subst. now split. Qed.

Lemma frames_dict_getitem {V} (d : dict V) (k : string) :
  frames (dict_getitem d k).
Proof.
  unfold dict_getitem. destruct (Dict.get k d); [apply frames_ret | apply frames_raise].
Qed.

Ltac frames_step :=
  match goal with
  | |- frames (bind _ _) => apply frames_bind; [|intros]
  | |- frames (ret _) => apply frames_ret
  | |- frames (raise _) => apply frames_raise
  | |- frames (fatal_error _) => apply frames_raise
  | |- frames (emit _) => apply frames_emit
  | |- frames (dict_getitem _ _) => apply frames_dict_getitem
  | |- frames (let '(_, _) := ?p in _) => destruct p
  | |- frames (if ?b then _ else _) => destruct b
  | |- frames (match ?x with _ => _ end) => destruct x
  end.

Lemma frames_resolve_certificate (w : World) subdomain main_zone cfg
      account_info :
  frames (resolve_certificate w subdomain main_zone cfg account_info).
Proof.
  unfold resolve_certificate, search_by_domain, domain_candidates,
    first_certificate, ACMCertificate_get_by_arn,
    IAMServerCertificate_get_by_name, ACM_get_certificates,
    IAM_get_certificates.
  repeat frames_step.
Qed.

Lemma frames_choose_listeners (w : World) subdomain main_zone cfg account_info :
  frames (choose_listeners w subdomain main_zone cfg account_info).
Proof.
  unfold choose_listeners, get_listeners.
  destruct (truthy (dict_get_or_none cfg "Listeners")); [apply frames_ret|].
  apply frames_bind; [apply frames_resolve_certificate | intros].
  repeat frames_step.
Qed.

(** ** The merge of the configuration over the computed properties *)

Lemma properties_inv (def : dict value) (name : string) (ps : dict value) :
  properties def name = Some ps ->
  exists rs rd,
    Dict.get "Resources" def = Some (VDict rs)
    /\ Dict.get name rs = Some (VDict rd)
    /\ Dict.get "Properties" rd = Some (VDict ps).
Proof.
  unfold properties, resource. intros H.
  destruct (Dict.get "Resources" def) as [[| | | |l|rs]|]; try discriminate.
  destruct (Dict.get name rs) as [[| | | |l|rd]|] eqn:G; try discriminate.
  destruct (Dict.get "Properties" rd) as [[| | | |l|ps']|] eqn:G'; try discriminate.
  inversion H; subst. now exists rs, rd.
Qed.

Lemma set_property_ok (name key : string) (val : value) (s : state)
      (ps : dict value) :
  properties (definition s) name = Some ps ->
  exists s', set_property name key val s = (Ok tt, s')
             /\ properties (definition s') name = Some (Dict.set key val ps)
             /\ trace s' = trace s
             /\ configuration s' = configuration s.
Proof.
  intros Hp. destruct (properties_inv _ _ Hp) as (rs & rd & G & G1 & G2).
  unfold set_property, get_definition, put_definition. cbn.
  unfold dict_getitem. rewrite G. cbn. unfold dict_getitem. rewrite G1. cbn.
  unfold dict_getitem. rewrite G2. cbn.
  eexists. split; [reflexivity|]. cbn. split; [|now split].
  unfold properties. rewrite resource_set, String.eqb_refl.
  now rewrite Dict_get_set_eq.
Qed.

Lemma merge_cons (key : string) (val : value) (rest : list (string * value))
      (ps : dict value) :
  merge ((key, val) :: rest) ps
  = merge rest (if in_SENZA_PROPERTIES key then ps else Dict.set key val ps).
Proof. reflexivity. Qed.

Lemma override_loop_ok (name : string) (entries : list (string * value))
      (s : state) (ps : dict value) :
  properties (definition s) name = Some ps ->
  exists s', override_loop name entries s = (Ok tt, s')
             /\ properties (definition s') name = Some (merge entries ps)
             /\ trace s' = trace s
             /\ configuration s' = configuration s.
Proof.
  revert s ps. induction entries as [|[key val] rest IH]; intros s ps Hp.
  - exists s. now repeat split.
  - rewrite merge_cons. simpl override_loop.
    destruct (in_SENZA_PROPERTIES key) eqn:R; simpl negb; cbv iota.
    + destruct (IH s ps Hp) as (s' & Hrun & Hp' & Ht & Hc).
      exists s'. split; [|now repeat split].
      cbn. exact Hrun.
    + destruct (set_property_ok name key val s Hp)
        as (s1 & Hrun1 & Hp1 & Ht1 & Hc1).
      destruct (IH s1 _ Hp1) as (s' & Hrun & Hp' & Ht & Hc).
      exists s'. split; [|split; [exact Hp' | split; congruence]].
      erewrite bind_run by exact Hrun1. exact Hrun.
Qed.

Lemma properties_load_balancer (def rs : dict value) (name : string)
      (ps : dict value) :
  properties (Dict.set "Resources"
                (VDict (Dict.set name (load_balancer ps) rs)) def) name
  = Some ps.
Proof.
  unfold properties. rewrite resource_set, String.eqb_refl. reflexivity.
Qed.

(** ** A successful run of the second phase *)

Section AssembleFacts.
Variable w : World.

Lemma frames_choose_health_check_target (cfg : dict value) :
  frames (choose_health_check_target w cfg).
Proof. unfold choose_health_check_target. repeat frames_step. Qed.

Lemma choose_loadbalancer_name_ok (info : dict string) (s s' : state)
      (lbn : string) :
  choose_loadbalancer_name w info s = (Ok lbn, s') ->
  definition s' = definition s
  /\ configuration s'
     = if truthy (dict_get_or_none (configuration s) "NameSuffix")
       then Dict.del "NameSuffix" (configuration s) else configuration s.
Proof.
  unfold choose_loadbalancer_name. cbn. intros H.
  destruct (truthy (dict_get_or_none (configuration s) "NameSuffix")).
  - apply bind_ok in H. destruct H as (sv & s1 & H1 & H).
    apply dict_getitem_ok in H1. destruct H1 as [_ ->].
    apply bind_ok in H. destruct H as (suffix & s1 & H1 & H).
    apply dict_getitem_ok in H1. destruct H1 as [_ ->].
    apply bind_ok in H. destruct H as (sn & s1 & H1 & H).
    apply dict_getitem_ok in H1. destruct H1 as [_ ->].
    cbn in H. inversion H; subst. now split.
  - apply bind_ok in H. destruct H as (sn & s1 & H1 & H).
    apply dict_getitem_ok in H1. destruct H1 as [_ ->].
    apply bind_ok in H. destruct H as (sv & s1 & H1 & H).
    apply dict_getitem_ok in H1. destruct H1 as [_ ->].
    inversion H; subst. now split.
Qed.

Lemma choose_scheme_ok (s s' : state) (scheme : value) :
  choose_scheme w s = (Ok scheme, s') ->
  definition s' = definition s
  /\ configuration s'
     = match Dict.get "Scheme" (configuration s) with
       | Some _ => configuration s
       | None => Dict.set "Scheme" (VStr "internal") (configuration s)
       end.
Proof.
  unfold choose_scheme. intros H.
  apply bind_ok in H. destruct H as (cfg & s1 & H1 & H).
  inversion H1; subst cfg s1. clear H1.
  apply bind_ok in H. destruct H as (sch & s2 & H2 & H).
  match type of H with
  | ?m s2 = _ => assert (F : frames m) by (repeat frames_step)
  end.
  destruct (F _ _ _ H) as [D C]. rewrite D, C.
  destruct (Dict.get "Scheme" (configuration s)); inversion H2; subst;
    now split.
Qed.

Lemma set_resource_at_ok (lb_name resource : value) (s s' : state)
      (name : string) :
  set_resource_at lb_name resource s = (Ok name, s') ->
  lb_name = VStr name
  /\ exists rs,
      definition s'
      = Dict.set "Resources" (VDict (Dict.set name resource rs)) (definition s)
      /\ configuration s' = configuration s.
Proof.
  unfold set_resource_at, set_resource, get_definition, put_definition.
  cbn. unfold dict_getitem.
  destruct (Dict.get "Resources" (definition s)) as [x|] eqn:G; cbn;
    [|discriminate].
  destruct x as [| | | |l|rs]; cbn; try discriminate.
  destruct lb_name as [| | |n|l|d]; cbn; try discriminate.
  unfold bind. cbn. rewrite G. cbn. intros H. inversion H; subst.
  split; [reflexivity|]. exists rs. now split.
Qed.

Lemma final_configuration_get (cfg : dict value) (k : string) :
  k <> "NameSuffix" -> k <> "Scheme" ->
  Dict.get k (final_configuration cfg) = Dict.get k cfg.
Proof.
  intros H1 H2. unfold final_configuration.
  set (cfg1 := if truthy (dict_get_or_none cfg "NameSuffix")
               then Dict.del "NameSuffix" cfg else cfg).
  assert (E1 : Dict.get k cfg1 = Dict.get k cfg).
  { unfold cfg1. destruct (truthy _); [|reflexivity].
    apply Dict_get_del_neq. congruence. }
  destruct (Dict.get "Scheme" cfg1); [exact E1|].
  rewrite Dict_get_set_neq by congruence. exact E1.
Qed.

Lemma final_configuration_wf (cfg : dict value) :
  Dict.wf cfg -> Dict.wf (final_configuration cfg).
Proof.
  intros Hwf. unfold final_configuration.
  set (cfg1 := if truthy (dict_get_or_none cfg "NameSuffix")
               then Dict.del "NameSuffix" cfg else cfg).
  assert (W1 : Dict.wf cfg1)
    by (unfold cfg1; destruct (truthy _); [now apply Dict_wf_del | exact Hwf]).
  destruct (Dict.get "Scheme" cfg1); [exact W1 | now apply Dict_wf_set].
Qed.

Lemma assemble_balancer_ok args info account_info cfg lb_name sub mz
      (s1 s' : state) :
  configuration s1 = cfg ->
  assemble_balancer w args info account_info cfg lb_name (sub, mz) s1
  = (Ok tt, s') ->
  exists name listeners s2 subnet_map target lbn groups sn sv,
    lb_name = VStr name
    /\ choose_listeners w sub mz cfg account_info s1 = (Ok listeners, s2)
    /\ Dict.get "SecurityGroups" cfg = Some groups
    /\ configuration s' = final_configuration cfg
    /\ properties (definition s') name
       = Some (merge (final_configuration cfg)
                 (computed_properties subnet_map target listeners lbn
                    (resolve_security_groups w groups (region args)) sn sv)).
Proof.
  intros Hcfg H. unfold assemble_balancer in H.
  apply bind_ok in H. destruct H as (listeners & s2 & Hl & H).
  destruct (@frames_choose_listeners w _ _ _ _ _ _ _ Hl) as [_ C2].
  apply bind_ok in H. destruct H as (target & s3 & Ht & H).
  destruct (@frames_choose_health_check_target cfg _ _ _ Ht) as [_ C3].
  apply bind_ok in H. destruct H as (lbn & s4 & Hn & H).
  destruct (@choose_loadbalancer_name_ok _ _ _ _ Hn) as [_ C4].
  apply bind_ok in H. destruct H as (scheme & s5 & Hs & H).
  destruct (@choose_scheme_ok _ _ _ Hs) as [_ C5].
  assert (Cf : configuration s5 = final_configuration cfg).
  { unfold final_configuration. rewrite C5, C4, C3, C2, Hcfg. reflexivity. }
  cbn in H. rewrite Cf in H.
  apply bind_ok in H. destruct H as (groups & s6 & Hg & H).
  apply dict_getitem_ok in Hg. destruct Hg as [Hg ->].
  apply bind_ok in H. destruct H as (u & s6 & He & H).
  inversion He; subst s6. clear He.
  apply bind_ok in H. destruct H as (sn & s6 & Hsn & H).
  apply dict_getitem_ok in Hsn. destruct Hsn as [_ ->].
  apply bind_ok in H. destruct H as (sv & s6 & Hsv & H).
  apply dict_getitem_ok in Hsv. destruct Hsv as [_ ->].
  apply bind_ok in H. destruct H as (name & s7 & Hset & H).
  apply set_resource_at_ok in Hset.
  destruct Hset as (-> & rs & Hdef & C7). cbn in C7.
  match type of Hdef with
  | _ = Dict.set _ (VDict (Dict.set _ (load_balancer ?ps) _)) _ =>
      assert (Hp : properties (definition s7) name = Some ps)
        by (rewrite Hdef; apply properties_load_balancer)
  end.
  destruct (@override_loop_ok name (final_configuration cfg) _ _ Hp)
    as (s8 & Hrun & Hp8 & _ & C8).
  rewrite Hrun in H. inversion H; subst s8.
  rewrite final_configuration_get in Hg by discriminate.
  eexists name, listeners, s2, _, target, lbn, groups, sn, sv.
  split; [reflexivity|]. split; [exact Hl|]. split; [exact Hg|].
  split; [congruence | exact Hp8].
Qed.

End AssembleFacts.

(** ** What the loop over the domains returns *)

Section DomainsResult.
Variable w : World.

Lemma domain_body_result lb_name info key domain acc (s s' : state)
      (acc' : value * value) :
  domain_body w lb_name info key domain acc s = (Ok acc', s') ->
  acc' = last_weighted [(key, domain)] acc.
Proof.
  unfold domain_body. intros H.
  apply bind_ok in H. destruct H as (sub & s1 & Hsub & H).
  apply getitem_ok in Hsub. destruct Hsub as (d & -> & Gsub & ->).
  apply bind_ok in H. destruct H as (zone & s1 & Hzone & H).
  apply getitem_ok in Hzone. destruct Hzone as (d' & Ed & Gzone & ->).
  inversion Ed; subst d'. clear Ed.
  apply bind_ok in H. destruct H as (records & s1 & _ & H).
  apply bind_ok in H. destruct H as (u & s2 & _ & H).
  apply bind_ok in H. destruct H as (zone' & s3 & _ & H).
  apply bind_ok in H. destruct H as (u' & s4 & _ & H).
  apply bind_ok in H. destruct H as (type & s5 & Htype & H).
  apply getitem_ok in Htype. destruct Htype as (d' & Ed & Gtype & ->).
  inversion Ed; subst d'. clear Ed.
  unfold last_weighted. simpl. rewrite Gtype, Gsub, Gzone.
  destruct (eq_str type "weighted").
  - apply bind_ok in H. destruct H as (u1 & s6 & _ & H).
    apply bind_ok in H. destruct H as (sn & s7 & _ & H).
    apply bind_ok in H. destruct H as (sv & s8 & _ & H).
    apply bind_ok in H. destruct H as (u2 & s9 & _ & H).
    apply bind_ok in H. destruct H as (sub' & s10 & Hsub' & H).
    apply getitem_ok in Hsub'. destruct Hsub' as (d' & Ed & Gsub' & ->).
    inversion Ed; subst d'. clear Ed.
    apply bind_ok in H. destruct H as (zone'' & s11 & Hzone' & H).
    apply getitem_ok in Hzone'. destruct Hzone' as (d' & Ed & Gzone' & ->).
    inversion Ed; subst d'. clear Ed.
    inversion H; subst. congruence.
  - inversion H; subst. reflexivity.
Qed.

Lemma last_weighted_cons (entry : string * value)
      (rest : list (string * value)) (acc : value * value) :
  last_weighted (entry :: rest) acc
  = last_weighted rest (last_weighted [entry] acc).
Proof. reflexivity. Qed.

Lemma for_domains_result lb_name info domains acc (s s' : state)
      (acc' : value * value) :
  for_domains w lb_name info domains acc s = (Ok acc', s') ->
  acc' = last_weighted domains acc.
Proof.
  revert acc s. induction domains as [|[key domain] rest IH]; intros acc s H.
  - inversion H; subst. reflexivity.
  - simpl in H. apply bind_ok in H. destruct H as (acc1 & s1 & H1 & H).
    apply domain_body_result in H1. subst acc1.
    rewrite last_weighted_cons. eapply IH; exact H.
Qed.

(** A run of the component that succeeds. *)
Lemma component_ok args info force account_info (s s' : state) :
  component_elastic_load_balancer w args info force account_info s
  = (Ok tt, s') ->
  exists name domains s1 listeners s2 subnet_map target lbn groups sn sv,
    Dict.get "Name" (configuration s) = Some (VStr name)
    /\ configured_domains (configuration s) = Some domains
    /\ for_domains w (VStr name) info domains (VStr EmptyString, VNone) s
       = (Ok (last_weighted domains (VStr EmptyString, VNone)), s1)
    /\ choose_listeners w
         (fst (last_weighted domains (VStr EmptyString, VNone)))
         (snd (last_weighted domains (VStr EmptyString, VNone)))
         (configuration s) account_info s1
       = (Ok listeners, s2)
    /\ Dict.get "SecurityGroups" (configuration s) = Some groups
    /\ configuration s' = final_configuration (configuration s)
    /\ properties (definition s') name
       = Some (merge (final_configuration (configuration s))
                 (computed_properties subnet_map target listeners lbn
                    (resolve_security_groups w groups (region args)) sn sv)).
Proof.
  intros H.
  destruct (@component_inv _ _ _ _ _ _ _ _ H)
    as [[_ [e He]]|(lb & ds & Hn & Hd & [(e & _ & He)|(acc & s1 & Hf & Ha)])];
    try discriminate.
  pose proof (@for_domains_document _ _ _ _ _ _ _ _ Hf) as [Hc _].
  pose proof (for_domains_result _ _ _ _ _ Hf) as Hacc.
  destruct acc as [sub mz].
  destruct (@assemble_balancer_ok w _ _ _ _ _ _ _ _ _ Hc Ha)
    as (name & listeners & s2 & sm & target & lbn & groups & sn & sv
        & -> & Hl & Hg & Hcf & Hp).
  exists name, ds, s1, listeners, s2, sm, target, lbn, groups, sn, sv.
  rewrite <- Hacc. cbn [fst snd].
  repeat split; assumption.
Qed.

End DomainsResult.

(** A configured key stays in the configuration, unless it is a
    ["NameSuffix"] that is set. *)
Lemma final_configuration_keeps (cfg : dict value) (k : string) (v : value) :
  Dict.get k cfg = Some v ->
  (k = "NameSuffix" -> truthy v = false) ->
  Dict.get k (final_configuration cfg) = Some v.
Proof.
  intros Hk Hs. unfold final_configuration.
  set (cfg1 := if truthy (dict_get_or_none cfg "NameSuffix")
               then Dict.del "NameSuffix" cfg else cfg).
  assert (E1 : Dict.get k cfg1 = Some v).
  { unfold cfg1. destruct (truthy (dict_get_or_none cfg "NameSuffix")) eqn:T;
      [|exact Hk].
    destruct (String.eqb_spec k "NameSuffix") as [->|Hn].
    - unfold dict_get_or_none in T. rewrite Hk in T.
      rewrite (Hs eq_refl) in T. discriminate.
    - rewrite Dict_get_del_neq by congruence. exact Hk. }
  destruct (Dict.get "Scheme" cfg1) eqn:G; [exact E1|].
  destruct (String.eqb_spec k "Scheme") as [->|Hn]; [congruence|].
  rewrite Dict_get_set_neq by congruence. exact E1.
Qed.

(** A ["NameSuffix"] that is set is dropped. *)
Lemma final_configuration_drops (cfg : dict value) (v : value) :
  Dict.wf cfg ->
  Dict.get "NameSuffix" cfg = Some v -> truthy v = true ->
  Dict.get "NameSuffix" (final_configuration cfg) = None.
Proof.
  intros Hwf Hk Ht. unfold final_configuration, dict_get_or_none.
  rewrite Hk, Ht.
  assert (E : Dict.get "NameSuffix" (Dict.del "NameSuffix" cfg) = None)
    by now apply Dict_get_del_eq.
  destruct (Dict.get "Scheme" (Dict.del "NameSuffix" cfg)); [exact E|].
  rewrite Dict_get_set_neq by discriminate. exact E.
Qed.

(** The computed properties under a reserved key: only the security
    groups. *)
Lemma computed_properties_reserved subnet_map target listeners lbn sgs sn sv
      (k : string) :
  in_SENZA_PROPERTIES k = true ->
  Dict.get k (computed_properties subnet_map target listeners lbn sgs sn sv)
  = if String.eqb k "SecurityGroups" then Some sgs else None.
Proof.
  intros H. apply in_SENZA_PROPERTIES_spec in H. simpl in H.
  repeat (destruct H as [<-|H]; [reflexivity|]). contradiction.
Qed.

(** ** The DNS calls of the loop *)

Lemma silent_run {A} (m : M A) (s : state) (r : result A) (s' : state) :
  emits (fun _ => false) m -> m s = (r, s') -> trace s' = trace s.
Proof.
  intros Hm H. destruct (Hm _ _ _ H) as (evs & T & Hall).
  destruct evs as [|e evs]; [now rewrite app_nil_r in T | discriminate].
Qed.

Lemma plan_spares_A_records (w : World) (records : list Route53Record)
      (plan : list (HostedZone * conversion)) (domain_name : string) :
  (forall hz c, In (hz, c) plan ->
                to_delete c = colliding hz records
                /\ to_upsert c = map (to_alias w) (to_delete c)
                /\ to_delete c <> []) ->
  Forall (spares_A_records w) (flat_map (conversion_events domain_name) plan).
Proof.
  intros Hent. apply Forall_forall. intros e He.
  apply in_flat_map in He. destruct He as ([hz c] & Hp & He).
  destruct (Hent _ _ Hp) as (Hd & Hu & _).
  assert (Hall : Forall (fun r => r_type r <> "A") (to_delete c)).
  { rewrite Hd. apply Forall_forall. intros r Hr.
    apply colliding_In in Hr. tauto. }
  simpl in He. destruct He as [<-|[<-|[<-|[]]]]; simpl.
  - exact I.
  - exact Hall.
  - exists (to_delete c). split; [exact Hu | exact Hall].
Qed.

Lemma dns_calls_spare_A_records (w : World) (t : list event)
      (domains : list (string * value)) (evs : list event) (finished : bool) :
  dns_calls w t domains evs finished -> Forall (spares_A_records w) evs.
Proof.
  induction 1 as [t|t domains
                  |t key d sub zone rest plan more finished Hs Hz Hp Hrest IH
                  |t key d sub zone rest done hz c left Hs Hz Hp].
  - constructor.
  - constructor.
  - constructor; [exact I|]. apply Forall_app. split; [|exact IH].
    destruct Hp as (_ & Hent & _).
    now apply plan_spares_A_records with (records := route53_get_records w t (target_name w sub zone)).
  - constructor; [exact I|]. apply Forall_app. split.
    + destruct Hp as (_ & Hent & _).
      apply plan_spares_A_records
        with (records := route53_get_records w t (target_name w sub zone)).
      intros hz' c' Hin. apply Hent. apply in_or_app. now left.
    + repeat constructor.
Qed.

Section DomainLoopCalls.
Variable w : World.

Lemma domain_body_dns_calls lb_name info key domain acc (s : state)
      (r : result (value * value)) (s' : state) :
  domain_body w lb_name info key domain acc s = (r, s') ->
  (is_ok r = false /\ trace s' = trace s)
  \/ exists d sub zone,
      domain = VDict d
      /\ Dict.get "Subdomain" d = Some sub
      /\ Dict.get "Zone" d = Some zone
      /\ ((trace s'
           = (trace s ++ EvGetRecords (target_name w sub zone)
                :: flat_map (conversion_events (target_name w sub zone))
                     (convert_records w
                        (route53_get_records w (trace s)
                           (target_name w sub zone))))%list)
          \/ (is_ok r = false
              /\ exists done hz c left,
                  convert_records w
                    (route53_get_records w (trace s) (target_name w sub zone))
                  = (done ++ (hz, c) :: left)%list
                  /\ trace s'
                     = (trace s ++ EvGetRecords (target_name w sub zone)
                          :: flat_map
                               (conversion_events (target_name w sub zone))
                               done
                          ++ [EvConfirm
                                (confirm_prompt (target_name w sub zone) hz
                                   (List.length (to_upsert c))) false])%list)).
Proof.
  unfold domain_body. intros H.
  apply bind_inv in H. destruct H as [(sub & s1 & H1 & H)|(e & H1 & ->)].
  2:{ left. split; [reflexivity|].
      pose proof (getitem_pure domain "Subdomain" s) as P.
      rewrite H1 in P. simpl in P. now subst. }
  pose proof (getitem_pure domain "Subdomain" s) as P.
  rewrite H1 in P. simpl in P. subst s1.
  apply bind_inv in H. destruct H as [(zone & s1 & H2 & H)|(e & H2 & ->)].
  2:{ left. split; [reflexivity|].
      pose proof (getitem_pure domain "Zone" s) as P.
      rewrite H2 in P. simpl in P. now subst. }
  pose proof (getitem_pure domain "Zone" s) as P.
  rewrite H2 in P. simpl in P. subst s1.
  destruct domain as [| | | | |d]; try discriminate.
  simpl in H1, H2. unfold dict_getitem in H1, H2.
  destruct (Dict.get "Subdomain" d) as [sub'|] eqn:Gs; [|discriminate].
  destruct (Dict.get "Zone" d) as [zone'|] eqn:Gz; [|discriminate].
  inversion H1; subst sub'. inversion H2; subst zone'. clear H1 H2.
  right. exists d, sub, zone.
  split; [reflexivity|]. split; [exact Gs|]. split; [exact Gz|].
  fold (target_name w sub zone) in H.
  apply bind_inv in H. destruct H as [(records & s1 & H1 & H)|(e & H1 & _)];
    [|inversion H1].
  inversion H1; subst records s1. clear H1.
  set (records := route53_get_records w (trace s) (target_name w sub zone))
    in *.
  set (s1 := {| trace := (trace s ++ [EvGetRecords (target_name w sub zone)])%list;
                definition := definition s;
                configuration := configuration s |}) in *.
  apply bind_inv in H. destruct H as [(u & s2 & Hc & H)|(e & Hc & ->)].
  - assert (T2 : trace s2
                 = (trace s1
                      ++ flat_map (conversion_events (target_name w sub zone))
                           (convert_records w records))%list).
    { destruct (convert_records w records) as [|p plan] eqn:Ep.
      - inversion Hc; subst. simpl. now rewrite app_nil_r.
      - destruct (@convert_loop_run w _ _ _ _ _ Hc)
          as (_ & _ & [[_ Ht]|[Hr _]]); [exact Ht | discriminate]. }
    match type of H with
    | ?m s2 = _ => assert (E : emits (fun _ => false) m)
    end.
    { repeat first [ apply emits_set_resource | apply emits_set_property
                   | emits_step ]. }
    pose proof (@silent_run _ _ _ _ _ E H) as T.
    left. rewrite T, T2. unfold s1. cbn [trace].
    rewrite <- app_assoc. reflexivity.
  - destruct (convert_records w records) as [|p plan] eqn:Ep;
      [inversion Hc|].
    destruct (@convert_loop_run w _ _ _ _ _ Hc)
      as (_ & _ & [[Hr _]|[_ (done & hz & c & left & Hpl & Ht)]]);
      [discriminate|].
    right. split; [reflexivity|].
    exists done, hz, c, left. split; [exact Hpl|].
    rewrite Ht. unfold s1. cbn [trace].
    rewrite <- app_assoc. reflexivity.
Qed.

Lemma for_domains_dns_calls lb_name info domains acc (s : state)
      (r : result (value * value)) (s' : state) :
  for_domains w lb_name info domains acc s = (r, s') ->
  exists evs,
    trace s' = (trace s ++ evs)%list
    /\ dns_calls w (trace s) domains evs (is_ok r).
Proof.
  revert acc s. induction domains as [|[key domain] rest IH]; intros acc s H.
  - inversion H; subst. exists []. rewrite app_nil_r.
    split; [reflexivity | constructor].
  - simpl in H.
    apply bind_inv in H. destruct H as [(acc1 & s1 & H1 & H)|(e & H1 & ->)].
    + destruct (domain_body_dns_calls _ _ _ _ _ _ H1)
        as [[Hr _]|(d & sub & zone & -> & Gs & Gz & [T1|[Hr _]])];
        try discriminate.
      destruct (IH _ _ H) as (more & T2 & Hmore).
      eexists. split.
      * rewrite T2, T1, <- app_assoc. reflexivity.
      * rewrite <- app_comm_cons.
        apply dns_calls_converted; try assumption.
        -- apply convert_records_plan.
        -- rewrite <- T1. exact Hmore.
    + destruct (domain_body_dns_calls _ _ _ _ _ _ H1)
        as [[_ T]|(d & sub & zone & -> & Gs & Gz
                   & [T1|[_ (done & hz & c & left & Hpl & T1)]])].
      * exists []. rewrite app_nil_r. split; [exact T | constructor].
      * eexists. split; [exact T1|]. simpl is_ok.
        rewrite <- (app_nil_r (flat_map _ _)).
        apply dns_calls_converted; try assumption.
        -- apply convert_records_plan.
        -- constructor.
      * eexists. split; [exact T1|]. simpl is_ok.
        apply (@dns_calls_declined w (trace s) key d sub zone rest done hz c
                 left Gs Gz).
        rewrite <- Hpl. apply convert_records_plan.
Qed.

End DomainLoopCalls.

(** ** What follows the choice of the listeners *)

Lemma assemble_balancer_after_listeners (w : World) args info account_info cfg
      lb_name sub mz (s1 : state) (r : result unit) (s' : state) :
  assemble_balancer w args info account_info cfg lb_name (sub, mz) s1
  = (r, s') ->
  match choose_listeners w sub mz cfg account_info s1 with
  | (Err e, s2) => r = Err e /\ s' = s2
  | (Ok _, s2) =>
      exists evs, trace s' = (trace s2 ++ evs)%list
                  /\ forallb other_event evs = true
  end.
Proof.
  unfold assemble_balancer. intros H.
  apply bind_inv in H. destruct H as [(ls & s2 & Hl & H)|(e & Hl & ->)].
  - rewrite Hl.
    match type of H with
    | ?m s2 = _ => assert (E : emits other_event m)
    end.
    { apply emits_bind; [apply emits_choose_health_check_target | intros target].
      apply emits_bind; [apply emits_choose_loadbalancer_name | intros lbn].
      apply emits_bind; [apply emits_choose_scheme | intros scheme].
      repeat first [ apply emits_set_resource_at | apply emits_override_loop
                   | emits_step ]. }
    exact (E _ _ _ H).
  - rewrite Hl. split; reflexivity.
Qed.

(** With a name and well-formed domains the component is the loop over the
    domains followed by the assembly of the balancer. *)
Lemma component_run (w : World) args info force account_info (s : state)
      (lb_name : value) (domains : list (string * value)) :
  Dict.get "Name" (configuration s) = Some lb_name ->
  configured_domains (configuration s) = Some domains ->
  component_elastic_load_balancer w args info force account_info s
  = bind (for_domains w lb_name info domains (VStr EmptyString, VNone))
         (assemble_balancer w args info account_info (configuration s) lb_name)
         s.
Proof.
  intros Hn Hd.
  unfold component_elastic_load_balancer, configured_domains, get_configuration
    in *.
  erewrite bind_run by reflexivity.
  erewrite bind_run by (unfold dict_getitem; rewrite Hn; reflexivity).
  destruct (Dict.get "Domains" (configuration s)) as [[]|];
    try discriminate; inversion Hd; subst; reflexivity.
Qed.

(** ** The load-balancer name *)

Example get_load_balancer_name_doctest1 : get_load_balancer_name "a" "1" = "a-1".
Proof. reflexivity. Qed.

Example get_load_balancer_name_doctest2 :
  get_load_balancer_name "toolong123456789012345678901234567890" "1"
  = "toolong12345678901234567890123-1".
Proof. reflexivity. Qed.

(** C5, as stated, fails: with a version of 32 characters the bound
    [32 - len(version) - 1] is negative, the slice drops the last character
    of the stack name instead of truncating it to nothing, and the name is
    41 characters long. *)
Lemma C5_counterexample :
  ~ String.length (get_load_balancer_name "senza-app" Sample.long_version) <= 32.
Proof. vm_compute. lia. Qed.

(** C5, amended: the name always ends with ["-" ++ version]; when the
    version has at most 31 characters the name is the stack name truncated
    to [32 - len(version) - 1] characters, then ["-"], then the version, and
    its length is at most 32. *)
Theorem C5_load_balancer_name (stack_name version : string) :
  PyStr.endswith (get_load_balancer_name stack_name version) ("-" ++ version)
  /\ (String.length version <= 31 ->
      get_load_balancer_name stack_name version
      = substring 0 (32 - String.length version - 1) stack_name
          ++ "-" ++ version
      /\ String.length (get_load_balancer_name stack_name version) <= 32).
Proof.
  unfold get_load_balancer_name. split.
  - now eexists.
  - intros Hv.
    set (l := (32 - Z.of_nat (String.length version) - 1)%Z).
    assert (Hl : (0 <= l)%Z) by (unfold l; lia).
    assert (El : Z.to_nat l = 32 - String.length version - 1)
      by (unfold l; lia).
    split.
    + rewrite PyStr_slice_to_nonneg by exact Hl. now rewrite El.
    + rewrite PyStr_length_app.
      pose proof (PyStr_length_slice_to stack_name Hl) as Hs.
      simpl. lia.
Qed.

Lemma C5_witness :
  String.length "1" <= 31
  /\ get_load_balancer_name "toolong123456789012345678901234567890" "1"
     = "toolong12345678901234567890123-1".
Proof.
  assert (H : String.length "1" <= 31) by (simpl; lia).
  split; [exact H|].
  destruct (C5_load_balancer_name "toolong123456789012345678901234567890" "1")
    as [_ Hname].
  destruct (Hname H) as [Heq _].
  rewrite Heq. reflexivity.
Defined.

(** ** Certificate resolution *)

(** C1: when resolution reaches the search by domain (no explicit
    certificate, a zone is given), the certificate chosen is index 0 of the
    ACM candidates followed by the IAM candidates; when there is an ACM
    candidate the result is the ARN of an ACM certificate returned by the ACM
    store for the composed name, one with the greatest ordering key, whatever
    the IAM candidates and their ordering keys are. *)
Theorem C1_acm_before_iam (w : World) (subdomain main_zone : value)
        (cfg : dict value) (account_info : AccountArguments) (s s1 : state)
        (name : string) (acm : list ACMCertificate)
        (iam : list IAMServerCertificate) :
  dict_get_or_none cfg "SSLCertificateId" = VNone ->
  main_zone <> VNone ->
  domain_candidates w subdomain main_zone account_info s
  = (Ok (name, acm, iam), s1) ->
  (forall c,
      nth_error (map FromACM acm ++ map FromIAM iam)%list 0 = Some c ->
      resolve_certificate w subdomain main_zone cfg account_info s
      = (Ok (VStr (arn c)), s1))
  /\ (acm <> [] ->
      exists a,
        nth_error (map FromACM acm ++ map FromIAM iam)%list 0
        = Some (FromACM a)
        /\ resolve_certificate w subdomain main_zone cfg account_info s
           = (Ok (VStr (acm_arn a)), s1)
        /\ In a (acm_get_certificates w (Region account_info) name)
        /\ forall a',
            In a' (acm_get_certificates w (Region account_info) name) ->
            (acm_order a' <= acm_order a)%Z).
Proof.
  intros Hc Hz Hd.
  assert (Hfirst : forall c,
             nth_error (map FromACM acm ++ map FromIAM iam)%list 0 = Some c ->
             resolve_certificate w subdomain main_zone cfg account_info s
             = (Ok (VStr (arn c)), s1)).
  { intros c Hn.
    rewrite resolve_certificate_search by assumption.
    unfold search_by_domain. erewrite bind_run by exact Hd. cbv beta iota.
    destruct (map FromACM acm ++ map FromIAM iam)%list as [|c0 l];
      simpl in Hn; [discriminate|].
    inversion Hn; subst. reflexivity. }
  split; [exact Hfirst|].
  intros Hne.
  destruct (domain_candidates_acm _ _ _ _ _ Hd) as [->|Hs]; [congruence|].
  destruct acm as [|a rest]; [congruence|].
  exists a. split; [reflexivity|].
  split; [apply (Hfirst (FromACM a)); reflexivity|].
  symmetry in Hs. destruct (sorted_head _ _ _ Hs) as [Hin Hmax].
  split; [exact Hin|].
  intros a' Ha'. exact (Hmax a' Ha').
Qed.

Lemma C1_witness :
  exists s1,
    resolve_certificate Sample.acm_and_iam_world (VStr "app")
      (VStr "example.org") [] Sample.account (Sample.start [])
    = (Ok (VStr "arn:aws:acm:a"), s1).
Proof.
  eexists.
  refine (proj1 (@C1_acm_before_iam Sample.acm_and_iam_world (VStr "app")
                   (VStr "example.org") [] Sample.account (Sample.start [])
                   _ "app.example.org"
                   [Sample.acm_cert "a" "app.example.org" 1]
                   [Sample.iam_cert "new" 9; Sample.iam_cert "newer" 10]
                   eq_refl _ eq_refl)
                (FromACM (Sample.acm_cert "a" "app.example.org" 1)) eq_refl).
  discriminate.
Defined.

(** C2 fails on the code: the IAM certificates that match the name pattern
    are sorted by [sorted(...)] without [reverse=True] (line 59), that is
    ascending, while the ACM candidates (line 53) and the unfiltered IAM
    certificates (line 63) are sorted descending.  With two matching IAM
    certificates the candidates are "old" before "new", and the older one
    is chosen. *)
Theorem C2_iam_pattern_sorted_ascending :
  fst (domain_candidates Sample.two_iam_world (VStr "app")
         (VStr "example.org") Sample.account (Sample.start []))
  = Ok ("app.example.org", [],
        [Sample.iam_cert "old" 1; Sample.iam_cert "new" 2])
  /\ fst (resolve_certificate Sample.two_iam_world (VStr "app")
            (VStr "example.org") [] Sample.account (Sample.start []))
     = Ok (VStr (iam_arn (Sample.iam_cert "old" 1))).
Proof. split; reflexivity. Qed.

(** C3: with no explicit certificate and a zone, if the ACM search by
    domain and the IAM search by pattern return nothing and the unfiltered
    IAM store is not empty, resolution returns the ARN of the first element
    of the unfiltered IAM certificates sorted descending, an element with
    the greatest ordering key. *)
Theorem C3_fallback_to_any_iam (w : World) (subdomain : value) (zone : string)
        (cfg : dict value) (account_info : AccountArguments) (s : state) :
  dict_get_or_none cfg "SSLCertificateId" = VNone ->
  (zone <> EmptyString ->
   acm_get_certificates w (Region account_info)
     (composed_name w subdomain zone) = []) ->
  iam_get_certificates w (Some (iam_pattern_of zone)) = [] ->
  iam_get_certificates w None <> [] ->
  exists c rest,
    sorted iam_order true (iam_get_certificates w None) = c :: rest
    /\ fst (resolve_certificate w subdomain (VStr zone) cfg account_info s)
       = Ok (VStr (iam_arn c))
    /\ In c (iam_get_certificates w None)
    /\ forall c', In c' (iam_get_certificates w None) ->
                  (iam_order c' <= iam_order c)%Z.
Proof.
  intros Hc Hacm Hiam Hall.
  destruct (sorted iam_order true (iam_get_certificates w None))
    as [|c rest] eqn:Es.
  { apply sorted_nil in Es. contradiction. }
  exists c, rest. split; [reflexivity|].
  destruct (sorted_head _ _ _ Es) as [Hin Hmax].
  split; [|split; [exact Hin | exact Hmax]].
  rewrite resolve_certificate_search by (assumption || discriminate).
  unfold search_by_domain.
  destruct (domain_candidates_zone w subdomain zone account_info s) as [s1 Hd].
  erewrite bind_run by exact Hd. cbv beta iota.
  rewrite Hiam. simpl sorted at 2. cbv iota. rewrite Es.
  destruct (String.eqb zone EmptyString) eqn:E.
  - reflexivity.
  - rewrite Hacm by (intros ->; discriminate). reflexivity.
Qed.

Lemma C3_witness :
  fst (resolve_certificate Sample.fallback_world (VStr "app")
         (VStr "example.org") [] Sample.account (Sample.start []))
  = Ok (VStr "arn:aws:iam::server-certificate/new").
Proof.
  destruct (@C3_fallback_to_any_iam Sample.fallback_world (VStr "app")
              "example.org" [] Sample.account (Sample.start [])
              eq_refl (fun _ => eq_refl) eq_refl)
    as (c & rest & Hs & Hr & _).
  - discriminate.
  - rewrite Hr. inversion Hs. reflexivity.
Defined.

(** C4, as stated, fails: when the zone is absent ([main_zone] is [None],
    no binding supplied one) and no certificate is given, no search is made
    and resolution does not fail; it returns [None]. *)
Lemma C4_counterexample :
  resolve_certificate Sample.empty_world (VStr EmptyString) VNone []
    Sample.account (Sample.start [])
  = (Ok VNone, Sample.start []).
Proof. reflexivity. Qed.

(** C4, amended: with no explicit certificate, a zone that is present and
    every candidate list empty, resolution fails: with the generic message,
    which names no domain, when the zone is the empty string, and with a
    message naming [subdomain.zone] (trailing dots of the zone removed)
    otherwise.  When the zone is absent no search is made and the result is
    [None]. *)
Theorem C4_not_found (w : World) (subdomain : value) (zone : string)
        (cfg : dict value) (account_info : AccountArguments) (s : state) :
  dict_get_or_none cfg "SSLCertificateId" = VNone ->
  (zone <> EmptyString ->
   acm_get_certificates w (Region account_info)
     (composed_name w subdomain zone) = []) ->
  iam_get_certificates w (Some (iam_pattern_of zone)) = [] ->
  iam_get_certificates w None = [] ->
  fst (resolve_certificate w subdomain (VStr zone) cfg account_info s)
  = Err (FatalError
           (if String.eqb zone EmptyString
            then "Could not find any SSL certificate"
            else "Could not find any matching SSL certificate for "
                   ++ dquote
                   ++ (py_str w subdomain ++ "." ++ PyStr.rstrip "." zone)
                   ++ dquote))
  /\ resolve_certificate w subdomain VNone cfg account_info s = (Ok VNone, s).
Proof.
  intros Hc Hacm Hiam Hall. split.
  - rewrite resolve_certificate_search by (assumption || discriminate).
    unfold search_by_domain.
    destruct (domain_candidates_zone w subdomain zone account_info s)
      as [s1 Hd].
    erewrite bind_run by exact Hd. cbv beta iota.
    rewrite Hiam, Hall. simpl sorted. cbv iota.
    destruct (String.eqb zone EmptyString) eqn:E.
    + apply String.eqb_eq in E. subst zone. reflexivity.
    + rewrite Hacm by (intros ->; discriminate).
      unfold first_certificate. simpl. rewrite E. reflexivity.
  - unfold resolve_certificate. rewrite Hc. reflexivity.
Qed.

Lemma C4_witness :
  fst (resolve_certificate Sample.empty_world (VStr "app")
         (VStr "example.org.") [] Sample.account (Sample.start []))
  = Err (FatalError
           ("Could not find any matching SSL certificate for "
              ++ dquote ++ "app.example.org" ++ dquote)).
Proof.
  exact (proj1 (@C4_not_found Sample.empty_world (VStr "app") "example.org."
                  [] Sample.account (Sample.start [])
                  eq_refl (fun _ => eq_refl) eq_refl eq_refl)).
Defined.

(** ** DNS records in the way of a domain *)

(** C7: for every domain binding, in the order of the configuration, the
    component reads the records under the target name of the binding and
    places exactly those of another type than ["A"] in the conversion plan:
    the plan has one entry per hosted zone that has such a record, holding
    these records of the zone and their aliases.  For each hosted zone of
    the plan in turn it then makes one confirmation, one delete of the
    original records and one upsert of their aliases, in that order, before
    it goes on to the next binding; a run that succeeds has done so for
    every binding.  A record of type ["A"] is in no delete and no upsert is
    made of an alias of one.  After the loop no DNS call is made. *)
Theorem C7_only_other_types_converted (w : World) (args : TemplateArguments)
        (info : dict string) (force : value) (account_info : AccountArguments)
        (s : state) (r : result unit) (s' : state)
        (domains : list (string * value)) :
  configured_domains (configuration s) = Some domains ->
  component_elastic_load_balancer w args info force account_info s = (r, s') ->
  exists dns after finished,
    trace s' = (trace s ++ dns ++ after)%list
    /\ dns_calls w (trace s) domains dns finished
    /\ (r = Ok tt -> finished = true)
    /\ (finished = false -> after = [])
    /\ Forall (spares_A_records w) dns
    /\ forallb not_dns_event after = true.
Proof.
  intros Hd H.
  destruct (@component_inv _ _ _ _ _ _ _ _ H)
    as [[-> [e ->]]|(lb & ds & _ & Hd' & [(e & Hf & ->)|(acc & s1 & Hf & Ha)])].
  - exists [], [], false. rewrite !app_nil_r.
    split; [reflexivity|]. split; [constructor|].
    split; [discriminate|]. repeat split; constructor.
  - assert (ds = domains) by congruence. subst ds.
    destruct (for_domains_dns_calls _ _ _ _ _ _ Hf) as (dns & T & D).
    exists dns, [], false. rewrite app_nil_r.
    split; [exact T|]. split; [exact D|]. split; [discriminate|].
    split; [reflexivity|].
    split; [exact (dns_calls_spare_A_records D) | reflexivity].
  - assert (ds = domains) by congruence. subst ds.
    destruct (for_domains_dns_calls _ _ _ _ _ _ Hf) as (dns & T & D).
    assert (Ea : emits not_dns_event
                   (assemble_balancer w args info account_info
                      (configuration s) lb acc)).
    { apply emits_assemble_balancer; intros [] He; try discriminate;
        reflexivity. }
    destruct (Ea _ _ _ Ha) as (after & T2 & A2).
    exists dns, after, true.
    split; [now rewrite T2, T, <- app_assoc|]. split; [exact D|].
    split; [reflexivity|]. split; [discriminate|].
    split; [exact (dns_calls_spare_A_records D) | exact A2].
Qed.

Lemma C7_witness :
  exists dns after,
    trace (snd (Sample.run (Sample.cname_world true)
                  (Sample.config [Sample.one_domain])))
    = (dns ++ after)%list
    /\ dns_calls (Sample.cname_world true) []
         [("MainDomain", Sample.binding "weighted" "app" "example.org.")]
         dns true
    /\ Forall (spares_A_records (Sample.cname_world true)) dns
    /\ firstn 4 (dns ++ after)
       = [EvGetRecords "app.example.org.";
          EvConfirm (confirm_prompt "app.example.org." Sample.zone 1) true;
          EvDelete Sample.zone [Sample.record "app.example.org." "CNAME"]
            delete_comment;
          EvUpsert Sample.zone
            [Sample.alias_of (Sample.record "app.example.org." "CNAME")]
            upsert_comment].
Proof.
  pose (cfg := Sample.config [Sample.one_domain]).
  pose (out := Sample.run (Sample.cname_world true) cfg).
  assert (Hd : configured_domains (configuration (Sample.start cfg))
               = Some [("MainDomain",
                        Sample.binding "weighted" "app" "example.org.")])
    by reflexivity.
  assert (Hrun : component_elastic_load_balancer (Sample.cname_world true)
                   Sample.args Sample.info VNone Sample.account
                   (Sample.start cfg)
                 = (Ok tt, snd out))
    by (vm_compute; reflexivity).
  destruct (@C7_only_other_types_converted _ _ _ _ _ _ _ _ _ Hd Hrun)
    as (dns & after & finished & T & D & Hfin & _ & Hsafe & _).
  rewrite (Hfin eq_refl) in D.
  exists dns, after. split; [exact T|]. split; [exact D|].
  split; [exact Hsafe|].
  change (dns ++ after)%list with (trace (Sample.start cfg) ++ dns ++ after)%list.
  rewrite <- T. vm_compute. reflexivity.
Defined.

(** ** Declining a conversion *)

(** C6: if, while the component runs, the operator declines a conversion
    (for whatever hosted zone of whatever domain), the component raises
    [InvalidState]; the declined prompt is the last thing that happens, so
    no later domain is looked at; and the output document has only received
    record sets: a load balancer found in it was there before, unchanged. *)
Theorem C6_decline_aborts (w : World) (args : TemplateArguments)
        (info : dict string) (force : value) (account_info : AccountArguments)
        (s : state) (r : result unit) (s' : state)
        (t : list event) (prompt : string) :
  component_elastic_load_balancer w args info force account_info s = (r, s') ->
  trace s' = (trace s ++ t)%list ->
  In (EvConfirm prompt false) t ->
  r = Err (InvalidState "Can't create domains because there are non A Type records.")
  /\ (exists t0, t = (t0 ++ [EvConfirm prompt false])%list
                 /\ forallb not_decline t0 = true)
  /\ configuration s' = configuration s
  /\ only_record_sets s s'
  /\ (forall n v, resource (definition s') n = Some v ->
                  is_load_balancer v = true ->
                  resource (definition s) n = Some v).
Proof.
  intros H Ht Hin.
  assert (Hno : forall evs, forallb not_decline evs = true ->
                            ~ In (EvConfirm prompt false) evs).
  { intros evs Ha Hi. rewrite forallb_forall in Ha.
    specialize (Ha _ Hi). discriminate. }
  destruct (@declines_last_component w args info force account_info _ _ _ H)
    as (evs & Te & D).
  assert (evs = t) by (rewrite Ht in Te; now apply app_inv_head in Te).
  subst evs.
  destruct D as [Hall|(-> & t0 & p & -> & Hall)];
    [exfalso; exact (Hno _ Hall Hin)|].
  split; [reflexivity|].
  assert (p = prompt).
  { apply in_app_or in Hin. destruct Hin as [Hi|[Hi|[]]].
    - exfalso. exact (Hno _ Hall Hi).
    - now inversion Hi. }
  subst p. split; [now exists t0|].
  assert (Hdoc : configuration s' = configuration s /\ only_record_sets s s').
  { destruct (@component_inv _ _ _ _ _ _ _ _ H)
      as [[-> _]|(lb & ds & _ & _ & [(e & Hf & _)|(acc & s1 & Hf & Ha)])].
    - split; [reflexivity | apply only_record_sets_refl].
    - exact (@for_domains_document _ _ _ _ _ _ _ _ Hf).
    - exfalso.
      destruct (@declines_last_for_domains w _ _ _ _ _ _ _ Hf)
        as (e1 & T1 & [A1|[Habs _]]); [|discriminate].
      assert (Ea : emits not_decline
                     (assemble_balancer w args info account_info
                        (configuration s) lb acc))
        by (apply emits_assemble_balancer;
            [apply certificate_event_not_decline
            | apply other_event_not_decline]).
      destruct (Ea _ _ _ Ha) as (e2 & T2 & A2).
      rewrite T1, <- app_assoc in T2. rewrite Ht in T2.
      apply app_inv_head in T2.
      apply (Hno (e1 ++ e2)%list).
      + rewrite forallb_app. now rewrite A1, A2.
      + rewrite <- T2. apply in_or_app. right. now left. }
  destruct Hdoc as [Hc Hd].
  split; [exact Hc|]. split; [exact Hd|].
  intros n v Hv Hlb. destruct (Hd n) as [E|(v' & Hv' & Hrs)].
  - now rewrite <- E.
  - rewrite Hv in Hv'. inversion Hv'; subst v'.
    apply is_record_set_not_balancer in Hrs. congruence.
Qed.

Lemma C6_witness :
  fst (Sample.run (Sample.cname_world false) (Sample.config [Sample.one_domain]))
  = Err (InvalidState "Can't create domains because there are non A Type records.")
  /\ definition (snd (Sample.run (Sample.cname_world false)
                        (Sample.config [Sample.one_domain])))
     = [("Resources", VDict [])].
Proof.
  pose (out := Sample.run (Sample.cname_world false)
                 (Sample.config [Sample.one_domain])).
  assert (Hrun : component_elastic_load_balancer (Sample.cname_world false)
                   Sample.args Sample.info VNone Sample.account
                   (Sample.start (Sample.config [Sample.one_domain]))
                 = (fst out, snd out))
    by (vm_compute; reflexivity).
  assert (Htrace : trace (snd out)
                   = (trace (Sample.start (Sample.config [Sample.one_domain]))
                        ++ trace (snd out))%list)
    by reflexivity.
  assert (Hin : In (EvConfirm
                      (confirm_prompt "app.example.org." Sample.zone 1) false)
                   (trace (snd out)))
    by (vm_compute; right; left; reflexivity).
  destruct (@C6_decline_aborts _ _ _ _ _ _ _ _ _ _ Hrun Htrace Hin) as (Hr & _).
  split; [exact Hr | vm_compute; reflexivity].
Defined.

(** ** The listeners *)

(** C8, as stated, fails: a configured ['Listeners'] that is an empty list
    is falsy, so [configuration.get('Listeners') or get_listeners(...)]
    still calls [get_listeners]; here the certificate search it makes
    fails and no resource is emitted. *)
Lemma C8_counterexample :
  Dict.get "Listeners"
    (Sample.config [Sample.one_domain; ("Listeners", VList [])])
  = Some (VList [])
  /\ fst (Sample.run Sample.empty_world
            (Sample.config [Sample.one_domain; ("Listeners", VList [])]))
     = Err (FatalError (not_found_for "app.example.org"))
  /\ existsb certificate_event
       (trace (snd (Sample.run Sample.empty_world
                      (Sample.config [Sample.one_domain;
                                      ("Listeners", VList [])]))))
     = true.
Proof. vm_compute. auto. Qed.

(** C8, amended: whenever the configuration contains a ['Listeners'] entry
    and the component succeeds, that value, whatever it is, is placed
    verbatim in the [Listeners] property of the emitted balancer.  When the
    value is truthy (a list that is not empty) it is what the choice of the
    listeners returns and [get_listeners] is not called: no call to a
    certificate store is made during the run.  When the value is falsy (an
    empty list, [None]) the choice of the listeners is [get_listeners]: once
    the loop over the domains is done it is called with the subdomain and
    the zone of the last weighted binding, the component fails as it does
    when it fails, and when it returns (its listener is then replaced by the
    configured value) only the warning and the resolution of the security
    groups follow. *)
Theorem C8_configured_listeners (w : World) (args : TemplateArguments)
        (info : dict string) (force : value) (account_info : AccountArguments)
        (s : state) (r : result unit) (s' : state) (listeners : value) :
  Dict.wf (configuration s) ->
  Dict.get "Listeners" (configuration s) = Some listeners ->
  component_elastic_load_balancer w args info force account_info s = (r, s') ->
  (r = Ok tt ->
   exists name,
     Dict.get "Name" (configuration s) = Some (VStr name)
     /\ property (definition s') name "Listeners" = Some listeners)
  /\ (truthy listeners = true ->
      (forall sub mz,
          choose_listeners w sub mz (configuration s) account_info
          = ret listeners)
      /\ exists evs, trace s' = (trace s ++ evs)%list
                     /\ forallb not_certificate_event evs = true)
  /\ (truthy listeners = false ->
      (forall sub mz,
          choose_listeners w sub mz (configuration s) account_info
          = get_listeners w sub mz (configuration s) account_info)
      /\ forall lb_name domains acc s1,
          Dict.get "Name" (configuration s) = Some lb_name ->
          configured_domains (configuration s) = Some domains ->
          for_domains w lb_name info domains (VStr EmptyString, VNone) s
          = (Ok acc, s1) ->
          acc = last_weighted domains (VStr EmptyString, VNone)
          /\ match get_listeners w (fst acc) (snd acc) (configuration s)
                     account_info s1 with
             | (Err e, s2) => r = Err e /\ s' = s2
             | (Ok _, s2) =>
                 exists evs, trace s' = (trace s2 ++ evs)%list
                             /\ forallb other_event evs = true
             end).
Proof.
  intros Hwf Hl H. split; [|split].
  - intros ->.
    destruct (@component_ok _ _ _ _ _ _ _ H)
      as (name & ds & s1 & ls & s2 & sm & tg & lbn & gs & sn & sv
          & Hn & _ & _ & Hcl & _ & _ & Hp).
    exists name. split; [exact Hn|].
    unfold property. rewrite Hp.
    rewrite merge_get by now apply final_configuration_wf.
    change (in_SENZA_PROPERTIES "Listeners") with false. cbv iota.
    rewrite (@final_configuration_keeps _ _ _ Hl) by discriminate.
    reflexivity.
  - intros Ht.
    assert (Hch : forall sub mz,
               choose_listeners w sub mz (configuration s) account_info
               = ret listeners).
    { intros sub mz. unfold choose_listeners, dict_get_or_none.
      rewrite Hl, Ht. reflexivity. }
    split; [exact Hch|].
    destruct (@component_inv _ _ _ _ _ _ _ _ H)
      as [[-> _]|(lb & ds & _ & _ & [(e & Hf & _)|(acc & s1 & Hf & Ha)])].
    + exists []. now rewrite app_nil_r.
    + destruct (@emits_for_domains w _ _ _ _ _ _ _ Hf) as (evs & Te & Ae).
      exists evs. split; [exact Te|].
      eapply forallb_weaken; [apply dns_event_not_certificate | exact Ae].
    + destruct (@emits_for_domains w _ _ _ _ _ _ _ Hf) as (e1 & T1 & A1).
      assert (Ea : emits not_certificate_event
                     (assemble_balancer w args info account_info
                        (configuration s) lb acc)).
      { apply emits_assemble_balancer_with.
        - intros sub mz. rewrite Hch. apply emits_ret.
        - apply other_event_not_certificate. }
      destruct (Ea _ _ _ Ha) as (e2 & T2 & A2).
      exists (e1 ++ e2)%list. split; [now rewrite T2, T1, app_assoc|].
      rewrite forallb_app, A2.
      rewrite (@forallb_weaken _ _ _ dns_event_not_certificate A1). reflexivity.
  - intros Hf.
    assert (Hch : forall sub mz,
               choose_listeners w sub mz (configuration s) account_info
               = get_listeners w sub mz (configuration s) account_info).
    { intros sub mz. unfold choose_listeners, dict_get_or_none.
      rewrite Hl, Hf. reflexivity. }
    split; [exact Hch|].
    intros lb_name domains acc s1 Hn Hd Hloop.
    split; [exact (@for_domains_result w _ _ _ _ _ _ _ Hloop)|].
    rewrite (@component_run w _ _ _ _ _ _ _ Hn Hd) in H.
    erewrite bind_run in H by exact Hloop.
    destruct acc as [sub mz]. cbn [fst snd]. rewrite <- Hch.
    exact (@assemble_balancer_after_listeners _ _ _ _ _ _ _ _ _ _ _ H).
Qed.

Lemma C8_witness :
  property
    (definition
       (snd (Sample.run (Sample.cname_world true)
               (Sample.config [Sample.one_domain;
                               ("Listeners", Sample.http_listener)]))))
    "AppLoadBalancer" "Listeners"
  = Some Sample.http_listener
  /\ property
       (definition
          (snd (Sample.run Sample.acm_and_iam_world
                  (Sample.config [Sample.one_domain;
                                  ("Listeners", VList [])]))))
       "AppLoadBalancer" "Listeners"
     = Some (VList []).
Proof.
  assert (Hwf : forall ls,
             Dict.wf (configuration
                        (Sample.start
                           (Sample.config [Sample.one_domain;
                                           ("Listeners", ls)])))).
  { intros ls. unfold Dict.wf. simpl.
    repeat (constructor;
            [simpl; intros Hin;
             repeat (destruct Hin as [Hin|Hin]; [discriminate|]); exact Hin|]).
    constructor. }
  split.
  - pose (cfg := Sample.config [Sample.one_domain;
                                ("Listeners", Sample.http_listener)]).
    pose (out := Sample.run (Sample.cname_world true) cfg).
    assert (Hrun : component_elastic_load_balancer (Sample.cname_world true)
                     Sample.args Sample.info VNone Sample.account
                     (Sample.start cfg)
                   = (Ok tt, snd out))
      by (vm_compute; reflexivity).
    destruct (@C8_configured_listeners _ _ _ _ _ _ _ _ Sample.http_listener
                (Hwf _) eq_refl Hrun) as (Hp & _ & _).
    destruct (Hp eq_refl) as (name & Hn & Hprop).
    inversion Hn; subst name. exact Hprop.
  - pose (cfg := Sample.config [Sample.one_domain; ("Listeners", VList [])]).
    pose (out := Sample.run Sample.acm_and_iam_world cfg).
    assert (Hrun : component_elastic_load_balancer Sample.acm_and_iam_world
                     Sample.args Sample.info VNone Sample.account
                     (Sample.start cfg)
                   = (Ok tt, snd out))
      by (vm_compute; reflexivity).
    destruct (@C8_configured_listeners _ _ _ _ _ _ _ _ (VList [])
                (Hwf _) eq_refl Hrun) as (Hp & _ & _).
    destruct (Hp eq_refl) as (name & Hn & Hprop).
    inversion Hn; subst name. exact Hprop.
Defined.

(** ** The merge of the configuration *)

(** C9, as stated, fails: ["NameSuffix"] is not a reserved key, yet when it
    is set it is deleted from the configuration once the balancer name is
    computed (line 170) and never reaches the properties. *)
Lemma C9_counterexample :
  Dict.get "NameSuffix" (Sample.config [("NameSuffix", VStr "x")])
  = Some (VStr "x")
  /\ in_SENZA_PROPERTIES "NameSuffix" = false
  /\ fst (Sample.run Sample.empty_world
            (Sample.config [("NameSuffix", VStr "x")])) = Ok tt
  /\ property
       (definition (snd (Sample.run Sample.empty_world
                           (Sample.config [("NameSuffix", VStr "x")]))))
       "AppLoadBalancer" "NameSuffix"
     = None.
Proof. vm_compute. auto. Qed.

(** C9, amended: after a successful run, every key of the input
    configuration that is not reserved, other than a ["NameSuffix"] that is
    set, is in the balancer's properties with exactly its configured value
    (whatever was computed under that key); a ["NameSuffix"] that is set is
    not in the properties; and under a reserved key the properties hold what
    was computed: the resolved security groups under ["SecurityGroups"],
    nothing under the other reserved keys. *)
Theorem C9_overrides (w : World) (args : TemplateArguments)
        (info : dict string) (force : value) (account_info : AccountArguments)
        (s s' : state) :
  Dict.wf (configuration s) ->
  component_elastic_load_balancer w args info force account_info s
  = (Ok tt, s') ->
  exists name,
    Dict.get "Name" (configuration s) = Some (VStr name)
    /\ (forall k v,
           Dict.get k (configuration s) = Some v ->
           in_SENZA_PROPERTIES k = false ->
           (k = "NameSuffix" -> truthy v = false) ->
           property (definition s') name k = Some v)
    /\ (forall v,
           Dict.get "NameSuffix" (configuration s) = Some v ->
           truthy v = true ->
           property (definition s') name "NameSuffix" = None)
    /\ (forall k,
           in_SENZA_PROPERTIES k = true ->
           property (definition s') name k
           = if String.eqb k "SecurityGroups"
             then option_map
                    (fun groups =>
                       resolve_security_groups w groups (region args))
                    (Dict.get "SecurityGroups" (configuration s))
             else None).
Proof.
  intros Hwf H.
  destruct (@component_ok _ _ _ _ _ _ _ H)
    as (name & ds & s1 & ls & s2 & sm & tg & lbn & gs & sn & sv
        & Hn & _ & _ & _ & Hg & _ & Hp).
  exists name. split; [exact Hn|].
  pose proof (final_configuration_wf Hwf) as Hwf'.
  unfold property. rewrite Hp. split; [|split].
  - intros k v Hk Hr Hs. rewrite merge_get by exact Hwf'. rewrite Hr.
    now rewrite (final_configuration_keeps _ Hk Hs).
  - intros v Hk Ht. rewrite merge_get by exact Hwf'.
    change (in_SENZA_PROPERTIES "NameSuffix") with false. cbv iota.
    rewrite (final_configuration_drops Hwf Hk Ht). reflexivity.
  - intros k Hr. rewrite merge_get by exact Hwf'. rewrite Hr.
    rewrite computed_properties_reserved by exact Hr.
    rewrite Hg. reflexivity.
Qed.

Lemma C9_witness :
  property
    (definition
       (snd (Sample.run Sample.empty_world
               (Sample.config [("CrossZone", VStr "false")]))))
    "AppLoadBalancer" "CrossZone"
  = Some (VStr "false").
Proof.
  pose (cfg := Sample.config [("CrossZone", VStr "false")]).
  pose (out := Sample.run Sample.empty_world cfg).
  assert (Hwf : Dict.wf (configuration (Sample.start cfg))).
  { unfold Dict.wf. simpl.
    repeat (constructor;
            [simpl; intros Hin;
             repeat (destruct Hin as [Hin|Hin]; [discriminate|]); exact Hin|]).
    constructor. }
  assert (Hrun : component_elastic_load_balancer Sample.empty_world
                   Sample.args Sample.info VNone Sample.account
                   (Sample.start cfg)
                 = (Ok tt, snd out))
    by (vm_compute; reflexivity).
  destruct (@C9_overrides _ _ _ _ _ _ _ Hwf Hrun) as (name & Hn & Hk & _).
  inversion Hn; subst name.
  apply Hk; [reflexivity | reflexivity | discriminate].
Defined.

(** C10, as stated, fails: with two weighted bindings the certificate is
    resolved with the subdomain and the zone of the second one, not of the
    first; resolving with those of the first gives another certificate. *)
Lemma C10_counterexample :
  property
    (definition (snd (Sample.run Sample.two_zones_world
                        (Sample.config [Sample.two_weighted_domains]))))
    "AppLoadBalancer" "Listeners"
  = Some (VList [listener (VStr "arn:aws:acm:second") (VInt 8080)])
  /\ fst (resolve_certificate Sample.two_zones_world (VStr "a")
            (VStr "first.org") (Sample.config [Sample.two_weighted_domains])
            Sample.account
            (Sample.start (Sample.config [Sample.two_weighted_domains])))
     = Ok (VStr "arn:aws:acm:first").
Proof. vm_compute. auto. Qed.

(** C10, amended: when no ['Listeners'] is configured and the component
    succeeds, the balancer has exactly one listener, with protocol HTTPS,
    balancer port 443, instance port the configured ['HTTPPort'], no policy
    names, and the certificate resolved with the subdomain and the zone of
    the last binding whose type is ["weighted"]; when no binding is weighted
    the subdomain is empty and the zone absent, and then, without an explicit
    certificate, no search is made and the certificate is [None]. *)
Theorem C10_default_listener (w : World) (args : TemplateArguments)
        (info : dict string) (force : value) (account_info : AccountArguments)
        (s s' : state) :
  Dict.wf (configuration s) ->
  Dict.get "Listeners" (configuration s) = None ->
  component_elastic_load_balancer w args info force account_info s
  = (Ok tt, s') ->
  exists name domains s1 s2 certificate port,
    Dict.get "Name" (configuration s) = Some (VStr name)
    /\ configured_domains (configuration s) = Some domains
    /\ for_domains w (VStr name) info domains (VStr EmptyString, VNone) s
       = (Ok (last_weighted domains (VStr EmptyString, VNone)), s1)
    /\ resolve_certificate w
         (fst (last_weighted domains (VStr EmptyString, VNone)))
         (snd (last_weighted domains (VStr EmptyString, VNone)))
         (configuration s) account_info s1
       = (Ok certificate, s2)
    /\ Dict.get "HTTPPort" (configuration s) = Some port
    /\ property (definition s') name "Listeners"
       = Some (VList [VDict [("PolicyNames", VList []);
                             ("SSLCertificateId", certificate);
                             ("Protocol", VStr "HTTPS");
                             ("InstancePort", port);
                             ("LoadBalancerPort", VInt 443)]])
    /\ (snd (last_weighted domains (VStr EmptyString, VNone)) = VNone ->
        dict_get_or_none (configuration s) "SSLCertificateId" = VNone ->
        certificate = VNone /\ s2 = s1).
Proof.
  intros Hwf Hl H.
  destruct (@component_ok _ _ _ _ _ _ _ H)
    as (name & ds & s1 & ls & s2 & sm & tg & lbn & gs & sn & sv
        & Hn & Hd & Hf & Hcl & _ & _ & Hp).
  unfold choose_listeners, dict_get_or_none in Hcl. rewrite Hl in Hcl.
  simpl truthy in Hcl. cbv iota in Hcl. unfold get_listeners in Hcl.
  apply bind_ok in Hcl. destruct Hcl as (cert & s3 & Hres & Hcl).
  apply bind_ok in Hcl. destruct Hcl as (port & s4 & Hport & Hcl).
  apply dict_getitem_ok in Hport. destruct Hport as [Hport ->].
  inversion Hcl; subst ls s3. clear Hcl.
  exists name, ds, s1, s2, cert, port.
  split; [exact Hn|]. split; [exact Hd|]. split; [exact Hf|].
  split; [exact Hres|]. split; [exact Hport|]. split.
  - unfold property. rewrite Hp.
    rewrite merge_get by now apply final_configuration_wf.
    change (in_SENZA_PROPERTIES "Listeners") with false. cbv iota.
    rewrite final_configuration_get by discriminate. rewrite Hl.
    reflexivity.
  - intros Hz Hc. unfold resolve_certificate in Hres.
    rewrite Hc, Hz in Hres. simpl in Hres. inversion Hres; subst. now split.
Qed.

Lemma C10_witness :
  property
    (definition (snd (Sample.run Sample.two_zones_world
                        (Sample.config [Sample.two_weighted_domains]))))
    "AppLoadBalancer" "Listeners"
  = Some (VList [VDict [("PolicyNames", VList []);
                        ("SSLCertificateId", VStr "arn:aws:acm:second");
                        ("Protocol", VStr "HTTPS");
                        ("InstancePort", VInt 8080);
                        ("LoadBalancerPort", VInt 443)]]).
Proof.
  pose (cfg := Sample.config [Sample.two_weighted_domains]).
  pose (out := Sample.run Sample.two_zones_world cfg).
  assert (Hwf : Dict.wf (configuration (Sample.start cfg))).
  { unfold Dict.wf. simpl.
    repeat (constructor;
            [simpl; intros Hin;
             repeat (destruct Hin as [Hin|Hin]; [discriminate|]); exact Hin|]).
    constructor. }
  assert (Hrun : component_elastic_load_balancer Sample.two_zones_world
                   Sample.args Sample.info VNone Sample.account
                   (Sample.start cfg)
                 = (Ok tt, snd out))
    by (vm_compute; reflexivity).
  destruct (@C10_default_listener _ _ _ _ _ _ _ Hwf eq_refl Hrun)
    as (name & ds & s1 & s2 & cert & port & Hn & Hd & Hf & Hres & Hport
        & Hprop & _).
  inversion Hn; subst name. inversion Hd; subst ds.
  inversion Hport; subst port.
  assert (Hs1 : s1 = snd (for_domains Sample.two_zones_world
                            (VStr "AppLoadBalancer") Sample.info
                            [("First", Sample.binding "weighted" "a" "first.org");
                             ("Second", Sample.binding "weighted" "b" "second.org")]
                            (VStr EmptyString, VNone) (Sample.start cfg)))
    by (rewrite Hf; reflexivity).
  subst s1. vm_compute in Hres. inversion Hres; subst cert.
  exact Hprop.
Defined.

(** ** The parts of the second phase, outcome by outcome *)

Lemma bind_run_err {A B} (m : M A) (k : A -> M B) (s s1 : state) (e : error) :
  m s = (Err e, s1) -> bind m k s = (Err e, s1).
Proof. unfold bind. now intros ->. Qed.

Section PartsRuns.
Variable w : World.

Lemma choose_health_check_target_run (cfg : dict value) (s : state) :
  choose_health_check_target w cfg s
  = let protocol := configured cfg "HealthCheckProtocol" (VStr "HTTP") in
    if in_strs protocol allowed_health_check_protocols then
      match Dict.get "HTTPPort" cfg with
      | Some port =>
          (Ok (py_str w protocol ++ ":"
                 ++ py_str w (configured cfg "HealthCheckPort" port)
                 ++ py_str w (configured cfg "HealthCheckPath" (VStr "/ui/"))),
           s)
      | None => (Err (KeyError "HTTPPort"), s)
      end
    else (Err (unsupported_protocol w protocol), s).
Proof.
  unfold choose_health_check_target, configured. cbv zeta.
  destruct (in_strs _ allowed_health_check_protocols); cbn; [|reflexivity].
  unfold dict_getitem. destruct (Dict.get "HTTPPort" cfg); reflexivity.
Qed.

Lemma choose_loadbalancer_name_run (info : dict string) (s s' : state)
      (lbn : string) :
  choose_loadbalancer_name w info s = (Ok lbn, s') ->
  exists sn sv,
    Dict.get "StackName" info = Some sn
    /\ Dict.get "StackVersion" info = Some sv
    /\ lbn = get_load_balancer_name sn (name_version w (configuration s) sv)
    /\ trace s' = trace s.
Proof.
  unfold choose_loadbalancer_name, name_version. cbn. intros H.
  destruct (truthy (dict_get_or_none (configuration s) "NameSuffix")) eqn:T.
  - apply bind_ok in H. destruct H as (sv & s1 & H1 & H).
    apply dict_getitem_ok in H1. destruct H1 as [Gsv ->].
    apply bind_ok in H. destruct H as (suffix & s1 & H1 & H).
    apply dict_getitem_ok in H1. destruct H1 as [Gsuf ->].
    apply bind_ok in H. destruct H as (sn & s1 & H1 & H).
    apply dict_getitem_ok in H1. destruct H1 as [Gsn ->].
    cbn in H. inversion H; subst.
    exists sn, sv. unfold dict_get_or_none. rewrite Gsuf. auto.
  - apply bind_ok in H. destruct H as (sn & s1 & H1 & H).
    apply dict_getitem_ok in H1. destruct H1 as [Gsn ->].
    apply bind_ok in H. destruct H as (sv & s1 & H1 & H).
    apply dict_getitem_ok in H1. destruct H1 as [Gsv ->].
    inversion H; subst. exists sn, sv. auto.
Qed.

Lemma choose_scheme_run (s : state) :
  let scheme := configured (configuration s) "Scheme" (VStr "internal") in
  let s1 :=
    {| trace := (trace s
                   ++ if eq_str scheme "internet-facing"
                      then [EvSecho internet_facing_warning] else [])%list;
       definition := definition s;
       configuration :=
         match Dict.get "Scheme" (configuration s) with
         | Some _ => configuration s
         | None => Dict.set "Scheme" (VStr "internal") (configuration s)
         end |} in
  choose_scheme w s
  = if in_strs scheme allowed_loadbalancer_schemes
    then (Ok scheme, s1) else (Err (unsupported_scheme w scheme), s1).
Proof.
  unfold choose_scheme, configured, bind, get_configuration,
    put_configuration, emit, ret, raise.
  destruct s as [t d c]. cbn [trace definition configuration].
  destruct (Dict.get "Scheme" c) as [sch|] eqn:G.
  - cbn [trace definition configuration].
    remember (in_strs sch allowed_loadbalancer_schemes) as ok.
    remember (eq_str sch "internet-facing") as facing.
    destruct facing, ok; cbn [negb trace definition configuration];
      rewrite ?app_nil_r; reflexivity.
  - cbn. rewrite app_nil_r. reflexivity.
Qed.

End PartsRuns.

(** ** A successful run, in full *)

Section FullRun.
Variable w : World.

Lemma set_resource_at_trace (lb_name resource : value) (s s' : state)
      (r : result string) :
  set_resource_at lb_name resource s = (r, s') -> trace s' = trace s.
Proof.
  unfold set_resource_at. intros H.
  apply bind_inv in H. destruct H as [(def & s1 & H1 & H)|(e & H1 & _)];
    [|inversion H1].
  inversion H1; subst def s1. clear H1.
  apply bind_inv in H. destruct H as [(rs & s1 & H1 & H)|(e & H1 & _)].
  - pose proof (dict_getitem_pure (definition s) "Resources" s) as Hp.
    rewrite H1 in Hp. simpl in Hp. subst s1.
    destruct rs; try (inversion H; reflexivity).
    destruct lb_name; try (inversion H; reflexivity).
    apply bind_inv in H. destruct H as [(u & s1 & H2 & H)|(e & H2 & _)].
    + destruct (@set_resource_run _ _ _ _ _ H2) as (T & _).
      inversion H; subst. exact T.
    + destruct (@set_resource_run _ _ _ _ _ H2) as (T & _). exact T.
  - pose proof (dict_getitem_pure (definition s) "Resources" s) as Hp.
    rewrite H1 in Hp. simpl in Hp. now subst.
Qed.

Lemma assemble_balancer_full args info account_info cfg lb_name sub mz
      (s1 s' : state) :
  configuration s1 = cfg ->
  assemble_balancer w args info account_info cfg lb_name (sub, mz) s1
  = (Ok tt, s') ->
  exists name listeners s2 port groups sn sv,
    lb_name = VStr name
    /\ choose_listeners w sub mz cfg account_info s1 = (Ok listeners, s2)
    /\ in_strs (configured cfg "HealthCheckProtocol" (VStr "HTTP"))
         allowed_health_check_protocols = true
    /\ in_strs (configured cfg "Scheme" (VStr "internal"))
         allowed_loadbalancer_schemes = true
    /\ Dict.get "HTTPPort" cfg = Some port
    /\ Dict.get "SecurityGroups" cfg = Some groups
    /\ Dict.get "StackName" info = Some sn
    /\ Dict.get "StackVersion" info = Some sv
    /\ trace s'
       = (trace s2
            ++ (if eq_str (configured cfg "Scheme" (VStr "internal"))
                          "internet-facing"
                then [EvSecho internet_facing_warning] else [])
            ++ [EvResolveSecurityGroups groups (region args)])%list
    /\ configuration s' = final_configuration cfg
    /\ properties (definition s') name
       = Some (merge (final_configuration cfg)
                 (computed_properties
                    (subnet_map_of (configured cfg "Scheme" (VStr "internal")))
                    (py_str w (configured cfg "HealthCheckProtocol" (VStr "HTTP"))
                       ++ ":"
                       ++ py_str w (configured cfg "HealthCheckPort" port)
                       ++ py_str w (configured cfg "HealthCheckPath"
                                      (VStr "/ui/")))
                    listeners
                    (get_load_balancer_name sn (name_version w cfg sv))
                    (resolve_security_groups w groups (region args))
                    sn sv)).
Proof.
  intros Hcfg H. unfold assemble_balancer in H.
  apply bind_ok in H. destruct H as (listeners & s2 & Hl & H).
  destruct (@frames_choose_listeners w _ _ _ _ _ _ _ Hl) as [_ C2].
  apply bind_ok in H. destruct H as (target & s3 & Ht & H).
  rewrite choose_health_check_target_run in Ht. cbv zeta in Ht.
  destruct (in_strs (configured cfg "HealthCheckProtocol" (VStr "HTTP"))
              allowed_health_check_protocols) eqn:Hproto; [|discriminate].
  destruct (Dict.get "HTTPPort" cfg) as [port|] eqn:Hport; [|discriminate].
  inversion Ht; subst target s3. clear Ht.
  apply bind_ok in H. destruct H as (lbn & s4 & Hn & H).
  destruct (@choose_loadbalancer_name_ok w _ _ _ _ Hn) as [_ C4].
  destruct (@choose_loadbalancer_name_run w _ _ _ _ Hn)
    as (sn & sv & Gsn & Gsv & -> & T4).
  assert (Cs2 : configuration s2 = cfg) by congruence.
  rewrite Cs2 in *.
  apply bind_ok in H. destruct H as (scheme & s5 & Hs & H).
  pose proof (choose_scheme_run w s4) as Rs. cbv zeta in Rs.
  rewrite Rs in Hs. clear Rs.
  assert (Esch : configured (configuration s4) "Scheme" (VStr "internal")
                 = configured cfg "Scheme" (VStr "internal")).
  { unfold configured. rewrite C4.
    destruct (truthy (dict_get_or_none cfg "NameSuffix")); [|reflexivity].
    rewrite Dict_get_del_neq by discriminate. reflexivity. }
  rewrite Esch in Hs.
  destruct (in_strs (configured cfg "Scheme" (VStr "internal"))
              allowed_loadbalancer_schemes) eqn:Hscheme; [|discriminate].
  inversion Hs; subst scheme s5. clear Hs.
  assert (Cf : match Dict.get "Scheme" (configuration s4) with
               | Some _ => configuration s4
               | None => Dict.set "Scheme" (VStr "internal") (configuration s4)
               end = final_configuration cfg).
  { unfold final_configuration. rewrite C4. reflexivity. }
  cbn in H. rewrite Cf in H.
  apply bind_ok in H. destruct H as (groups & s6 & Hg & H).
  apply dict_getitem_ok in Hg. destruct Hg as [Hg ->].
  apply bind_ok in H. destruct H as (u & s6 & He & H).
  unfold emit in He. inversion He as [[Hu Hs6]]. clear He. subst s6.
  cbn [trace definition configuration] in H.
  apply bind_ok in H. destruct H as (sn' & s6 & Hsn & H).
  apply dict_getitem_ok in Hsn. destruct Hsn as [Gsn' ->].
  apply bind_ok in H. destruct H as (sv' & s6 & Hsv & H).
  apply dict_getitem_ok in Hsv. destruct Hsv as [Gsv' ->].
  assert (sn' = sn) by congruence. assert (sv' = sv) by congruence.
  subst sn' sv'.
  apply bind_ok in H. destruct H as (name & s7 & Hset & H).
  pose proof (set_resource_at_trace _ _ _ Hset) as T7.
  cbn [trace definition configuration] in T7.
  apply set_resource_at_ok in Hset.
  destruct Hset as (-> & rs & Hdef & C7).
  cbn [trace definition configuration] in Hdef, C7.
  match type of Hdef with
  | _ = Dict.set _ (VDict (Dict.set _ (load_balancer ?ps) _)) _ =>
      assert (Hp : properties (definition s7) name = Some ps)
        by (rewrite Hdef; apply properties_load_balancer)
  end.
  destruct (@override_loop_ok name (final_configuration cfg) _ _ Hp)
    as (s8 & Hrun & Hp8 & T8 & C8).
  rewrite Hrun in H. inversion H; subst s8.
  rewrite final_configuration_get in Hg by discriminate.
  exists name, listeners, s2, port, groups, sn, sv.
  repeat (split; [first [reflexivity | assumption]|]).
  split; [now rewrite T8, T7, T4, app_assoc|].
  split; [congruence | exact Hp8].
Qed.

End FullRun.

Lemma component_full (w : World) args info force account_info (s s' : state) :
  component_elastic_load_balancer w args info force account_info s
  = (Ok tt, s') ->
  exists name domains s1 listeners s2 port groups sn sv,
    Dict.get "Name" (configuration s) = Some (VStr name)
    /\ configured_domains (configuration s) = Some domains
    /\ for_domains w (VStr name) info domains (VStr EmptyString, VNone) s
       = (Ok (last_weighted domains (VStr EmptyString, VNone)), s1)
    /\ choose_listeners w
         (fst (last_weighted domains (VStr EmptyString, VNone)))
         (snd (last_weighted domains (VStr EmptyString, VNone)))
         (configuration s) account_info s1
       = (Ok listeners, s2)
    /\ in_strs (configured (configuration s) "HealthCheckProtocol" (VStr "HTTP"))
         allowed_health_check_protocols = true
    /\ in_strs (configured (configuration s) "Scheme" (VStr "internal"))
         allowed_loadbalancer_schemes = true
    /\ Dict.get "HTTPPort" (configuration s) = Some port
    /\ Dict.get "SecurityGroups" (configuration s) = Some groups
    /\ Dict.get "StackName" info = Some sn
    /\ Dict.get "StackVersion" info = Some sv
    /\ trace s'
       = (trace s2
            ++ (if eq_str (configured (configuration s) "Scheme"
                             (VStr "internal")) "internet-facing"
                then [EvSecho internet_facing_warning] else [])
            ++ [EvResolveSecurityGroups groups (region args)])%list
    /\ configuration s' = final_configuration (configuration s)
    /\ properties (definition s') name
       = Some (merge (final_configuration (configuration s))
                 (computed_properties
                    (subnet_map_of
                       (configured (configuration s) "Scheme" (VStr "internal")))
                    (py_str w (configured (configuration s)
                                 "HealthCheckProtocol" (VStr "HTTP"))
                       ++ ":"
                       ++ py_str w (configured (configuration s)
                                      "HealthCheckPort" port)
                       ++ py_str w (configured (configuration s)
                                      "HealthCheckPath" (VStr "/ui/")))
                    listeners
                    (get_load_balancer_name sn
                       (name_version w (configuration s) sv))
                    (resolve_security_groups w groups (region args))
                    sn sv)).
Proof.
  intros H.
  destruct (@component_inv _ _ _ _ _ _ _ _ H)
    as [[_ [e He]]|(lb & ds & Hn & Hd & [(e & _ & He)|(acc & s1 & Hf & Ha)])];
    try discriminate.
  pose proof (@for_domains_document _ _ _ _ _ _ _ _ Hf) as [Hc _].
  pose proof (@for_domains_result w _ _ _ _ _ _ _ Hf) as Hacc.
  destruct acc as [sub mz].
  destruct (@assemble_balancer_full w _ _ _ _ _ _ _ _ _ Hc Ha)
    as (name & listeners & s2 & port & groups & sn & sv
        & -> & Hl & Hp1 & Hp2 & Hp3 & Hp4 & Hp5 & Hp6 & Hp7 & Hp8 & Hp9).
  exists name, ds, s1, listeners, s2, port, groups, sn, sv.
  rewrite <- Hacc. cbn [fst snd].
  repeat split; assumption.
Qed.

(** The value of a computed property that the configuration does not
    override. *)
Lemma merge_keeps (cfg : dict value) (ps : dict value) (k : string) :
  Dict.wf cfg ->
  Dict.get k cfg = None -> k <> "Scheme" ->
  Dict.get k (merge (final_configuration cfg) ps) = Dict.get k ps.
Proof.
  intros Hwf Hk Hs.
  rewrite merge_get by now apply final_configuration_wf.
  destruct (in_SENZA_PROPERTIES k); [reflexivity|].
  assert (E : Dict.get k (final_configuration cfg) = None).
  { destruct (String.eqb_spec k "NameSuffix") as [->|Hn].
    - unfold final_configuration, dict_get_or_none. rewrite Hk. simpl.
      destruct (Dict.get "Scheme" cfg); [exact Hk|].
      rewrite Dict_get_set_neq by discriminate. exact Hk.
    - rewrite final_configuration_get by assumption. exact Hk. }
  now rewrite E.
Qed.

Lemma final_configuration_scheme (cfg : dict value) :
  Dict.get "Scheme" (final_configuration cfg)
  = Some (configured cfg "Scheme" (VStr "internal")).
Proof.
  unfold final_configuration, configured.
  set (cfg1 := if truthy (dict_get_or_none cfg "NameSuffix")
               then Dict.del "NameSuffix" cfg else cfg).
  assert (E : Dict.get "Scheme" cfg1 = Dict.get "Scheme" cfg).
  { unfold cfg1. destruct (truthy _); [|reflexivity].
    apply Dict_get_del_neq. discriminate. }
  destruct (Dict.get "Scheme" cfg1) as [v|] eqn:G.
  - rewrite G. now rewrite <- E.
  - rewrite Dict_get_set_eq. now rewrite <- E.
Qed.

Lemma in_allowed_schemes (v : value) :
  in_strs v allowed_loadbalancer_schemes = true ->
  v = VStr "internet-facing" \/ v = VStr "internal".
Proof.
  unfold in_strs, allowed_loadbalancer_schemes. simpl.
  destruct v as [| | |x| |]; simpl; try discriminate.
  intros H. apply orb_true_iff in H. destruct H as [H|H].
  - apply String.eqb_eq in H. subst. now left.
  - apply orb_true_iff in H. destruct H as [H|H]; [|discriminate].
    apply String.eqb_eq in H. subst. now right.
Qed.

(** The events of a successful run: the DNS and certificate calls, then
    the warning if any, then the resolution of the security groups. *)
Lemma component_full_trace (w : World) args info force account_info
      (s s' : state) :
  component_elastic_load_balancer w args info force account_info s
  = (Ok tt, s') ->
  exists before groups,
    Dict.get "SecurityGroups" (configuration s) = Some groups
    /\ forallb (fun e => dns_event e || certificate_event e) before = true
    /\ trace s'
       = (trace s ++ before
            ++ (if eq_str (configured (configuration s) "Scheme"
                             (VStr "internal")) "internet-facing"
                then [EvSecho internet_facing_warning] else [])
            ++ [EvResolveSecurityGroups groups (region args)])%list.
Proof.
  intros H.
  destruct (@component_full _ _ _ _ _ _ _ H)
    as (name & ds & s1 & ls & s2 & port & groups & sn & sv
        & _ & _ & Hf & Hl & _ & _ & _ & Hg & _ & _ & Ht & _ & _).
  destruct (@emits_for_domains w _ _ _ _ _ _ _ Hf) as (e1 & T1 & A1).
  destruct (@emits_choose_listeners w _ _ _ _ _ _ _ Hl) as (e2 & T2 & A2).
  exists (e1 ++ e2)%list, groups. split; [exact Hg|]. split.
  - rewrite forallb_app. apply andb_true_iff. split.
    + eapply forallb_weaken; [|exact A1]. intros e He. simpl. now rewrite He.
    + eapply forallb_weaken; [|exact A2]. intros e He. simpl. rewrite He.
      apply orb_true_r.
  - rewrite Ht, T2, T1. now rewrite <- !app_assoc.
Qed.

(** ** The balancer is the last thing written *)

Lemma keeps_bind {A B} (m : M A) (k : A -> M B) :
  keeps_definition m -> (forall a, keeps_definition (k a)) ->
  keeps_definition (bind m k).
Proof.
  intros Hm Hk s r s' H.
  destruct (bind_inv _ _ _ H) as [(a & s1 & H1 & H2)|(e & H1 & _)].
  - rewrite (Hk a _ _ _ H2). exact (Hm _ _ _ H1).
  - exact (Hm _ _ _ H1).
Qed.

Lemma keeps_of_frames {A} (m : M A) : frames m -> keeps_definition m.
Proof. intros Hm s r s' H. exact (proj1 (Hm _ _ _ H)). Qed.

Lemma keeps_put_configuration (c : dict value) :
  keeps_definition (put_configuration c).
Proof. intros s r s' H. inversion H; subst. reflexivity. Qed.

Lemma keeps_get_configuration : keeps_definition get_configuration.
Proof. intros s r s' H. inversion H; subst. reflexivity. Qed.

Ltac keeps_step :=
  match goal with
  | |- keeps_definition (bind _ _) => apply keeps_bind; [|intros]
  | |- keeps_definition (ret _) => apply keeps_of_frames, frames_ret
  | |- keeps_definition (raise _) => apply keeps_of_frames, frames_raise
  | |- keeps_definition (emit _) => apply keeps_of_frames, frames_emit
  | |- keeps_definition (dict_getitem _ _) =>
      apply keeps_of_frames, frames_dict_getitem
  | |- keeps_definition get_configuration => apply keeps_get_configuration
  | |- keeps_definition (put_configuration _) => apply keeps_put_configuration
  | |- keeps_definition (if ?b then _ else _) => destruct b
  | |- keeps_definition (match ?x with _ => _ end) => destruct x
  end.

Lemma hoare_keeps_bind {A B} (d0 : dict value) (m : M A) (k : A -> M B) :
  keeps_definition m ->
  (forall a, hoare (fun s => definition s = d0) (k a)
               (unwritten_on_failure d0)) ->
  hoare (fun s => definition s = d0) (bind m k) (unwritten_on_failure d0).
Proof.
  intros Hm Hk.
  apply hoare_bind with (Q := fun _ s => definition s = d0).
  - intros s r s' Hs H. rewrite (Hm _ _ _ H). exact Hs.
  - intros e s Hs. exact Hs.
  - exact Hk.
Qed.

Lemma set_resource_at_err (lb_name resource : value) (s s' : state)
      (e : error) :
  set_resource_at lb_name resource s = (Err e, s') ->
  definition s' = definition s.
Proof.
  unfold set_resource_at. intros H.
  apply bind_inv in H. destruct H as [(def & s1 & H1 & H)|(e' & H1 & _)];
    [|inversion H1].
  inversion H1; subst def s1. clear H1.
  apply bind_inv in H. destruct H as [(rs & s1 & H1 & H)|(e' & H1 & _)].
  - pose proof (dict_getitem_pure (definition s) "Resources" s) as Hp.
    rewrite H1 in Hp. simpl in Hp. subst s1.
    destruct rs; try (inversion H; reflexivity).
    destruct lb_name; try (inversion H; reflexivity).
    apply bind_inv in H. destruct H as [(u & s1 & H2 & H)|(e' & H2 & _)].
    + inversion H.
    + destruct (@set_resource_run _ _ _ _ _ H2)
        as (_ & _ & [(Habs & _)|(_ & ->)]); [discriminate | reflexivity].
  - pose proof (dict_getitem_pure (definition s) "Resources" s) as Hp.
    rewrite H1 in Hp. simpl in Hp. now subst.
Qed.

(** The merge keeps the type of the resource it writes into. *)
Lemma override_loop_type (type : string) (name : string)
      (entries : list (string * value)) (s : state) (r : result unit)
      (s' : state) (v : value) :
  override_loop name entries s = (r, s') ->
  resource (definition s) name = Some v -> has_type type v = true ->
  exists v', resource (definition s') name = Some v'
             /\ has_type type v' = true.
Proof.
  revert s v. induction entries as [|[key val] rest IH]; intros s v H Hv Ht.
  - inversion H; subst. now exists v.
  - simpl in H.
    apply bind_inv in H. destruct H as [(u & s1 & H1 & H)|(e & H1 & _)].
    + destruct (negb (in_SENZA_PROPERTIES key)).
      * destruct (@set_property_run _ _ _ _ _ _ H1)
          as (_ & _ & [(_ & rd & ps & Hr & _ & Hn & _)|(_ & ->)]).
        -- eapply IH; [exact H | exact Hn|].
           rewrite Hr in Hv. inversion Hv; subst v.
           unfold has_type in *.
           rewrite Dict_get_set_neq by discriminate. exact Ht.
        -- eapply IH; eauto.
      * inversion H1; subst. eapply IH; eauto.
    + destruct (negb (in_SENZA_PROPERTIES key)).
      * destruct (@set_property_run _ _ _ _ _ _ H1)
          as (_ & _ & [(Habs & _)|(_ & ->)]); [discriminate|].
        now exists v.
      * inversion H1.
Qed.

Section LastWrite.
Variable w : World.

Lemma keeps_choose_loadbalancer_name (info : dict string) :
  keeps_definition (choose_loadbalancer_name w info).
Proof. unfold choose_loadbalancer_name. repeat keeps_step. Qed.

Lemma keeps_choose_scheme : keeps_definition (choose_scheme w).
Proof. unfold choose_scheme. repeat keeps_step. Qed.

Lemma assemble_balancer_unwritten args info account_info cfg lb_name acc
      (d0 : dict value) :
  hoare (fun s => definition s = d0)
        (assemble_balancer w args info account_info cfg lb_name acc)
        (unwritten_on_failure d0).
Proof.
  unfold assemble_balancer. destruct acc as [sub mz].
  apply hoare_keeps_bind;
    [apply keeps_of_frames, frames_choose_listeners | intros listeners].
  apply hoare_keeps_bind;
    [apply keeps_of_frames, frames_choose_health_check_target | intros target].
  apply hoare_keeps_bind; [apply keeps_choose_loadbalancer_name | intros lbn].
  apply hoare_keeps_bind; [apply keeps_choose_scheme | intros scheme].
  apply hoare_keeps_bind; [keeps_step | intros cfg'].
  apply hoare_keeps_bind; [keeps_step | intros groups].
  apply hoare_keeps_bind; [keeps_step | intros u].
  apply hoare_keeps_bind; [keeps_step | intros sn].
  apply hoare_keeps_bind; [keeps_step | intros sv].
  match goal with
  | |- hoare _ (bind (set_resource_at _ (load_balancer ?ps)) _) _ =>
      apply hoare_bind
        with (Q := fun r s =>
                     match r with
                     | Ok name => properties (definition s) name = Some ps
                     | Err _ => definition s = d0
                     end)
  end.
  - intros s [name|e] s' Hs H.
    + apply set_resource_at_ok in H. destruct H as (_ & rs & Hd & _).
      rewrite Hd. apply properties_load_balancer.
    + apply set_resource_at_err in H. congruence.
  - intros e s Hs. exact Hs.
  - intros name s r s' Hp H.
    destruct (@override_loop_ok name cfg' _ _ Hp) as (s'' & Hrun & _).
    rewrite Hrun in H. inversion H; subst. exact I.
Qed.

End LastWrite.

Lemma assemble_balancer_written (w : World) args info account_info cfg lb_name
      acc (s1 s' : state) :
  assemble_balancer w args info account_info cfg lb_name acc s1 = (Ok tt, s') ->
  exists name v,
    lb_name = VStr name
    /\ resource (definition s') name = Some v
    /\ is_load_balancer v = true.
Proof.
  unfold assemble_balancer. destruct acc as [sub mz]. intros H.
  repeat (apply bind_ok in H; destruct H as (? & ? & ? & H)).
  match goal with
  | Hset : set_resource_at _ ?res _ = (Ok ?name, ?s7) |- _ =>
      apply set_resource_at_ok in Hset;
      destruct Hset as (-> & rs & Hd & _);
      assert (Hr : resource (definition s7) name = Some res)
        by (rewrite Hd, resource_set, String.eqb_refl; reflexivity);
      destruct (@override_loop_type "AWS::ElasticLoadBalancing::LoadBalancer"
                  _ _ _ _ _ _ H Hr eq_refl) as (v' & Hv' & Ht');
      exists name, v'; auto
  end.
Qed.

(** ** The order of the external calls *)

Lemma assemble_balancer_phases (w : World) args info account_info cfg lb_name
      acc (s1 : state) (r : result unit) (s' : state) :
  assemble_balancer w args info account_info cfg lb_name acc s1 = (r, s') ->
  exists certs others,
    trace s' = (trace s1 ++ certs ++ others)%list
    /\ forallb certificate_event certs = true
    /\ forallb other_event others = true.
Proof.
  unfold assemble_balancer. destruct acc as [sub mz]. intros H.
  apply bind_inv in H. destruct H as [(ls & s2 & Hl & H)|(e & Hl & _)].
  - destruct (@emits_choose_listeners w _ _ _ _ _ _ _ Hl) as (e1 & T1 & A1).
    match type of H with
    | ?m s2 = _ => assert (E : emits other_event m)
    end.
    { apply emits_bind; [apply emits_choose_health_check_target | intros target].
      apply emits_bind; [apply emits_choose_loadbalancer_name | intros lbn].
      apply emits_bind; [apply emits_choose_scheme | intros scheme].
      repeat first [ apply emits_set_resource_at | apply emits_override_loop
                   | emits_step ]. }
    destruct (E _ _ _ H) as (e2 & T2 & A2).
    exists e1, e2. split; [now rewrite T2, T1, <- app_assoc | auto].
  - destruct (@emits_choose_listeners w _ _ _ _ _ _ _ Hl) as (e1 & T1 & A1).
    exists e1, []. rewrite app_nil_r. auto.
Qed.

Lemma not_allowed_scheme_quiet (v : value) :
  in_strs v allowed_loadbalancer_schemes = false ->
  eq_str v "internet-facing" = false.
Proof.
  unfold in_strs, allowed_loadbalancer_schemes. simpl.
  intros H. apply orb_false_iff in H. tauto.
Qed.

(** With a scheme that is not supported, what follows the choice of the
    listeners calls nothing and fails. *)
Lemma assemble_balancer_bad_scheme (w : World) args info account_info cfg
      lb_name acc (s1 : state) (r : result unit) (s' : state) :
  configuration s1 = cfg ->
  in_strs (configured cfg "Scheme" (VStr "internal"))
    allowed_loadbalancer_schemes = false ->
  assemble_balancer w args info account_info cfg lb_name acc s1 = (r, s') ->
  exists certs,
    trace s' = (trace s1 ++ certs)%list
    /\ forallb certificate_event certs = true
    /\ r <> Ok tt.
Proof.
  intros Hcfg Hbad. unfold assemble_balancer. destruct acc as [sub mz].
  intros H.
  apply bind_inv in H. destruct H as [(ls & s2 & Hl & H)|(e & Hl & ->)].
  - destruct (@emits_choose_listeners w _ _ _ _ _ _ _ Hl) as (e1 & T1 & A1).
    destruct (@frames_choose_listeners w _ _ _ _ _ _ _ Hl) as [_ C2].
    exists e1. rewrite <- T1. split; [|split; [exact A1|]].
    + apply bind_inv in H. destruct H as [(tg & s3 & Ht & H)|(e & Ht & _)].
      * pose proof (@silent_run _ _ _ _ _
                      (emits_choose_health_check_target w (fun _ => false) cfg) Ht)
          as T3.
        destruct (@frames_choose_health_check_target w cfg _ _ _ Ht) as [_ C3].
        apply bind_inv in H. destruct H as [(lbn & s4 & Hn & H)|(e & Hn & _)].
        -- pose proof (@silent_run _ _ _ _ _
                        (emits_choose_loadbalancer_name w (fun _ => false) info) Hn)
             as T4.
           destruct (@choose_loadbalancer_name_ok w _ _ _ _ Hn) as [_ C4].
           assert (Esch : configured (configuration s4) "Scheme"
                            (VStr "internal")
                          = configured cfg "Scheme" (VStr "internal")).
           { unfold configured. rewrite C4, C3, C2, Hcfg.
             destruct (truthy (dict_get_or_none cfg "NameSuffix"));
               [|reflexivity].
             rewrite Dict_get_del_neq by discriminate. reflexivity. }
           apply bind_inv in H.
           pose proof (choose_scheme_run w s4) as Rs. cbv zeta in Rs.
           rewrite Esch, Hbad, (not_allowed_scheme_quiet _ Hbad) in Rs.
           destruct H as [(sch & s5 & Hs & H)|(e & Hs & _)];
             rewrite Rs in Hs; inversion Hs; subst.
           cbn [trace]. rewrite app_nil_r. congruence.
        -- pose proof (@silent_run _ _ _ _ _
                        (emits_choose_loadbalancer_name w (fun _ => false) info) Hn)
             as T4.
           congruence.
      * pose proof (@silent_run _ _ _ _ _
                      (emits_choose_health_check_target w (fun _ => false) cfg) Ht)
          as T3.
        exact T3.
    + intros ->.
      destruct (@assemble_balancer_full w args info account_info cfg lb_name
                  sub mz s1 s' Hcfg)
        as (? & ? & ? & ? & ? & ? & ? & _ & _ & _ & Hok & _).
      * unfold assemble_balancer. erewrite bind_run by exact Hl. exact H.
      * congruence.
  - destruct (@emits_choose_listeners w _ _ _ _ _ _ _ Hl) as (e1 & T1 & A1).
    exists e1. split; [exact T1|]. split; [exact A1 | discriminate].
Qed.

(** ** Domains whose name only has records of type A *)

Lemma convert_records_all_A (w : World) (records : list Route53Record) :
  (forall r, In r records -> r_type r = "A") ->
  convert_records w records = [].
Proof.
  unfold convert_records. intros HA.
  induction records as [|r rest IH]; simpl; [reflexivity|].
  rewrite (HA r) by now left. simpl. apply IH.
  intros r' Hr'. apply HA. now right.
Qed.

Section OnlyReads.
Variable w : World.
Hypothesis HA : only_A_records w.

Lemma domain_body_only_reads lb_name info key domain acc (s : state)
      (r : result (value * value)) (s' : state) :
  domain_body w lb_name info key domain acc s = (r, s') ->
  exists evs, trace s' = (trace s ++ evs)%list
              /\ forallb is_get_records evs = true.
Proof.
  unfold domain_body. intros H.
  assert (Quiet : forall s0 r0,
             (r0, s0) = (r, s') -> trace s0 = trace s ->
             exists evs, trace s' = (trace s ++ evs)%list
                         /\ forallb is_get_records evs = true).
  { intros s0 r0 E T. inversion E; subst. exists []. now rewrite app_nil_r. }
  apply bind_inv in H. destruct H as [(sub & s1 & H1 & H)|(e & H1 & ->)].
  2:{ exists []. rewrite app_nil_r.
      pose proof (getitem_pure domain "Subdomain" s) as P.
      rewrite H1 in P. simpl in P. now subst. }
  pose proof (getitem_pure domain "Subdomain" s) as P.
  rewrite H1 in P. simpl in P. subst s1. clear H1.
  apply bind_inv in H. destruct H as [(zone & s1 & H1 & H)|(e & H1 & ->)].
  2:{ exists []. rewrite app_nil_r.
      pose proof (getitem_pure domain "Zone" s) as P.
      rewrite H1 in P. simpl in P. now subst. }
  pose proof (getitem_pure domain "Zone" s) as P.
  rewrite H1 in P. simpl in P. subst s1. clear H1.
  apply bind_inv in H. destruct H as [(records & s1 & H1 & H)|(e & H1 & _)];
    [|inversion H1].
  inversion H1; subst records s1. clear H1.
  rewrite convert_records_all_A in H by (intros r0 Hr0; eapply HA; exact Hr0).
  match type of H with
  | ?m ?s1 = _ => assert (E : emits (fun _ => false) m)
  end.
  { repeat first [ apply emits_set_resource | apply emits_set_property
                 | emits_step ]. }
  pose proof (@silent_run _ _ _ _ _ E H) as T. cbn [trace] in T.
  eexists. split; [exact T | reflexivity].
Qed.

Lemma for_domains_only_reads lb_name info domains acc (s : state)
      (r : result (value * value)) (s' : state) :
  for_domains w lb_name info domains acc s = (r, s') ->
  exists evs, trace s' = (trace s ++ evs)%list
              /\ forallb is_get_records evs = true.
Proof.
  revert acc s. induction domains as [|[key domain] rest IH]; intros acc s H.
  - inversion H; subst. exists []. now rewrite app_nil_r.
  - simpl in H.
    apply bind_inv in H. destruct H as [(acc1 & s1 & H1 & H)|(e & H1 & _)].
    + destruct (@domain_body_only_reads _ _ _ _ _ _ _ _ H1) as (e1 & T1 & A1).
      destruct (IH _ _ H) as (e2 & T2 & A2).
      exists (e1 ++ e2)%list. split; [now rewrite T2, T1, app_assoc|].
      rewrite forallb_app. now rewrite A1, A2.
    + exact (@domain_body_only_reads _ _ _ _ _ _ _ _ H1).
Qed.

End OnlyReads.

(** ** The record sets the loop over the domains writes *)

Lemma append_inj_l (p a b : string) : p ++ a = p ++ b -> a = b.
Proof.
  induction p as [|c p IH]; simpl; intros H; [exact H|].
  inversion H. auto.
Qed.

Section DomainsWrites.
Variable w : World.

Lemma domain_body_writes lb_name info key domain acc (s : state)
      (acc' : value * value) (s' : state) :
  domain_body w lb_name info key domain acc s = (Ok acc', s') ->
  exists d v,
    domain = VDict d
    /\ record_set_of w lb_name info d = Some v
    /\ resource (definition s') (py_str w lb_name ++ key) = Some v
    /\ forall n, n <> py_str w lb_name ++ key ->
                 resource (definition s') n = resource (definition s) n.
Proof.
  unfold domain_body. intros H.
  set (name := py_str w lb_name ++ key) in *.
  apply bind_ok in H. destruct H as (sub & s1 & Hsub & H).
  apply getitem_ok in Hsub. destruct Hsub as (d & -> & Gsub & ->).
  apply bind_ok in H. destruct H as (zone & s1 & Hzone & H).
  apply getitem_ok in Hzone. destruct Hzone as (d' & Ed & Gzone & ->).
  inversion Ed; subst d'. clear Ed.
  apply bind_ok in H. destruct H as (records & s1 & Hrec & H).
  destruct (@frame_Route53_get_records w _ _ _ _ Hrec) as [D1 _].
  apply bind_ok in H. destruct H as (u & s2 & Hconv & H).
  assert (D2 : definition s2 = definition s1).
  { destruct (convert_records w records).
    - inversion Hconv; subst. reflexivity.
    - exact (proj1 (@frame_convert_loop w _ _ _ _ _ Hconv)). }
  apply bind_ok in H. destruct H as (zone' & s3 & Hzone' & H).
  apply getitem_ok in Hzone'. destruct Hzone' as (d' & Ed & Gzone' & ->).
  inversion Ed; subst d'. clear Ed.
  assert (zone' = zone) by congruence. subst zone'.
  apply bind_ok in H. destruct H as (u' & s4 & Hset & H).
  destruct (@set_resource_run _ _ _ _ _ Hset)
    as (_ & _ & [(_ & Hn4 & Ho4)|((e & Habs) & _)]); [|discriminate].
  apply bind_ok in H. destruct H as (type & s5 & Htype & H).
  apply getitem_ok in Htype. destruct Htype as (d' & Ed & Gtype & ->).
  inversion Ed; subst d'. clear Ed.
  assert (Hold : forall n, n <> name ->
                           resource (definition s4) n = resource (definition s) n).
  { intros n Hne. rewrite (Ho4 _ Hne). now rewrite D2, D1. }
  exists d. unfold record_set_of. rewrite Gsub, Gzone, Gtype.
  destruct (eq_str type "weighted").
  - apply bind_ok in H. destruct H as (u1 & s6 & Hw & H).
    destruct (@set_property_run _ _ _ _ _ _ Hw)
      as (_ & _ & [(_ & rd & ps & Hr & Hp & Hn6 & Ho6)|((e & Habs) & _)]);
      [|discriminate].
    rewrite Hn4 in Hr. unfold record_set in Hr. inversion Hr; subst rd.
    clear Hr. cbn in Hp. inversion Hp; subst ps. clear Hp.
    apply bind_ok in H. destruct H as (sn & s7 & Hsn & H).
    apply dict_getitem_ok in Hsn. destruct Hsn as [Gsn ->].
    apply bind_ok in H. destruct H as (sv & s7 & Hsv & H).
    apply dict_getitem_ok in Hsv. destruct Hsv as [Gsv ->].
    apply bind_ok in H. destruct H as (u2 & s8 & Hsi & H).
    destruct (@set_property_run _ _ _ _ _ _ Hsi)
      as (_ & _ & [(_ & rd & ps & Hr & Hp & Hn8 & Ho8)|((e & Habs) & _)]);
      [|discriminate].
    rewrite Hn6 in Hr. cbn in Hr. inversion Hr; subst rd. clear Hr.
    cbn in Hp. inversion Hp; subst ps. clear Hp.
    apply bind_ok in H. destruct H as (sub' & s9 & Hsub' & H).
    apply getitem_ok in Hsub'. destruct Hsub' as (d' & _ & _ & ->).
    apply bind_ok in H. destruct H as (zone'' & s9 & Hzone'' & H).
    apply getitem_ok in Hzone''. destruct Hzone'' as (d'' & _ & _ & ->).
    inversion H; subst. rewrite Gsn, Gsv.
    eexists. split; [reflexivity|]. split; [reflexivity|]. split.
    + rewrite Hn8. cbn. reflexivity.
    + intros n Hne. rewrite (Ho8 _ Hne), (Ho6 _ Hne). now apply Hold.
  - inversion H; subst.
    eexists. split; [reflexivity|]. split; [reflexivity|]. split.
    + exact Hn4.
    + exact Hold.
Qed.

Lemma for_domains_writes lb_name info domains acc (s : state)
      (acc' : value * value) (s' : state) :
  NoDup (map fst domains) ->
  for_domains w lb_name info domains acc s = (Ok acc', s') ->
  (forall key domain,
      In (key, domain) domains ->
      exists d v,
        domain = VDict d
        /\ record_set_of w lb_name info d = Some v
        /\ resource (definition s') (py_str w lb_name ++ key) = Some v)
  /\ (forall n,
         (forall key, In key (map fst domains) ->
                      n <> py_str w lb_name ++ key) ->
         resource (definition s') n = resource (definition s) n).
Proof.
  revert acc s. induction domains as [|[key domain] rest IH];
    intros acc s Hnd H.
  - inversion H; subst. split; [intros ? ? []|reflexivity].
  - simpl in H. apply bind_ok in H. destruct H as (acc1 & s1 & H1 & H).
    inversion Hnd as [|? ? Hnin Hnd']; subst.
    destruct (@domain_body_writes _ _ _ _ _ _ _ _ H1)
      as (d & v & -> & Hv & Hr & Ho).
    destruct (IH _ _ Hnd' H) as [IH1 IH2].
    split.
    + intros key' domain' [E|Hin].
      * inversion E; subst key' domain'. exists d, v.
        split; [reflexivity|]. split; [exact Hv|].
        rewrite IH2; [exact Hr|].
        intros k Hk E'. apply append_inj_l in E'. subst k. contradiction.
      * exact (IH1 _ _ Hin).
    + intros n Hn. rewrite IH2.
      * apply Ho. apply Hn. now left.
      * intros k Hk. apply Hn. now right.
Qed.

End DomainsWrites.

(** ** What the second phase leaves alone in the document *)

Lemma set_resource_at_others (lb_name resource_value : value) (s s' : state)
      (name : string) :
  set_resource_at lb_name resource_value s = (Ok name, s') ->
  forall n, n <> name ->
            resource (definition s') n = resource (definition s) n.
Proof.
  unfold set_resource_at. intros H.
  apply bind_ok in H. destruct H as (def & s1 & H1 & H).
  inversion H1; subst def s1. clear H1.
  apply bind_ok in H. destruct H as (rs & s1 & H1 & H).
  apply dict_getitem_ok in H1. destruct H1 as [_ ->].
  destruct rs; try discriminate.
  destruct lb_name; try discriminate.
  apply bind_ok in H. destruct H as (u & s1 & H2 & H).
  inversion H; subst.
  destruct (@set_resource_run _ _ _ _ _ H2)
    as (_ & _ & [(_ & _ & Ho)|((e & Habs) & _)]); [exact Ho | discriminate].
Qed.

Lemma override_loop_others (name : string) (entries : list (string * value))
      (s : state) (r : result unit) (s' : state) :
  override_loop name entries s = (r, s') ->
  forall n, n <> name ->
            resource (definition s') n = resource (definition s) n.
Proof.
  revert s. induction entries as [|[key val] rest IH]; intros s H n Hn.
  - inversion H; subst. reflexivity.
  - simpl in H.
    apply bind_inv in H. destruct H as [(u & s1 & H1 & H)|(e & H1 & _)].
    + rewrite (IH _ H n Hn).
      destruct (negb (in_SENZA_PROPERTIES key)).
      * destruct (@set_property_run _ _ _ _ _ _ H1)
          as (_ & _ & [(_ & rd & ps & _ & _ & _ & Ho)|(_ & ->)]);
          [now apply Ho | reflexivity].
      * inversion H1; subst. reflexivity.
    + destruct (negb (in_SENZA_PROPERTIES key)).
      * destruct (@set_property_run _ _ _ _ _ _ H1)
          as (_ & _ & [(Habs & _)|(_ & ->)]); [discriminate | reflexivity].
      * inversion H1.
Qed.

Lemma assemble_balancer_others (w : World) args info account_info cfg lb_name
      acc (s1 s' : state) :
  assemble_balancer w args info account_info cfg lb_name acc s1 = (Ok tt, s') ->
  exists name,
    lb_name = VStr name
    /\ forall n, n <> name ->
                 resource (definition s') n = resource (definition s1) n.
Proof.
  unfold assemble_balancer. destruct acc as [sub mz]. intros H.
  apply bind_ok in H. destruct H as (ls & s2 & Hl & H).
  pose proof (keeps_of_frames (@frames_choose_listeners w _ _ _ _) _ Hl) as D2.
  apply bind_ok in H. destruct H as (tg & s3 & Ht & H).
  pose proof (keeps_of_frames (@frames_choose_health_check_target w _) _ Ht)
    as D3.
  apply bind_ok in H. destruct H as (lbn & s4 & Hn & H).
  pose proof (@keeps_choose_loadbalancer_name w _ _ _ _ Hn) as D4.
  apply bind_ok in H. destruct H as (sch & s5 & Hs & H).
  pose proof (@keeps_choose_scheme w _ _ _ Hs) as D5.
  apply bind_ok in H. destruct H as (cfg' & s6 & Hc & H).
  inversion Hc; subst cfg' s6. clear Hc.
  apply bind_ok in H. destruct H as (groups & s6 & Hg & H).
  apply dict_getitem_ok in Hg. destruct Hg as [_ ->].
  apply bind_ok in H. destruct H as (u & s6 & He & H).
  assert (D6 : definition s6 = definition s5)
    by (unfold emit in He; inversion He; reflexivity).
  apply bind_ok in H. destruct H as (sn & s7 & Hsn & H).
  apply dict_getitem_ok in Hsn. destruct Hsn as [_ ->].
  apply bind_ok in H. destruct H as (sv & s7 & Hsv & H).
  apply dict_getitem_ok in Hsv. destruct Hsv as [_ ->].
  apply bind_ok in H. destruct H as (name & s7 & Hset & H).
  pose proof (set_resource_at_others _ _ _ Hset) as O7.
  apply set_resource_at_ok in Hset. destruct Hset as (-> & _).
  exists name. split; [reflexivity|].
  intros n Hne. rewrite (@override_loop_others _ _ _ _ _ H n Hne).
  rewrite (O7 _ Hne). congruence.
Qed.

Lemma append_nil_r (p : string) : p ++ EmptyString = p.
Proof. induction p as [|c p IH]; simpl; [reflexivity | now rewrite IH]. Qed.

Lemma append_eq_self (p k : string) : p ++ k = p -> k = EmptyString.
Proof.
  intros H. apply (append_inj_l p). now rewrite append_nil_r.
Qed.

(** ** Prefixes and slices *)

Lemma PyStr_prefix_substring0 (k : nat) (s : string) :
  String.prefix (substring 0 k s) s = true.
Proof.
  revert s; induction k as [|k IH]; intros [|c s]; simpl; try reflexivity.
  destruct (ascii_dec c c) as [_|N]; [apply IH | congruence].
Qed.

Lemma PyStr_substring0_all (k : nat) (s : string) :
  String.length s <= k -> substring 0 k s = s.
Proof.
  revert s; induction k as [|k IH]; intros [|c s]; simpl; intros H;
    try reflexivity; try lia.
  now rewrite IH by lia.
Qed.

Lemma PyStr_prefix_slice_to (l : Z) (s : string) :
  String.prefix (PyStr.slice_to l s) s = true.
Proof. unfold PyStr.slice_to. apply PyStr_prefix_substring0. Qed.

(** ** Reaching the check of the scheme *)

Lemma choose_loadbalancer_name_total (w : World) (info : dict string)
      (s : state) (sn sv : string) :
  Dict.get "StackName" info = Some sn ->
  Dict.get "StackVersion" info = Some sv ->
  exists lbn s',
    choose_loadbalancer_name w info s = (Ok lbn, s') /\ trace s' = trace s.
Proof.
  intros Hsn Hsv.
  unfold choose_loadbalancer_name, bind, get_configuration, put_configuration,
    dict_getitem, dict_get_or_none, ret.
  rewrite Hsn, Hsv.
  destruct (Dict.get "NameSuffix" (configuration s)) as [suffix|];
    [destruct (truthy suffix)|]; do 2 eexists; split; reflexivity.
Qed.

Lemma assemble_balancer_bad_scheme_reached (w : World) args info account_info
      cfg lb_name sub mz (s1 : state) (r : result unit) (s' : state)
      (listeners : value) (s2 : state) (port : value) (sn sv : string) :
  configuration s1 = cfg ->
  in_strs (configured cfg "Scheme" (VStr "internal"))
    allowed_loadbalancer_schemes = false ->
  choose_listeners w sub mz cfg account_info s1 = (Ok listeners, s2) ->
  in_strs (configured cfg "HealthCheckProtocol" (VStr "HTTP"))
    allowed_health_check_protocols = true ->
  Dict.get "HTTPPort" cfg = Some port ->
  Dict.get "StackName" info = Some sn ->
  Dict.get "StackVersion" info = Some sv ->
  assemble_balancer w args info account_info cfg lb_name (sub, mz) s1
  = (r, s') ->
  r = Err (unsupported_scheme w (configured cfg "Scheme" (VStr "internal")))
  /\ trace s' = trace s2
  /\ definition s' = definition s2
  /\ configuration s'
     = if truthy (dict_get_or_none cfg "NameSuffix")
       then Dict.del "NameSuffix" cfg else cfg.
Proof.
  intros Hcfg Hbad Hl Hproto Hport Hsn Hsv. unfold assemble_balancer.
  destruct (@frames_choose_listeners w _ _ _ _ _ _ _ Hl) as [_ C2].
  erewrite bind_run by exact Hl.
  erewrite bind_run
    by (rewrite choose_health_check_target_run; cbv zeta;
        rewrite Hproto, Hport; reflexivity).
  destruct (choose_loadbalancer_name_total w info s2 Hsn Hsv)
    as (lbn & s4 & Hn & T4).
  destruct (@choose_loadbalancer_name_ok w _ _ _ _ Hn) as [D4 C4].
  erewrite bind_run by exact Hn.
  assert (Esch : configured (configuration s4) "Scheme" (VStr "internal")
                 = configured cfg "Scheme" (VStr "internal")).
  { unfold configured. rewrite C4, C2, Hcfg.
    destruct (truthy (dict_get_or_none cfg "NameSuffix")); [|reflexivity].
    rewrite Dict_get_del_neq by discriminate. reflexivity. }
  pose proof (choose_scheme_run w s4) as Rs. cbv zeta in Rs.
  rewrite Esch, Hbad, (not_allowed_scheme_quiet _ Hbad) in Rs.
  erewrite bind_run_err by exact Rs.
  intros H. inversion H; subst r s'. cbn [trace definition configuration].
  rewrite app_nil_r.
  split; [reflexivity|]. split; [exact T4|]. split; [exact D4|].
  assert (Hget : Dict.get "Scheme" (configuration s4) <> None).
  { unfold configured in Esch, Hbad.
    destruct (Dict.get "Scheme" (configuration s4)); [discriminate|].
    rewrite <- Esch in Hbad. discriminate. }
  destruct (Dict.get "Scheme" (configuration s4)); [|congruence].
  rewrite C4, C2, Hcfg. reflexivity.
Qed.

(** ** Further properties of the component *)

(** Solves [Dict.wf d] for an explicit dictionary [d]. *)
Ltac wf_explicit :=
  unfold Dict.wf; simpl;
  repeat (constructor;
          [simpl; intros Hin;
           repeat (destruct Hin as [Hin|Hin]; [discriminate|]); exact Hin|]);
  constructor.

(** X6: after a successful run the health check of the balancer, unless
    the configuration overrides ['HealthCheck'], has the four fixed
    thresholds and the target [PROTOCOL:PORTPATH], where the protocol
    defaults to [HTTP] and is one of HTTP, TCP, UDP, SSL, the port defaults
    to ['HTTPPort'] and the path to [/ui/]. *)
Theorem X6_health_check (w : World) (args : TemplateArguments)
        (info : dict string) (force : value) (account_info : AccountArguments)
        (s s' : state) :
  Dict.wf (configuration s) ->
  Dict.get "HealthCheck" (configuration s) = None ->
  component_elastic_load_balancer w args info force account_info s
  = (Ok tt, s') ->
  exists name port,
    Dict.get "Name" (configuration s) = Some (VStr name)
    /\ Dict.get "HTTPPort" (configuration s) = Some port
    /\ In (configured (configuration s) "HealthCheckProtocol" (VStr "HTTP"))
          [VStr "HTTP"; VStr "TCP"; VStr "UDP"; VStr "SSL"]
    /\ property (definition s') name "HealthCheck"
       = Some (VDict
                 [("HealthyThreshold", VStr "2");
                  ("UnhealthyThreshold", VStr "2");
                  ("Interval", VStr "10");
                  ("Timeout", VStr "5");
                  ("Target",
                   VStr (py_str w (configured (configuration s)
                                     "HealthCheckProtocol" (VStr "HTTP"))
                           ++ ":"
                           ++ py_str w (configured (configuration s)
                                          "HealthCheckPort" port)
                           ++ py_str w (configured (configuration s)
                                          "HealthCheckPath" (VStr "/ui/"))))]).
Proof.
  intros Hwf Hk H.
  destruct (@component_full _ _ _ _ _ _ _ H)
    as (name & ds & s1 & ls & s2 & port & groups & sn & sv
        & Hn & _ & _ & _ & Hproto & _ & Hport & _ & _ & _ & _ & _ & Hp).
  exists name, port. split; [exact Hn|]. split; [exact Hport|]. split.
  - destruct (configured (configuration s) "HealthCheckProtocol" (VStr "HTTP"))
      as [| | |p| |]; try discriminate.
    unfold in_strs, allowed_health_check_protocols in Hproto. simpl in Hproto.
    repeat (apply orb_true_iff in Hproto; destruct Hproto as [Hproto|Hproto];
            [apply String.eqb_eq in Hproto; subst; simpl; tauto|]).
    discriminate.
  - unfold property. rewrite Hp.
    rewrite merge_keeps by (assumption || discriminate). reflexivity.
Qed.

Lemma X6_witness :
  property (definition (snd (Sample.run Sample.empty_world Sample2.public_config)))
    "AppLoadBalancer" "HealthCheck"
  = Some (VDict [("HealthyThreshold", VStr "2");
                 ("UnhealthyThreshold", VStr "2");
                 ("Interval", VStr "10");
                 ("Timeout", VStr "5");
                 ("Target", VStr "TCP:9000/health")]).
Proof.
  pose (out := Sample.run Sample.empty_world Sample2.public_config).
  assert (Hwf : Dict.wf (configuration (Sample.start Sample2.public_config)))
    by wf_explicit.
  assert (Hrun : component_elastic_load_balancer Sample.empty_world
                   Sample.args Sample.info VNone Sample.account
                   (Sample.start Sample2.public_config)
                 = (Ok tt, snd out))
    by (vm_compute; reflexivity).
  destruct (@X6_health_check _ _ _ _ _ _ _ Hwf eq_refl Hrun)
    as (name & port & Hn & Hport & _ & Hprop).
  inversion Hn; subst name. inversion Hport; subst port. exact Hprop.
Defined.

(** X8: after a successful run the scheme, ['internal'] unless configured,
    is ['internal'] or ['internet-facing'] and is among the balancer's
    properties; unless ['Subnets'] is overridden, the subnets refer to the
    mapping [LoadBalancerInternalSubnets] for the internal scheme and
    [LoadBalancerSubnets] for the internet-facing one; the warning is printed
    exactly for the internet-facing scheme, after every DNS and certificate
    call and right before the security groups are resolved. *)
Theorem X8_scheme_and_subnets (w : World) (args : TemplateArguments)
        (info : dict string) (force : value) (account_info : AccountArguments)
        (s s' : state) :
  Dict.wf (configuration s) ->
  component_elastic_load_balancer w args info force account_info s
  = (Ok tt, s') ->
  let scheme := configured (configuration s) "Scheme" (VStr "internal") in
  exists name before groups,
    Dict.get "Name" (configuration s) = Some (VStr name)
    /\ (scheme = VStr "internet-facing" \/ scheme = VStr "internal")
    /\ property (definition s') name "Scheme" = Some scheme
    /\ (Dict.get "Subnets" (configuration s) = None ->
        property (definition s') name "Subnets"
        = Some (VDict
                  [("Fn::FindInMap",
                    VList [VStr (if eq_str scheme "internal"
                                 then "LoadBalancerInternalSubnets"
                                 else "LoadBalancerSubnets");
                           VDict [("Ref", VStr "AWS::Region")];
                           VStr "Subnets"])]))
    /\ forallb (fun e => dns_event e || certificate_event e) before = true
    /\ trace s'
       = (trace s ++ before
            ++ (if eq_str scheme "internet-facing"
                then [EvSecho internet_facing_warning] else [])
            ++ [EvResolveSecurityGroups groups (region args)])%list.
Proof.
  intros Hwf H scheme.
  destruct (@component_full _ _ _ _ _ _ _ H)
    as (name & ds & s1 & ls & s2 & port & groups & sn & sv
        & Hn & _ & _ & _ & _ & Hscheme & _ & _ & _ & _ & _ & _ & Hp).
  destruct (@component_full_trace _ _ _ _ _ _ _ H)
    as (before & groups' & _ & Hb & Ht).
  exists name, before, groups'.
  split; [exact Hn|]. split; [now apply in_allowed_schemes|]. split; [|split].
  - unfold property. rewrite Hp.
    rewrite merge_get by now apply final_configuration_wf.
    change (in_SENZA_PROPERTIES "Scheme") with false. cbv iota.
    now rewrite final_configuration_scheme.
  - intros Hk. unfold property. rewrite Hp.
    rewrite merge_keeps by (assumption || discriminate). reflexivity.
  - split; [exact Hb | exact Ht].
Qed.

Lemma X8_witness :
  property (definition (snd (Sample.run Sample.empty_world Sample2.public_config)))
    "AppLoadBalancer" "Subnets"
  = Some (VDict [("Fn::FindInMap",
                  VList [VStr "LoadBalancerSubnets";
                         VDict [("Ref", VStr "AWS::Region")];
                         VStr "Subnets"])]).
Proof.
  pose (out := Sample.run Sample.empty_world Sample2.public_config).
  assert (Hwf : Dict.wf (configuration (Sample.start Sample2.public_config)))
    by wf_explicit.
  assert (Hrun : component_elastic_load_balancer Sample.empty_world
                   Sample.args Sample.info VNone Sample.account
                   (Sample.start Sample2.public_config)
                 = (Ok tt, snd out))
    by (vm_compute; reflexivity).
  destruct (@X8_scheme_and_subnets _ _ _ _ _ _ _ Hwf Hrun)
    as (name & before & groups & Hn & _ & _ & Hsub & _).
  inversion Hn; subst name. exact (Hsub eq_refl).
Defined.

(** X10: after a successful run the balancer is named, unless
    ['LoadBalancerName'] is overridden, by [get_load_balancer_name] from the
    stack name and the stack version, the version being followed by ["-"]
    and the ['NameSuffix'] when one is set, so the name ends with that
    version; the three tags, unless ['Tags'] is overridden, are
    [Name = stack-version] (without the suffix), [StackName] and
    [StackVersion]. *)
Theorem X10_name_and_tags (w : World) (args : TemplateArguments)
        (info : dict string) (force : value) (account_info : AccountArguments)
        (s s' : state) :
  Dict.wf (configuration s) ->
  component_elastic_load_balancer w args info force account_info s
  = (Ok tt, s') ->
  exists name sn sv,
    Dict.get "Name" (configuration s) = Some (VStr name)
    /\ Dict.get "StackName" info = Some sn
    /\ Dict.get "StackVersion" info = Some sv
    /\ PyStr.endswith
         (get_load_balancer_name sn (name_version w (configuration s) sv))
         ("-" ++ name_version w (configuration s) sv)
    /\ (Dict.get "LoadBalancerName" (configuration s) = None ->
        property (definition s') name "LoadBalancerName"
        = Some (VStr (get_load_balancer_name sn
                        (name_version w (configuration s) sv))))
    /\ (Dict.get "Tags" (configuration s) = None ->
        property (definition s') name "Tags"
        = Some (VList
                  [VDict [("Key", VStr "Name");
                          ("Value", VStr (sn ++ "-" ++ sv))];
                   VDict [("Key", VStr "StackName"); ("Value", VStr sn)];
                   VDict [("Key", VStr "StackVersion"); ("Value", VStr sv)]])).
Proof.
  intros Hwf H.
  destruct (@component_full _ _ _ _ _ _ _ H)
    as (name & ds & s1 & ls & s2 & port & groups & sn & sv
        & Hn & _ & _ & _ & _ & _ & _ & _ & Hsn & Hsv & _ & _ & Hp).
  exists name, sn, sv.
  split; [exact Hn|]. split; [exact Hsn|]. split; [exact Hsv|]. split.
  - unfold get_load_balancer_name. now eexists.
  - split; intros Hk; unfold property; rewrite Hp;
      rewrite merge_keeps by (assumption || discriminate); reflexivity.
Qed.

Lemma X10_witness :
  property (definition (snd (Sample.run Sample.empty_world Sample2.public_config)))
    "AppLoadBalancer" "LoadBalancerName"
  = Some (VStr "app-1-blue").
Proof.
  pose (out := Sample.run Sample.empty_world Sample2.public_config).
  assert (Hwf : Dict.wf (configuration (Sample.start Sample2.public_config)))
    by wf_explicit.
  assert (Hrun : component_elastic_load_balancer Sample.empty_world
                   Sample.args Sample.info VNone Sample.account
                   (Sample.start Sample2.public_config)
                 = (Ok tt, snd out))
    by (vm_compute; reflexivity).
  destruct (@X10_name_and_tags _ _ _ _ _ _ _ Hwf Hrun)
    as (name & sn & sv & Hn & Hsn & Hsv & _ & Hlb & _).
  inversion Hn; subst name. inversion Hsn; subst sn. inversion Hsv; subst sv.
  exact (Hlb eq_refl).
Defined.

(** X13: the balancer is the last thing the component writes.  A run
    that fails, for whatever reason, has only added record sets to the
    document: a load balancer found in it afterwards was there before,
    unchanged.  A run that succeeds leaves a resource of type
    [AWS::ElasticLoadBalancing::LoadBalancer] under the configured name. *)
Theorem X13_balancer_written_last (w : World) (args : TemplateArguments)
        (info : dict string) (force : value) (account_info : AccountArguments)
        (s : state) (r : result unit) (s' : state) :
  component_elastic_load_balancer w args info force account_info s = (r, s') ->
  match r with
  | Err _ =>
      only_record_sets s s'
      /\ forall n v, resource (definition s') n = Some v ->
                     is_load_balancer v = true ->
                     resource (definition s) n = Some v
  | Ok _ =>
      exists name v,
        Dict.get "Name" (configuration s) = Some (VStr name)
        /\ resource (definition s') name = Some v
        /\ is_load_balancer v = true
  end.
Proof.
  intros H.
  assert (Hbal : only_record_sets s s' ->
                 forall n v, resource (definition s') n = Some v ->
                             is_load_balancer v = true ->
                             resource (definition s) n = Some v).
  { intros Hd n v Hv Hlb. destruct (Hd n) as [E|(v' & Hv' & Hrs)].
    - now rewrite <- E.
    - rewrite Hv in Hv'. inversion Hv'; subst v'.
      apply is_record_set_not_balancer in Hrs. congruence. }
  destruct (@component_inv _ _ _ _ _ _ _ _ H)
    as [[-> [e ->]]|(lb & ds & Hn & _ & [(e & Hf & ->)|(acc & s1 & Hf & Ha)])].
  - split; [apply only_record_sets_refl|]. apply Hbal, only_record_sets_refl.
  - destruct (@for_domains_document _ _ _ _ _ _ _ _ Hf) as [_ Hd].
    split; [exact Hd | exact (Hbal Hd)].
  - destruct (@for_domains_document _ _ _ _ _ _ _ _ Hf) as [_ Hd].
    destruct r as [[]|e].
    + destruct (@assemble_balancer_written _ _ _ _ _ _ _ _ _ Ha)
        as (name & v & -> & Hv & Ht).
      now exists name, v.
    + pose proof (@assemble_balancer_unwritten w args info account_info
                    (configuration s) lb acc (definition s1)
                    s1 (Err e) s' eq_refl Ha) as Hu.
      simpl in Hu.
      assert (Hd' : only_record_sets s s')
        by (intros n; rewrite Hu; apply Hd).
      split; [exact Hd' | exact (Hbal Hd')].
Qed.

Lemma X13_witness :
  only_record_sets
    (Sample.start (Sample.config [Sample.one_domain; ("Listeners", VList [])]))
    (snd (Sample.run Sample.empty_world
            (Sample.config [Sample.one_domain; ("Listeners", VList [])]))).
Proof.
  pose (cfg := Sample.config [Sample.one_domain; ("Listeners", VList [])]).
  pose (out := Sample.run Sample.empty_world cfg).
  assert (Hrun : component_elastic_load_balancer Sample.empty_world
                   Sample.args Sample.info VNone Sample.account
                   (Sample.start cfg)
                 = (Err (FatalError (not_found_for "app.example.org")), snd out))
    by (vm_compute; reflexivity).
  exact (proj1 (@X13_balancer_written_last _ _ _ _ _ _ _ _ Hrun)).
Defined.

(** X15: in every run, successful or not, the calls to the outside come
    in three phases: first the DNS calls (reads, confirmations, deletes and
    upserts, for all the domains), then the calls to the certificate stores,
    then the warning and the resolution of the security groups.  No
    certificate store is consulted before the DNS records of the last domain
    are dealt with. *)
Theorem X15_three_phases (w : World) (args : TemplateArguments)
        (info : dict string) (force : value) (account_info : AccountArguments)
        (s : state) (r : result unit) (s' : state) :
  component_elastic_load_balancer w args info force account_info s = (r, s') ->
  exists dns certs others,
    trace s' = (trace s ++ dns ++ certs ++ others)%list
    /\ forallb dns_event dns = true
    /\ forallb certificate_event certs = true
    /\ forallb other_event others = true.
Proof.
  intros H.
  destruct (@component_inv _ _ _ _ _ _ _ _ H)
    as [[-> _]|(lb & ds & _ & _ & [(e & Hf & _)|(acc & s1 & Hf & Ha)])].
  - exists [], [], []. rewrite app_nil_r. auto.
  - destruct (@emits_for_domains w _ _ _ _ _ _ _ Hf) as (e1 & T1 & A1).
    exists e1, [], []. rewrite !app_nil_r. auto.
  - destruct (@emits_for_domains w _ _ _ _ _ _ _ Hf) as (e1 & T1 & A1).
    destruct (@assemble_balancer_phases _ _ _ _ _ _ _ _ _ _ Ha)
      as (e2 & e3 & T2 & A2 & A3).
    exists e1, e2, e3. split; [|auto].
    rewrite T2, T1. now rewrite <- !app_assoc.
Qed.

Lemma X15_witness :
  exists dns certs others,
    trace (snd (Sample.run Sample.two_zones_world
                  (Sample.config [Sample.two_weighted_domains])))
    = (dns ++ certs ++ others)%list
    /\ forallb dns_event dns = true
    /\ forallb certificate_event certs = true
    /\ forallb other_event others = true.
Proof.
  pose (cfg := Sample.config [Sample.two_weighted_domains]).
  pose (out := Sample.run Sample.two_zones_world cfg).
  assert (Hrun : component_elastic_load_balancer Sample.two_zones_world
                   Sample.args Sample.info VNone Sample.account
                   (Sample.start cfg)
                 = (fst out, snd out))
    by (vm_compute; reflexivity).
  exact (@X15_three_phases _ _ _ _ _ _ _ _ Hrun).
Defined.

(** X7: a health-check protocol that is not one of HTTP, TCP, UDP, SSL is
    a usage error whose message quotes the protocol.  It is raised right
    after the listeners are chosen, whether or not ['HTTPPort'] is
    configured: what follows the loop over the domains ends like the choice
    of the listeners when that fails, and otherwise with the usage error in
    the state the choice of the listeners has left; and the component never
    succeeds. *)
Theorem X7_unsupported_protocol (w : World) (args : TemplateArguments)
        (info : dict string) (force : value) (account_info : AccountArguments)
        (cfg : dict value) :
  in_strs (configured cfg "HealthCheckProtocol" (VStr "HTTP"))
    allowed_health_check_protocols = false ->
  (forall lb_name sub mz s1,
      assemble_balancer w args info account_info cfg lb_name (sub, mz) s1
      = match choose_listeners w sub mz cfg account_info s1 with
        | (Ok _, s2) =>
            (Err (UsageError
                    ("Protocol " ++ dquote
                       ++ py_str w (configured cfg "HealthCheckProtocol"
                                      (VStr "HTTP"))
                       ++ dquote ++ " is not supported for LoadBalancer")),
             s2)
        | (Err e, s2) => (Err e, s2)
        end)
  /\ (forall s s',
         configuration s = cfg ->
         component_elastic_load_balancer w args info force account_info s
         <> (Ok tt, s')).
Proof.
  intros Hbad. split.
  - intros lb_name sub mz s1. unfold assemble_balancer.
    destruct (choose_listeners w sub mz cfg account_info s1) as [[ls|e] s2]
      eqn:Hl.
    + erewrite bind_run by exact Hl.
      erewrite bind_run_err; [reflexivity|].
      rewrite choose_health_check_target_run. cbv zeta. rewrite Hbad.
      reflexivity.
    + erewrite bind_run_err by exact Hl. reflexivity.
  - intros s s' Hcfg H.
    destruct (@component_full _ _ _ _ _ _ _ H)
      as (? & ? & ? & ? & ? & ? & ? & ? & ? & _ & _ & _ & _ & Hok & _).
    rewrite Hcfg in Hok. congruence.
Qed.

Lemma X7_witness :
  fst (Sample.run Sample.empty_world
         (Sample.config [("HealthCheckProtocol", VStr "HTTPS")]))
  = Err (UsageError ("Protocol " ++ dquote ++ "HTTPS" ++ dquote
                       ++ " is not supported for LoadBalancer")).
Proof.
  pose (cfg := Sample.config [("HealthCheckProtocol", VStr "HTTPS")]).
  destruct (@X7_unsupported_protocol Sample.empty_world Sample.args
              Sample.info VNone Sample.account cfg eq_refl) as [Hrun _].
  unfold Sample.run, component_elastic_load_balancer.
  change (fst (assemble_balancer Sample.empty_world Sample.args Sample.info
                 Sample.account cfg (VStr "AppLoadBalancer")
                 (VStr EmptyString, VNone) (Sample.start cfg))
          = Err (UsageError ("Protocol " ++ dquote ++ "HTTPS" ++ dquote
                               ++ " is not supported for LoadBalancer"))).
  rewrite Hrun. reflexivity.
Defined.

(** X9: with a scheme that is neither ['internet-facing'] nor
    ['internal'] the component never succeeds, and after the DNS and
    certificate calls it makes no other call: the warning is not printed and
    the security groups are not resolved.  When everything before the check
    goes through (the loop over the domains, the listeners, the protocol and
    the port of the health check, the stack name and version) the run ends
    with the usage error that quotes the scheme, right where the choice of
    the listeners has left the calls and the document; the configuration is
    then as it was, except that a ['NameSuffix'] that was set is already
    gone. *)
Theorem X9_unsupported_scheme (w : World) (args : TemplateArguments)
        (info : dict string) (force : value) (account_info : AccountArguments)
        (s : state) (r : result unit) (s' : state) :
  in_strs (configured (configuration s) "Scheme" (VStr "internal"))
    allowed_loadbalancer_schemes = false ->
  component_elastic_load_balancer w args info force account_info s = (r, s') ->
  r <> Ok tt
  /\ (exists dns certs,
         trace s' = (trace s ++ dns ++ certs)%list
         /\ forallb dns_event dns = true
         /\ forallb certificate_event certs = true)
  /\ (forall lb_name domains acc s1 listeners s2 port sn sv,
         Dict.get "Name" (configuration s) = Some lb_name ->
         configured_domains (configuration s) = Some domains ->
         for_domains w lb_name info domains (VStr EmptyString, VNone) s
         = (Ok acc, s1) ->
         choose_listeners w (fst acc) (snd acc) (configuration s) account_info
           s1
         = (Ok listeners, s2) ->
         in_strs (configured (configuration s) "HealthCheckProtocol"
                    (VStr "HTTP"))
           allowed_health_check_protocols = true ->
         Dict.get "HTTPPort" (configuration s) = Some port ->
         Dict.get "StackName" info = Some sn ->
         Dict.get "StackVersion" info = Some sv ->
         r = Err (UsageError
                    ("Scheme " ++ dquote
                       ++ py_str w (configured (configuration s) "Scheme"
                                      (VStr "internal"))
                       ++ dquote ++ " is not supported for LoadBalancer"))
         /\ trace s' = trace s2
         /\ definition s' = definition s2
         /\ configuration s'
            = if truthy (dict_get_or_none (configuration s) "NameSuffix")
              then Dict.del "NameSuffix" (configuration s)
              else configuration s).
Proof.
  intros Hbad H. split; [|split].
  - intros ->.
    destruct (@component_full _ _ _ _ _ _ _ H)
      as (? & ? & ? & ? & ? & ? & ? & ? & ? & _ & _ & _ & _ & _ & Hok & _).
    congruence.
  - destruct (@component_inv _ _ _ _ _ _ _ _ H)
      as [[-> _]|(lb & ds & _ & _ & [(e & Hf & _)|(acc & s1 & Hf & Ha)])].
    + exists [], []. rewrite app_nil_r. auto.
    + destruct (@emits_for_domains w _ _ _ _ _ _ _ Hf) as (e1 & T1 & A1).
      exists e1, []. rewrite app_nil_r. auto.
    + destruct (@emits_for_domains w _ _ _ _ _ _ _ Hf) as (e1 & T1 & A1).
      destruct (@for_domains_document _ _ _ _ _ _ _ _ Hf) as [Hc _].
      destruct (@assemble_balancer_bad_scheme _ _ _ _ _ _ _ _ _ _ Hc Hbad Ha)
        as (e2 & T2 & A2 & _).
      exists e1, e2. split; [|auto]. rewrite T2, T1. now rewrite <- app_assoc.
  - intros lb_name domains acc s1 listeners s2 port sn sv
           Hn Hd Hloop Hl Hproto Hport Hsn Hsv.
    rewrite (@component_run w _ _ _ _ _ _ _ Hn Hd) in H.
    erewrite bind_run in H by exact Hloop.
    destruct (@for_domains_document _ _ _ _ _ _ _ _ Hloop) as [Hc _].
    destruct acc as [sub mz]. cbn [fst snd] in Hl.
    exact (@assemble_balancer_bad_scheme_reached _ _ _ _ _ _ _ _ _ _ _ _ _ _
             _ _ Hc Hbad Hl Hproto Hport Hsn Hsv H).
Qed.

Lemma X9_witness :
  fst (Sample.run Sample.empty_world
         (Sample.config [("Scheme", VStr "public");
                         ("NameSuffix", VStr "blue");
                         ("Listeners", Sample.http_listener)]))
  = Err (UsageError ("Scheme " ++ dquote ++ "public" ++ dquote
                       ++ " is not supported for LoadBalancer"))
  /\ Dict.get "NameSuffix"
       (configuration
          (snd (Sample.run Sample.empty_world
                  (Sample.config [("Scheme", VStr "public");
                                  ("NameSuffix", VStr "blue");
                                  ("Listeners", Sample.http_listener)]))))
     = None.
Proof.
  pose (cfg := Sample.config [("Scheme", VStr "public");
                              ("NameSuffix", VStr "blue");
                              ("Listeners", Sample.http_listener)]).
  pose (out := Sample.run Sample.empty_world cfg).
  assert (Hrun : component_elastic_load_balancer Sample.empty_world
                   Sample.args Sample.info VNone Sample.account
                   (Sample.start cfg)
                 = (fst out, snd out))
    by (vm_compute; reflexivity).
  assert (Hbad : in_strs (configured (configuration (Sample.start cfg))
                            "Scheme" (VStr "internal"))
                   allowed_loadbalancer_schemes = false)
    by reflexivity.
  assert (Hn : Dict.get "Name" (configuration (Sample.start cfg))
               = Some (VStr "AppLoadBalancer")) by reflexivity.
  assert (Hd : configured_domains (configuration (Sample.start cfg))
               = Some []) by reflexivity.
  assert (Hloop : for_domains Sample.empty_world (VStr "AppLoadBalancer")
                    Sample.info [] (VStr EmptyString, VNone)
                    (Sample.start cfg)
                  = (Ok (VStr EmptyString, VNone), Sample.start cfg))
    by reflexivity.
  assert (Hl : choose_listeners Sample.empty_world (VStr EmptyString) VNone
                 (configuration (Sample.start cfg)) Sample.account
                 (Sample.start cfg)
               = (Ok Sample.http_listener, Sample.start cfg))
    by reflexivity.
  destruct (@X9_unsupported_scheme _ _ _ _ _ _ _ _ Hbad Hrun)
    as (_ & _ & Hreached).
  destruct (Hreached _ _ _ _ _ _ (VInt 8080) "app" "1" Hn Hd Hloop Hl
              eq_refl eq_refl eq_refl eq_refl)
    as (Hr & _ & _ & Hc).
  split; [exact Hr|].
  exact (eq_trans (f_equal (Dict.get "NameSuffix") Hc) eq_refl).
Defined.

(** X14: the component changes the caller's configuration in place.  After
    a successful run it has a ['Scheme'], the configured one or
    ['internal']; a ['NameSuffix'] that was set is gone, one that was not
    (absent, empty) is as it was; every other key has the value it had. *)
Theorem X14_configuration_after (w : World) (args : TemplateArguments)
        (info : dict string) (force : value) (account_info : AccountArguments)
        (s s' : state) :
  Dict.wf (configuration s) ->
  component_elastic_load_balancer w args info force account_info s
  = (Ok tt, s') ->
  Dict.wf (configuration s')
  /\ Dict.get "Scheme" (configuration s')
     = Some (configured (configuration s) "Scheme" (VStr "internal"))
  /\ Dict.get "NameSuffix" (configuration s')
     = (if truthy (dict_get_or_none (configuration s) "NameSuffix")
        then None else Dict.get "NameSuffix" (configuration s))
  /\ forall k, k <> "Scheme" -> k <> "NameSuffix" ->
               Dict.get k (configuration s') = Dict.get k (configuration s).
Proof.
  intros Hwf H.
  destruct (@component_ok _ _ _ _ _ _ _ H)
    as (? & ? & ? & ? & ? & ? & ? & ? & ? & ? & ?
        & _ & _ & _ & _ & _ & Hc & _).
  rewrite Hc. split; [now apply final_configuration_wf|].
  split; [apply final_configuration_scheme|]. split.
  - destruct (truthy (dict_get_or_none (configuration s) "NameSuffix")) eqn:T.
    + unfold dict_get_or_none in T.
      destruct (Dict.get "NameSuffix" (configuration s)) as [v|] eqn:G;
        [|discriminate].
      exact (final_configuration_drops Hwf G T).
    + destruct (Dict.get "NameSuffix" (configuration s)) as [v|] eqn:G.
      * apply final_configuration_keeps; [exact G|].
        intros _. unfold dict_get_or_none in T. now rewrite G in T.
      * unfold final_configuration. rewrite T.
        destruct (Dict.get "Scheme" (configuration s)); [exact G|].
        rewrite Dict_get_set_neq by discriminate. exact G.
  - intros k H1 H2. now apply final_configuration_get.
Qed.

Lemma X14_witness :
  Dict.get "Scheme"
    (configuration (snd (Sample.run Sample.empty_world (Sample.config []))))
  = Some (VStr "internal").
Proof.
  pose (cfg := Sample.config []).
  pose (out := Sample.run Sample.empty_world cfg).
  assert (Hwf : Dict.wf (configuration (Sample.start cfg))) by wf_explicit.
  assert (Hrun : component_elastic_load_balancer Sample.empty_world
                   Sample.args Sample.info VNone Sample.account
                   (Sample.start cfg)
                 = (Ok tt, snd out))
    by (vm_compute; reflexivity).
  exact (proj1 (proj2 (@X14_configuration_after _ _ _ _ _ _ _ Hwf Hrun))).
Defined.

(** X12: when the DNS store has, under the names asked for, only records
    of type ["A"] (or none), the component only reads it: in every run the
    DNS phase consists of [get_records] calls alone, so the operator is never
    asked anything and nothing is deleted or upserted. *)
Theorem X12_only_A_records (w : World) (args : TemplateArguments)
        (info : dict string) (force : value) (account_info : AccountArguments)
        (s : state) (r : result unit) (s' : state) :
  only_A_records w ->
  component_elastic_load_balancer w args info force account_info s = (r, s') ->
  exists reads certs others,
    trace s' = (trace s ++ reads ++ certs ++ others)%list
    /\ forallb is_get_records reads = true
    /\ forallb certificate_event certs = true
    /\ forallb other_event others = true.
Proof.
  intros HA H.
  destruct (@component_inv _ _ _ _ _ _ _ _ H)
    as [[-> _]|(lb & ds & _ & _ & [(e & Hf & _)|(acc & s1 & Hf & Ha)])].
  - exists [], [], []. rewrite app_nil_r. auto.
  - destruct (@for_domains_only_reads w HA _ _ _ _ _ _ _ Hf) as (e1 & T1 & A1).
    exists e1, [], []. rewrite !app_nil_r. auto.
  - destruct (@for_domains_only_reads w HA _ _ _ _ _ _ _ Hf) as (e1 & T1 & A1).
    destruct (@assemble_balancer_phases _ _ _ _ _ _ _ _ _ _ Ha)
      as (e2 & e3 & T2 & A2 & A3).
    exists e1, e2, e3. split; [|auto].
    rewrite T2, T1. now rewrite <- !app_assoc.
Qed.

Lemma X12_witness :
  route53_get_records Sample3.a_record_world [] "app.example.org."
  = [Sample.record "app.example.org." "A"]
  /\ exists reads certs others,
      trace (snd (Sample.run Sample3.a_record_world
                    (Sample.config [Sample.one_domain])))
      = (reads ++ certs ++ others)%list
      /\ forallb is_get_records reads = true
      /\ forallb certificate_event certs = true
      /\ forallb other_event others = true.
Proof.
  split; [reflexivity|].
  pose (cfg := Sample.config [Sample.one_domain]).
  pose (out := Sample.run Sample3.a_record_world cfg).
  assert (HA : only_A_records Sample3.a_record_world).
  { intros t name r Hin. simpl in Hin. destruct Hin as [<-|[]]. reflexivity. }
  assert (Hrun : component_elastic_load_balancer Sample3.a_record_world
                   Sample.args Sample.info VNone Sample.account
                   (Sample.start cfg)
                 = (fst out, snd out))
    by (vm_compute; reflexivity).
  exact (@X12_only_A_records _ _ _ _ _ _ _ _ HA Hrun).
Defined.

(** X11: after a successful run every configured domain whose key is not
    empty has its record set in the document, under the balancer name
    followed by the key: an alias record of type A for [subdomain.zone]
    pointing at the balancer, with weight 0 and the set identifier
    [stack-version] when the binding is weighted.  Apart from the balancer
    and these record sets the document is as it was. *)
Theorem X11_record_sets (w : World) (args : TemplateArguments)
        (info : dict string) (force : value) (account_info : AccountArguments)
        (s s' : state) (domains : list (string * value)) :
  configured_domains (configuration s) = Some domains ->
  NoDup (map fst domains) ->
  component_elastic_load_balancer w args info force account_info s
  = (Ok tt, s') ->
  exists name,
    Dict.get "Name" (configuration s) = Some (VStr name)
    /\ (forall key domain,
           In (key, domain) domains -> key <> EmptyString ->
           exists d v,
             domain = VDict d
             /\ record_set_of w (VStr name) info d = Some v
             /\ resource (definition s') (name ++ key) = Some v)
    /\ (forall n,
           n <> name ->
           (forall key, In key (map fst domains) -> n <> name ++ key) ->
           resource (definition s') n = resource (definition s) n).
Proof.
  intros Hd Hnd H.
  destruct (@component_inv _ _ _ _ _ _ _ _ H)
    as [[_ [e He]]|(lb & ds & Hn & Hd' & [(e & _ & He)|(acc & s1 & Hf & Ha)])];
    try discriminate.
  assert (ds = domains) by congruence. subst ds.
  destruct (@assemble_balancer_others _ _ _ _ _ _ _ _ _ Ha) as (name & -> & Ho).
  destruct (@for_domains_writes w _ _ _ _ _ _ _ Hnd Hf) as [W1 W2].
  simpl py_str in W1, W2.
  exists name. split; [exact Hn|]. split.
  - intros key domain Hin Hkey.
    destruct (W1 _ _ Hin) as (d & v & -> & Hv & Hr).
    exists d, v. split; [reflexivity|]. split; [exact Hv|].
    rewrite Ho; [exact Hr|].
    intros E. apply append_eq_self in E. contradiction.
  - intros n Hne Hkeys. rewrite (Ho _ Hne). now apply W2.
Qed.

Lemma X11_witness :
  resource
    (definition (snd (Sample.run Sample.two_zones_world
                        (Sample.config [Sample.two_weighted_domains]))))
    "AppLoadBalancerSecond"
  = Some (VDict
            [("Type", VStr "AWS::Route53::RecordSet");
             ("Properties",
              VDict [("Type", VStr "A");
                     ("Name", VStr "b.second.org");
                     ("HostedZoneName", VStr "second.org");
                     ("AliasTarget",
                      VDict [("HostedZoneId",
                              get_att (VStr "AppLoadBalancer")
                                "CanonicalHostedZoneNameID");
                             ("DNSName",
                              get_att (VStr "AppLoadBalancer") "DNSName")]);
                     ("Weight", VInt 0);
                     ("SetIdentifier", VStr "app-1")])]).
Proof.
  pose (cfg := Sample.config [Sample.two_weighted_domains]).
  pose (out := Sample.run Sample.two_zones_world cfg).
  assert (Hrun : component_elastic_load_balancer Sample.two_zones_world
                   Sample.args Sample.info VNone Sample.account
                   (Sample.start cfg)
                 = (Ok tt, snd out))
    by (vm_compute; reflexivity).
  assert (Hnd : NoDup (map fst [("First", Sample.binding "weighted" "a" "first.org");
                                ("Second", Sample.binding "weighted" "b" "second.org")]))
    by wf_explicit.
  assert (Hd0 : configured_domains (configuration (Sample.start cfg))
                = Some [("First", Sample.binding "weighted" "a" "first.org");
                        ("Second", Sample.binding "weighted" "b" "second.org")])
    by reflexivity.
  destruct (@X11_record_sets _ _ _ _ _ _ _ _ Hd0 Hnd Hrun)
    as (name & Hn & Hrec & _).
  inversion Hn; subst name.
  destruct (Hrec "Second" (Sample.binding "weighted" "b" "second.org"))
    as (d & v & Hd & Hv & Hr).
  - right. left. reflexivity.
  - discriminate.
  - inversion Hd; subst d. vm_compute in Hv. inversion Hv; subst v. exact Hr.
Defined.

(** ** Explicit certificates *)

(** X1: an explicit ['SSLCertificateId'] with the shape of an ACM ARN is
    looked up in ACM, once, and nothing else is called; when the lookup
    fails the store's message is the fatal error, even if ['HTTPPort'] is
    missing; when it succeeds the identifier is used as it was given,
    whatever the subdomain and the zone are. *)
Theorem X1_explicit_acm_arn (w : World) (subdomain main_zone : value)
        (cfg : dict value) (account_info : AccountArguments) (s : state)
        (ssl_cert : value) :
  Dict.get "SSLCertificateId" cfg = Some ssl_cert ->
  arn_is_acm_certificate w ssl_cert = true ->
  get_listeners w subdomain main_zone cfg account_info s
  = (match acm_get_by_arn w (Region account_info) ssl_cert with
     | inl message => Err (FatalError message)
     | inr _ =>
         match Dict.get "HTTPPort" cfg with
         | Some port => Ok (VList [listener ssl_cert port])
         | None => Err (KeyError "HTTPPort")
         end
     end,
     {| trace := (trace s ++ [EvAcmGetByArn (Region account_info) ssl_cert])%list;
        definition := definition s;
        configuration := configuration s |}).
Proof.
  intros Hc Hshape.
  unfold get_listeners, resolve_certificate, dict_get_or_none.
  rewrite Hc, Hshape. unfold ACMCertificate_get_by_arn. cbn.
  destruct (acm_get_by_arn w (Region account_info) ssl_cert); cbn;
    [reflexivity|].
  unfold dict_getitem. destruct (Dict.get "HTTPPort" cfg); reflexivity.
Qed.

Lemma X1_witness :
  fst (get_listeners Sample2.shaped_world (VStr "app") (VStr "example.org")
         [("SSLCertificateId", VStr "arn:aws:acm:unknown")] Sample.account
         (Sample.start []))
  = Err (FatalError "certificate not found").
Proof.
  rewrite (@X1_explicit_acm_arn Sample2.shaped_world (VStr "app")
             (VStr "example.org")
             [("SSLCertificateId", VStr "arn:aws:acm:unknown")] Sample.account
             (Sample.start []) (VStr "arn:aws:acm:unknown") eq_refl eq_refl).
  reflexivity.
Defined.

(** X2: an explicit ['SSLCertificateId'] with the shape of an IAM
    server-certificate ARN (and not of an ACM ARN) is trusted: no store is
    called at all, and the listener carries the identifier as given, whether
    or not such a certificate exists. *)
Theorem X2_explicit_iam_arn_trusted (w : World) (subdomain main_zone : value)
        (cfg : dict value) (account_info : AccountArguments) (s : state)
        (ssl_cert : value) :
  Dict.get "SSLCertificateId" cfg = Some ssl_cert ->
  arn_is_acm_certificate w ssl_cert = false ->
  arn_is_server_certificate w ssl_cert = true ->
  get_listeners w subdomain main_zone cfg account_info s
  = (match Dict.get "HTTPPort" cfg with
     | Some port => Ok (VList [listener ssl_cert port])
     | None => Err (KeyError "HTTPPort")
     end, s).
Proof.
  intros Hc Hacm Hiam.
  unfold get_listeners, resolve_certificate, dict_get_or_none.
  rewrite Hc, Hacm, Hiam. cbn.
  unfold dict_getitem. destruct (Dict.get "HTTPPort" cfg); reflexivity.
Qed.

Lemma X2_witness :
  get_listeners Sample2.shaped_world (VStr "app") (VStr "example.org")
    [("SSLCertificateId", VStr "arn:aws:iam::server-certificate/gone");
     ("HTTPPort", VInt 8080)]
    Sample.account (Sample.start [])
  = (Ok (VList [listener (VStr "arn:aws:iam::server-certificate/gone")
                  (VInt 8080)]),
     Sample.start []).
Proof.
  exact (@X2_explicit_iam_arn_trusted Sample2.shaped_world (VStr "app")
           (VStr "example.org")
           [("SSLCertificateId", VStr "arn:aws:iam::server-certificate/gone");
            ("HTTPPort", VInt 8080)]
           Sample.account (Sample.start [])
           (VStr "arn:aws:iam::server-certificate/gone")
           eq_refl eq_refl eq_refl).
Defined.

(** X3: an explicit ['SSLCertificateId'] that has neither shape is taken
    as the name of an IAM server certificate: it is looked up by name, once,
    and the listener carries the ARN of the certificate found; when the
    lookup raises, so does [get_listeners].  The subdomain and the zone play
    no part and no certificate is searched by domain. *)
Theorem X3_explicit_name (w : World) (subdomain main_zone : value)
        (cfg : dict value) (account_info : AccountArguments) (s : state)
        (ssl_cert : value) :
  Dict.get "SSLCertificateId" cfg = Some ssl_cert ->
  ssl_cert <> VNone ->
  arn_is_acm_certificate w ssl_cert = false ->
  arn_is_server_certificate w ssl_cert = false ->
  get_listeners w subdomain main_zone cfg account_info s
  = (match iam_get_by_name w ssl_cert with
     | None => Err ClientError
     | Some certificate =>
         match Dict.get "HTTPPort" cfg with
         | Some port => Ok (VList [listener (VStr (iam_arn certificate)) port])
         | None => Err (KeyError "HTTPPort")
         end
     end,
     {| trace := (trace s ++ [EvIamGetByName ssl_cert])%list;
        definition := definition s;
        configuration := configuration s |}).
Proof.
  intros Hc Hn Hacm Hiam.
  unfold get_listeners, resolve_certificate, dict_get_or_none.
  rewrite Hc, Hacm, Hiam.
  unfold IAMServerCertificate_get_by_name.
  destruct ssl_cert; try contradiction; cbn;
    (destruct (iam_get_by_name w _); cbn; [|reflexivity];
     unfold dict_getitem; destruct (Dict.get "HTTPPort" cfg); reflexivity).
Qed.

Lemma X3_witness :
  fst (get_listeners Sample2.shaped_world (VStr "app") (VStr "example.org")
         [("SSLCertificateId", VStr "legacy"); ("HTTPPort", VInt 8080)]
         Sample.account (Sample.start []))
  = Ok (VList [listener (VStr "arn:aws:iam::server-certificate/legacy")
                 (VInt 8080)]).
Proof.
  rewrite (@X3_explicit_name Sample2.shaped_world (VStr "app")
             (VStr "example.org")
             [("SSLCertificateId", VStr "legacy"); ("HTTPPort", VInt 8080)]
             Sample.account (Sample.start []) (VStr "legacy") eq_refl).
  - reflexivity.
  - discriminate.
  - reflexivity.
  - reflexivity.
Defined.

(** ** The search by domain *)

(** X5: the searches made for a zone and what they yield.  ACM is asked
    only when the zone is not empty, and then for the composed name; IAM is
    always asked for the pattern of the zone; the whole IAM listing is asked
    for only when the pattern matched nothing.  The candidates are the
    certificates the stores returned, none lost and none invented: the ACM
    candidates are a rearrangement of the ACM answer, the IAM candidates a
    rearrangement of the pattern matches when there are any and of the
    whole listing otherwise.  Nothing is written. *)
Theorem X5_searches_and_candidates (w : World) (subdomain : value)
        (zone : string) (account_info : AccountArguments) (s : state) :
  let name := composed_name w subdomain zone in
  let asked_acm := acm_get_certificates w (Region account_info) name in
  let matching := iam_get_certificates w (Some (iam_pattern_of zone)) in
  exists acm iam s1,
    domain_candidates w subdomain (VStr zone) account_info s
    = (Ok (if String.eqb zone EmptyString then EmptyString else name,
           acm, iam), s1)
    /\ Permutation acm
         (if String.eqb zone EmptyString then [] else asked_acm)
    /\ Permutation iam
         (match matching with
          | [] => iam_get_certificates w None
          | _ => matching
          end)
    /\ trace s1
       = (trace s
          ++ (if String.eqb zone EmptyString then []
              else [EvAcmGetCertificates (Region account_info) name])
          ++ [EvIamGetCertificates (Some (iam_pattern_of zone))]
          ++ (match matching with
              | [] => [EvIamGetCertificates None]
              | _ => []
              end))%list
    /\ definition s1 = definition s
    /\ configuration s1 = configuration s.
Proof.
  intros name asked_acm matching.
  unfold domain_candidates, ACM_get_certificates, IAM_get_certificates.
  destruct (String.eqb zone EmptyString) eqn:E.
  - apply String.eqb_eq in E. subst zone.
    change (iam_pattern_of EmptyString) with EmptyString in matching.
    subst matching. clear name asked_acm.
    remember (iam_get_certificates w (Some EmptyString)) as matching.
    pose proof (sorted_perm iam_order false matching) as Pm.
    pose proof (sorted_nil iam_order false matching) as Nm.
    cbn. rewrite <- Heqmatching.
    destruct (sorted iam_order false matching) as [|c r] eqn:S.
    + assert (Hm : matching = []) by (apply Nm; reflexivity).
      rewrite Hm. cbn.
      do 3 eexists. split; [reflexivity|].
      split; [constructor|]. split; [apply sorted_perm|].
      cbn. rewrite <- app_assoc. repeat split.
    + assert (Hm : matching <> [])
        by (intros Hm; apply Nm in Hm; congruence).
      cbn. do 3 eexists. split; [reflexivity|].
      split; [constructor|].
      split; [destruct matching; [congruence | exact Pm]|].
      cbn. destruct matching; [congruence|]. repeat split.
  - subst matching asked_acm name.
    remember (iam_get_certificates w (Some (iam_pattern_of zone))) as matching.
    remember (composed_name w subdomain zone) as name.
    pose proof (sorted_perm iam_order false matching) as Pm.
    pose proof (sorted_nil iam_order false matching) as Nm.
    cbn. rewrite E. cbn. rewrite <- ?Heqmatching.
    destruct (sorted iam_order false matching) as [|c r] eqn:S.
    + assert (Hm : matching = []) by (apply Nm; reflexivity).
      rewrite Hm. cbn.
      do 3 eexists. split; [reflexivity|].
      split; [apply sorted_perm|]. split; [apply sorted_perm|].
      cbn. rewrite <- !app_assoc. repeat split.
    + assert (Hm : matching <> [])
        by (intros Hm; apply Nm in Hm; congruence).
      cbn. do 3 eexists. split; [reflexivity|].
      split; [apply sorted_perm|].
      split; [destruct matching; [congruence | exact Pm]|].
      cbn. destruct matching; [congruence|].
      rewrite <- !app_assoc. repeat split.
Qed.

(** ** Malformed configurations *)

(** X16: a configuration without ['Name'], or whose ['Domains'] is
    present but not a mapping (an empty [Domains:] entry, which is [None],
    included), makes the component raise before anything is done: no store
    is called, nothing is asked, and the document and the configuration are
    untouched.  A missing ['Name'] is reported first. *)
Theorem X16_malformed_configuration (w : World) (args : TemplateArguments)
        (info : dict string) (force : value) (account_info : AccountArguments)
        (s : state) :
  Dict.get "Name" (configuration s) = None
  \/ configured_domains (configuration s) = None ->
  component_elastic_load_balancer w args info force account_info s
  = (Err (match Dict.get "Name" (configuration s) with
          | None => KeyError "Name"
          | Some _ => AttributeError
          end), s).
Proof.
  intros H. unfold component_elastic_load_balancer, configured_domains in *.
  unfold get_configuration.
  destruct (Dict.get "Name" (configuration s)) as [lb|] eqn:N.
  - destruct H as [H|H]; [discriminate|].
    erewrite bind_run by reflexivity.
    erewrite bind_run by (unfold dict_getitem; rewrite N; reflexivity).
    destruct (Dict.get "Domains" (configuration s)) as [[]|];
      try discriminate; reflexivity.
  - erewrite bind_run by reflexivity.
    unfold bind, dict_getitem. rewrite N. reflexivity.
Qed.

Lemma X16_witness :
  component_elastic_load_balancer Sample.empty_world Sample.args Sample.info
    VNone Sample.account
    (Sample.start [("Name", VStr "AppLoadBalancer"); ("Domains", VNone);
                   ("HTTPPort", VInt 8080)])
  = (Err AttributeError,
     Sample.start [("Name", VStr "AppLoadBalancer"); ("Domains", VNone);
                   ("HTTPPort", VInt 8080)]).
Proof.
  exact (@X16_malformed_configuration Sample.empty_world Sample.args
           Sample.info VNone Sample.account
           (Sample.start [("Name", VStr "AppLoadBalancer"); ("Domains", VNone);
                          ("HTTPPort", VInt 8080)])
           (or_intror eq_refl)).
Defined.

(** ** The balancer name *)

(** X4: the balancer name is always a prefix of the stack name, then
    ["-"], then the version, and never anything else.  When stack name,
    dash and version fit in 32 characters the stack name is kept whole;
    when they do not and the version has at most 31 characters, the name is
    exactly 32 characters long. *)
Theorem X4_name_is_shortened_stack_name (stack_name version : string) :
  exists kept,
    get_load_balancer_name stack_name version = kept ++ "-" ++ version
    /\ String.prefix kept stack_name = true
    /\ (String.length stack_name + 1 + String.length version <= 32 ->
        kept = stack_name)
    /\ (String.length version <= 31 ->
        32 < String.length stack_name + 1 + String.length version ->
        String.length (get_load_balancer_name stack_name version) = 32).
Proof.
  unfold get_load_balancer_name.
  set (l := (32 - Z.of_nat (String.length version) - 1)%Z).
  exists (PyStr.slice_to l stack_name).
  split; [reflexivity|]. split; [apply PyStr_prefix_slice_to|]. split.
  - intros Hfit.
    rewrite PyStr_slice_to_nonneg by (unfold l; lia).
    apply PyStr_substring0_all. unfold l. lia.
  - intros Hv Hlong.
    rewrite PyStr_slice_to_nonneg by (unfold l; lia).
    rewrite PyStr_length_app, PyStr_length_substring0. simpl. unfold l. lia.
Qed.

Lemma X4_witness :
  String.length
    (get_load_balancer_name "toolong123456789012345678901234567890" "1") = 32
  /\ get_load_balancer_name "a" "1" = "a-1".
Proof.
  split.
  - destruct (X4_name_is_shortened_stack_name
                "toolong123456789012345678901234567890" "1")
      as (kept & _ & _ & _ & Hlen).
    apply Hlen; simpl; lia.
  - destruct (X4_name_is_shortened_stack_name "a" "1")
      as (kept & Hname & _ & Hfit & _).
    rewrite Hname, Hfit by (simpl; lia). reflexivity.
Defined.

(** ** Required keys *)

(** X17: the component never succeeds without ['Name'], ['HTTPPort'] and
    ['SecurityGroups'] in the configuration and ['StackName'] and
    ['StackVersion'] in the stack information: when one of them is missing
    the run raises.  ['HTTPPort'] is required even when ['Listeners'] and
    ['HealthCheckPort'] are both configured and the port is not used. *)
Theorem X17_required_keys (w : World) (args : TemplateArguments)
        (info : dict string) (force : value) (account_info : AccountArguments)
        (s : state) :
  Dict.get "Name" (configuration s) = None
  \/ Dict.get "HTTPPort" (configuration s) = None
  \/ Dict.get "SecurityGroups" (configuration s) = None
  \/ Dict.get "StackName" info = None
  \/ Dict.get "StackVersion" info = None ->
  exists e,
    fst (component_elastic_load_balancer w args info force account_info s)
    = Err e.
Proof.
  intros Hmissing.
  destruct (component_elastic_load_balancer w args info force account_info s)
    as [[[]|e] s'] eqn:H; [|now exists e].
  destruct (@component_full _ _ _ _ _ _ _ H)
    as (name & ds & s1 & ls & s2 & port & groups & sn & sv
        & Hn & _ & _ & _ & _ & _ & Hport & Hgroups & Hsn & Hsv & _).
  destruct Hmissing as [M|[M|[M|[M|M]]]]; congruence.
Qed.

Lemma X17_witness :
  exists e,
    fst (component_elastic_load_balancer Sample.empty_world Sample.args
           Sample.info VNone Sample.account
           (Sample.start [("Name", VStr "AppLoadBalancer");
                          ("SecurityGroups", VList [VStr "app-lb"]);
                          ("Listeners", Sample.http_listener);
                          ("HealthCheckPort", VInt 8080)]))
    = Err e.
Proof.
  apply (@X17_required_keys Sample.empty_world Sample.args Sample.info VNone
           Sample.account
           (Sample.start [("Name", VStr "AppLoadBalancer");
                          ("SecurityGroups", VList [VStr "app-lb"]);
                          ("Listeners", Sample.http_listener);
                          ("HealthCheckPort", VInt 8080)])).
  right. left. reflexivity.
Defined.
